(** * CosmeticsAnalyzer: a shallow embedding of cosmetics_analysis.py

    The script loads a CSV file into a pandas DataFrame, derives a
    year column, prints a number of aggregations, renders two charts
    and writes three summary files.  The embedding keeps the shape of
    the Python class: every method is a computation over the object
    ([self]) and the outside world (console, file system, the current
    matplotlib figure), and may raise.

    What lives outside the repository (the file system, the CSV
    reader, the date parser, the plotting back end) is an [Env] of
    outcomes: the methods are defined for every such environment. *)

From stdpp Require Import base decidable option list sorting strings pretty gmap.
From Stdlib Require Import ZArith QArith Ascii.
From Stdlib Require Strings.String.

Local Open Scope string_scope.
Local Open Scope list_scope.
Local Open Scope nat_scope.

(** ** Cells, columns and frames *)

(** A pandas Timestamp; only the calendar fields the script reads. *)
Record Timestamp := mkTimestamp {
  ts_year : Z;
  ts_month : Z;
  ts_day : Z;
  ts_seconds : Z
}.

(** One value of a column.  [NA] stands for every pandas null
    (None, NaN, NaT). *)
Inductive Cell :=
  | NA
  | Int (z : Z)
  | Str (s : string)
  | Date (t : Timestamp).

#[global] Instance Timestamp_eq_dec : EqDecision Timestamp.
Proof. solve_decision. Defined.

#[global] Instance Cell_eq_dec : EqDecision Cell.
Proof. solve_decision. Defined.

(** Columns in file order, each with its values in row order. *)
Definition Column : Type := string * list Cell.
Definition DataFrame : Type := list Column.

(** A Series of counts indexed by [K] (an Index or a MultiIndex). *)
Definition Series (K : Type) : Type := list (K * nat).

Module Pandas.

(** [name in df.columns] *)
Definition has_col (df : DataFrame) (name : string) : bool :=
  bool_decide (name ∈ df.*1).

(** [df[name]]; [None] is pandas' KeyError. *)
Fixpoint get_col (df : DataFrame) (name : string) : option (list Cell) :=
  match df with
  | [] => None
  | (n, c) :: rest => if decide (n = name) then Some c else get_col rest name
  end.

(** [df[name] = values]: replaces the column in place when it
    exists, appends it otherwise. *)
Fixpoint set_col (df : DataFrame) (name : string) (values : list Cell)
  : DataFrame :=
  match df with
  | [] => [(name, values)]
  | (n, c) :: rest =>
      if decide (n = name) then (n, values) :: rest
      else (n, c) :: set_col rest name values
  end.

(** [len(df)] *)
Definition len (df : DataFrame) : nat :=
  match df with
  | [] => 0
  | (_, c) :: _ => length c
  end.

Definition notna (c : Cell) : bool :=
  match c with NA => false | _ => true end.

Definition dropna (col : list Cell) : list Cell := List.filter notna col.

(** [Series.unique()]: distinct values in order of first appearance.
    A null, if any, is one of the values. *)
Definition unique {A} `{EqDecision A} (l : list A) : list A :=
  reverse (remove_dups (reverse l)).

(** [Series.nunique()]: nulls are not counted. *)
Definition nunique (col : list Cell) : nat := length (unique (dropna col)).

Definition count_eq {A} `{EqDecision A} (v : A) (l : list A) : nat :=
  length (List.filter (λ x, bool_decide (x = v)) l).

(** Order of the counts, largest first ([ascending=False]). *)
Definition count_ge {K} : relation (K * nat) := λ a b, (b.2 ≤ a.2)%nat.

#[global] Instance count_ge_dec {K} (a b : K * nat) : Decision (count_ge a b).
Proof. unfold count_ge. apply _. Defined.

(** [Series.value_counts()]: nulls dropped, one entry per distinct
    value, most frequent first. *)
Definition value_counts (col : list Cell) : Series Cell :=
  merge_sort count_ge
    ((λ v, (v, count_eq v (dropna col))) <$> unique (dropna col)).

(** The order pandas sorts group keys in.  Columns are homogeneous in
    practice; values of different kinds are ordered by kind. *)
Definition ts_key (t : Timestamp) : list Z :=
  [ts_year t; ts_month t; ts_day t; ts_seconds t].

Fixpoint lex_leb (a b : list Z) : bool :=
  match a, b with
  | [], _ => true
  | _ :: _, [] => false
  | x :: a', y :: b' => (x <? y)%Z || ((x =? y)%Z && lex_leb a' b')
  end.

Definition cell_leb (a b : Cell) : bool :=
  match a, b with
  | NA, _ => true
  | _, NA => false
  | Int x, Int y => (x <=? y)%Z
  | Int _, _ => true
  | _, Int _ => false
  | Date s, Date t => lex_leb (ts_key s) (ts_key t)
  | Date _, _ => true
  | _, Date _ => false
  | Str s, Str t => String.leb s t
  end.

Definition cell_le : relation Cell := λ a b, cell_leb a b = true.

Definition pair_le : relation (Cell * Cell) := λ a b,
  (cell_leb a.1 b.1 && (negb (cell_leb b.1 a.1) || cell_leb a.2 b.2)) = true.

#[global] Instance cell_le_dec a b : Decision (cell_le a b).
Proof. unfold cell_le. apply _. Defined.

#[global] Instance pair_le_dec a b : Decision (pair_le a b).
Proof. unfold pair_le. apply _. Defined.

(** The keys of [groupby(key)]: distinct non-null values, sorted. *)
Definition group_keys (keycol : list Cell) : list Cell :=
  merge_sort cell_le (unique (dropna keycol)).

(** The values of [valcol] in the rows whose key is [k]. *)
Definition group_values (k : Cell) (keycol valcol : list Cell) : list Cell :=
  snd <$> List.filter (λ r, bool_decide (r.1 = k)) (zip keycol valcol).

(** [df.groupby(key)[val].nunique()] *)
Definition groupby_nunique (keycol valcol : list Cell) : Series Cell :=
  (λ k, (k, nunique (group_values k keycol valcol))) <$> group_keys keycol.

(** [df.groupby(key)[val].unique()], each group's array of distinct
    values (nulls included). *)
Definition groupby_unique (keycol valcol : list Cell)
  : list (Cell * list Cell) :=
  (λ k, (k, unique (group_values k keycol valcol))) <$> group_keys keycol.

(** The rows a two-key groupby keeps: both keys non-null. *)
Definition key_pairs (k1col k2col : list Cell) : list (Cell * Cell) :=
  List.filter (λ r, notna r.1 && notna r.2) (zip k1col k2col).

(** [df.groupby([k1, k2]).size()] *)
Definition groupby_size2 (k1col k2col : list Cell) : Series (Cell * Cell) :=
  let rows := key_pairs k1col k2col in
  (λ k, (k, count_eq k rows)) <$> merge_sort pair_le (unique rows).

(** The frame [unstack()] builds from a two-level Series: the row
    and column labels, and the entries the Series has.  A cell
    whose (row, column) pair has no entry is NaN. *)
Record Matrix := mkMatrix {
  m_index : list Cell;
  m_columns : list Cell;
  m_entries : Series (Cell * Cell)
}.

Fixpoint series_get {K} `{EqDecision K} (s : Series K) (k : K) : option nat :=
  match s with
  | [] => None
  | (k', n) :: rest => if decide (k' = k) then Some n else series_get rest k
  end.

Definition unstack (s : Series (Cell * Cell)) : Matrix :=
  {| m_index := merge_sort cell_le (unique (s.*1.*1));
     m_columns := merge_sort cell_le (unique (s.*1.*2));
     m_entries := s |}.

(** The cell at row [r], column [c]; [None] is NaN. *)
Definition m_cell (m : Matrix) (r c : Cell) : option nat :=
  series_get (m_entries m) (r, c).

(** [frame.sum(axis=1)]: per row, the sum of the cells that are not
    NaN. *)
Definition row_sums (m : Matrix) : Series Cell :=
  (λ r, (r, sum_list ((λ c, default 0 (m_cell m r c)) <$> m_columns m)))
    <$> m_index m.

(** [frame[c]]: one column of the matrix, NaN kept. *)
Definition matrix_col (m : Matrix) (c : Cell) : list (option nat) :=
  (λ r, m_cell m r c) <$> m_index m.

(** [df.isnull().sum()] *)
Definition null_counts (df : DataFrame) : list (string * nat) :=
  (λ c : Column, (c.1, length (List.filter (λ x, negb (notna x)) c.2))) <$> df.

Definition is_int (c : Cell) : bool := match c with Int _ => true | _ => false end.
Definition is_date (c : Cell) : bool := match c with Date _ => true | _ => false end.

(** The dtype pandas shows for a column, read off the values it holds;
    it is only printed. *)
Definition dtype (col : list Cell) : string :=
  if forallb is_int col && negb (bool_decide (col = [])) then "int64"
  else if forallb (λ c, is_int c || negb (notna c)) col
          && existsb is_int col then "float64"
  else if forallb (λ c, is_date c || negb (notna c)) col
          && existsb is_date col then "datetime64[ns]"
  else "object".

(** [df.dtypes] *)
Definition dtypes (df : DataFrame) : list (string * string) :=
  (λ c : Column, (c.1, dtype c.2)) <$> df.

End Pandas.

(** ** Exceptions, the outside world and the object *)

Inductive Exn :=
  | FileNotFoundError (msg : string)
  | OSError (msg : string)
  | ParserError (msg : string)
  | KeyError (key : string)
  | AttributeError (msg : string)
  | IndexError (msg : string)
  | ValueError (msg : string)
  | TypeError (msg : string).

(** [str(e)] *)
Definition str (e : Exn) : string :=
  match e with
  | FileNotFoundError m | OSError m | ParserError m
  | AttributeError m | IndexError m | ValueError m | TypeError m => m
  | KeyError k => "'" +:+ k +:+ "'"
  end.

Inductive Res (A : Type) :=
  | Ok (a : A)
  | Raise (e : Exn).
Arguments Ok {A} a.
Arguments Raise {A} e.

(** One row of the per-company table: the company, its number of
    distinct products and of distinct chemicals. *)
Record StatRow := mkStatRow {
  company : Cell;
  n_products : nat;
  n_chemicals : nat
}.

(** The current matplotlib figure. *)
Record Figure := mkFigure {
  fig_size : option (nat * nat);
  fig_lines : list (Cell * (list Cell * list (option nat)));
  fig_bars : Series Cell;
  fig_title : string;
  fig_xlabel : string;
  fig_ylabel : string;
  fig_legend : bool;
  fig_xtick_rotation : nat
}.

Definition blank_figure : Figure :=
  {| fig_size := None; fig_lines := []; fig_bars := []; fig_title := "";
     fig_xlabel := ""; fig_ylabel := ""; fig_legend := false;
     fig_xtick_rotation := 0 |}.

(** What a written file holds. *)
Inductive FileContent :=
  | CsvFrame (d : DataFrame)
  | CsvCounts (header : list string) (s : Series Cell)
  | CsvStats (rows : list StatRow)
  | Png (f : Figure).

(** What [print] shows: a line of text, or a table.  [OutMean] is
    the f-string that formats a mean with [:.1f]; it carries the
    exact mean ([None] for NaN), the decimal rendering of the float is
    not modelled. *)
Inductive Output :=
  | OutText (s : string)
  | OutSeries (s : Series Cell)
  | OutSeries2 (s : Series (Cell * Cell))
  | OutStats (rows : list StatRow)
  | OutDtypes (l : list (string * string))
  | OutNulls (l : list (string * nat))
  | OutMean (label : string) (mean : option Q).

Record World := mkWorld {
  stdout : list Output;
  dirs : gset string;
  files : gmap string FileContent;
  figure : Figure
}.

(** The instance attributes of [CosmeticsAnalyzer]. *)
Record Analyzer := mkAnalyzer {
  data_path : string;
  df : option DataFrame;
  results_dir : string;
  timestamp : string
}.

(** The outcomes of everything the script asks of its platform.
    [to_datetime_error] is what [pd.to_datetime(..., errors='coerce')]
    raises on a column it does not take (mixed UTC offsets, values of
    a type it does not convert), [None] when it returns; [dt_error] is
    what the [.dt] accessor raises on a column pandas left with the
    object dtype, [None] on a datetime column. *)
Record Env := mkEnv {
  abspath : string → string;
  home : string;
  now : string;
  path_exists : string → bool;
  read_csv : string → Res DataFrame;
  makedirs : string → option Exn;
  savefig : string → option Exn;
  to_csv : string → option Exn;
  plot_bar : Series Cell → option Exn;
  parse_date : list Cell → Cell → option Timestamp;
  to_datetime_error : list Cell → option Exn;
  dt_error : list Cell → option Exn
}.

(** ** Computations: state of the object and the world, may raise *)

Record State := mkState { self : Analyzer; world : World }.

Definition M (A : Type) : Type := State → State * Res A.

#[global] Instance M_ret : MRet M := λ A a s, (s, Ok a).
#[global] Instance M_bind : MBind M := λ A B f m s,
  match m s with
  | (s', Ok a) => f a s'
  | (s', Raise e) => (s', Raise e)
  end.

Definition raise {A} (e : Exn) : M A := λ s, (s, Raise e).

(** [try: body  except Exception as e: handler e] *)
Definition try_except {A} (body : M A) (handler : Exn → M A) : M A := λ s,
  match body s with
  | (s', Ok a) => (s', Ok a)
  | (s', Raise e) => handler e s'
  end.

Definition gets {A} (f : Analyzer → A) : M A := λ s, (s, Ok (f (self s))).

Definition set_results_dir (d : string) : M unit := λ s,
  ({| self := {| data_path := data_path (self s); df := df (self s);
                 results_dir := d; timestamp := timestamp (self s) |};
      world := world s |}, Ok ()).

Definition set_df (d : DataFrame) : M unit := λ s,
  ({| self := {| data_path := data_path (self s); df := Some d;
                 results_dir := results_dir (self s);
                 timestamp := timestamp (self s) |};
      world := world s |}, Ok ()).

Definition modify_world (f : World → World) : M unit := λ s,
  ({| self := self s; world := f (world s) |}, Ok ()).

Definition print (o : Output) : M unit :=
  modify_world (λ w, {| stdout := stdout w ++ [o]; dirs := dirs w;
                        files := files w; figure := figure w |}).

Definition print_text (s : string) : M unit := print (OutText s).

Definition modify_figure (f : Figure → Figure) : M unit :=
  modify_world (λ w, {| stdout := stdout w; dirs := dirs w;
                        files := files w; figure := f (figure w) |}).

Definition write_file (path : string) (c : FileContent) : M unit :=
  modify_world (λ w, {| stdout := stdout w; dirs := dirs w;
                        files := <[path := c]> (files w);
                        figure := figure w |}).

(** [for x in l: body x] *)
Fixpoint for_ {A} (l : list A) (body : A → M unit) : M unit :=
  match l with
  | [] => mret ()
  | x :: rest => body x ;; for_ rest body
  end.

(** [self.df], which must be a frame by now. *)
Definition the_df : M DataFrame :=
  o ← gets df;
  match o with
  | Some d => mret d
  | None => raise (AttributeError "'NoneType' object")
  end.

(** [frame[name]] *)
Definition column_of (d : DataFrame) (name : string) : M (list Cell) :=
  match Pandas.get_col d name with
  | Some c => mret c
  | None => raise (KeyError name)
  end.

(** [self.df[name]] *)
Definition column (name : string) : M (list Cell) :=
  d ← the_df; column_of d name.

Definition nl : string := String (Ascii.ascii_of_nat 10) EmptyString.

(** [os.path.join(a, b)] on a POSIX system. *)
Definition path_join (a b : string) : string :=
  if String.prefix "/" b then b
  else if bool_decide (a = "") then b
  else if String.prefix "/" (String.rev a) then a +:+ b
  else a +:+ "/" +:+ b.

(** ** The methods of CosmeticsAnalyzer *)

Section Methods.
Context (env : Env).

(** [os.makedirs(path, exist_ok=True)] *)
Definition os_makedirs (path : string) : M unit :=
  match makedirs env path with
  | Some e => raise e
  | None =>
      modify_world (λ w, {| stdout := stdout w; dirs := {[path]} ∪ dirs w;
                            files := files w; figure := figure w |})
  end.

(** [pd.read_csv(path)] *)
Definition pd_read_csv (path : string) : M DataFrame :=
  match read_csv env path with
  | Ok d => mret d
  | Raise e => raise e
  end.

(** What [pd.to_datetime(..., errors='coerce')] makes of one cell of
    a column: a null has no date, a date is kept, anything else is
    parsed (the parser sees the column, whose first values fix the
    format). *)
Definition date_of (col : list Cell) (c : Cell) : option Timestamp :=
  match c with
  | NA => None
  | Date t => Some t
  | _ => parse_date env col c
  end.

(** The values of the column [pd.to_datetime(col, errors='coerce')]
    returns, when it returns: what has no date becomes null. *)
Definition coerced (col : list Cell) : list Cell :=
  (λ c, from_option Date NA (date_of col c)) <$> col.

(** [pd.to_datetime(col, errors='coerce')]; the call itself may raise. *)
Definition to_datetime (col : list Cell) : M (list Cell) :=
  match to_datetime_error env col with
  | Some e => raise e
  | None => mret (coerced col)
  end.

(** [col.dt.year]; the accessor exists on datetime columns only. *)
Definition dt_year (col : list Cell) : M (list Cell) :=
  match dt_error env col with
  | Some e => raise e
  | None =>
      if forallb (λ c, Pandas.is_date c || negb (Pandas.notna c)) col then
        mret ((λ c, match c with Date t => Int (ts_year t) | _ => NA end) <$> col)
      else raise (AttributeError "Can only use .dt accessor with datetimelike values")
  end.

(** [frame.to_csv(path)], [series.to_csv(path)] *)
Definition pd_to_csv (path : string) (c : FileContent) : M unit :=
  match to_csv env path with
  | Some e => raise e
  | None => write_file path c
  end.

(** [plt.savefig(path, bbox_inches='tight')] *)
Definition plt_savefig (path : string) : M unit :=
  match savefig env path with
  | Some e => raise e
  | None => λ s, write_file path (Png (figure (world s))) s
  end.

(** [plt.figure(figsize=size)] *)
Definition plt_figure (size : nat * nat) : M unit :=
  modify_figure (λ _, {| fig_size := Some size; fig_lines := [];
                         fig_bars := []; fig_title := ""; fig_xlabel := "";
                         fig_ylabel := ""; fig_legend := false;
                         fig_xtick_rotation := 0 |}).

(** [plt.plot(xs, ys, label=label)] *)
Definition plt_plot (xs : list Cell) (ys : list (option nat)) (label : Cell)
  : M unit :=
  modify_figure (λ f, {| fig_size := fig_size f;
                         fig_lines := fig_lines f ++ [(label, (xs, ys))];
                         fig_bars := fig_bars f; fig_title := fig_title f;
                         fig_xlabel := fig_xlabel f; fig_ylabel := fig_ylabel f;
                         fig_legend := fig_legend f;
                         fig_xtick_rotation := fig_xtick_rotation f |}).

(** [series.plot(kind='bar')] *)
Definition series_plot_bar (s : Series Cell) : M unit :=
  match plot_bar env s with
  | Some e => raise e
  | None =>
      modify_figure (λ f, {| fig_size := fig_size f; fig_lines := fig_lines f;
                             fig_bars := s; fig_title := fig_title f;
                             fig_xlabel := fig_xlabel f;
                             fig_ylabel := fig_ylabel f;
                             fig_legend := fig_legend f;
                             fig_xtick_rotation := fig_xtick_rotation f |})
  end.

Definition plt_title (t : string) : M unit :=
  modify_figure (λ f, {| fig_size := fig_size f; fig_lines := fig_lines f;
                         fig_bars := fig_bars f; fig_title := t;
                         fig_xlabel := fig_xlabel f; fig_ylabel := fig_ylabel f;
                         fig_legend := fig_legend f;
                         fig_xtick_rotation := fig_xtick_rotation f |}).

Definition plt_xlabel (t : string) : M unit :=
  modify_figure (λ f, {| fig_size := fig_size f; fig_lines := fig_lines f;
                         fig_bars := fig_bars f; fig_title := fig_title f;
                         fig_xlabel := t; fig_ylabel := fig_ylabel f;
                         fig_legend := fig_legend f;
                         fig_xtick_rotation := fig_xtick_rotation f |}).

Definition plt_ylabel (t : string) : M unit :=
  modify_figure (λ f, {| fig_size := fig_size f; fig_lines := fig_lines f;
                         fig_bars := fig_bars f; fig_title := fig_title f;
                         fig_xlabel := fig_xlabel f; fig_ylabel := t;
                         fig_legend := fig_legend f;
                         fig_xtick_rotation := fig_xtick_rotation f |}).

Definition plt_legend : M unit :=
  modify_figure (λ f, {| fig_size := fig_size f; fig_lines := fig_lines f;
                         fig_bars := fig_bars f; fig_title := fig_title f;
                         fig_xlabel := fig_xlabel f; fig_ylabel := fig_ylabel f;
                         fig_legend := true;
                         fig_xtick_rotation := fig_xtick_rotation f |}).

Definition plt_xticks (rotation : nat) : M unit :=
  modify_figure (λ f, {| fig_size := fig_size f; fig_lines := fig_lines f;
                         fig_bars := fig_bars f; fig_title := fig_title f;
                         fig_xlabel := fig_xlabel f; fig_ylabel := fig_ylabel f;
                         fig_legend := fig_legend f;
                         fig_xtick_rotation := rotation |}).

Definition plt_close : M unit := modify_figure (λ _, blank_figure).

(** Lines 17-27. *)
Definition _setup_directories : M unit :=
  try_except
    (rd ← gets results_dir;
     os_makedirs rd;;
     print_text (nl +:+ "[STATUS] the results will be saved to: " +:+ rd))
    (λ e,
     print_text (nl +:+ "[WARNING] error: could not create the primary results directory: " +:+ str e);;
     let desktop := path_join (home env) "Desktop" in
     set_results_dir (path_join desktop "cosmetics_analysis");;
     rd ← gets results_dir;
     os_makedirs rd;;
     print_text ("[FALLBACK] using desktop directory: " +:+ rd)).

(** Lines 8-15: [CosmeticsAnalyzer(data_path)] in world [w]; the
    object exists for the caller only when the constructor returns. *)
Definition __init__ (path : string) (w : World) : World * Res Analyzer :=
  let fresh := {| data_path := path; df := None;
                  results_dir := abspath env "analysis_results";
                  timestamp := now env |} in
  match _setup_directories {| self := fresh; world := w |} with
  | (s, Ok _) => (world s, Ok (self s))
  | (s, Raise e) => (world s, Raise e)
  end.

Definition date_cols : list string :=
  ["InitialDateReported"; "MostRecentDateReported"; "DiscontinuedDate";
   "ChemicalCreatedAt"; "ChemicalUpdatedAt"].

(** Lines 29-61. *)
Definition load_data : M bool :=
  print_text (nl +:+ "[1/5] Loading data...");;
  try_except
    (p ← gets data_path;
     let abs_path := abspath env p in
     print_text ("looking for data at: " +:+ abs_path);;
     (if negb (path_exists env abs_path)
      then raise (FileNotFoundError
                    ("error: the data file not found at " +:+ abs_path))
      else mret ());;
     d ← pd_read_csv abs_path;
     set_df d;;
     for_ date_cols (λ col,
       d ← the_df;
       if Pandas.has_col d col then
         c ← column_of d col;
         dates ← to_datetime c;
         set_df (Pandas.set_col d col dates)
       else mret ());;
     d ← the_df;
     (if Pandas.has_col d "InitialDateReported" then
        c ← column_of d "InitialDateReported";
        y ← dt_year c;
        set_df (Pandas.set_col d "ReportYear" y)
      else mret ());;
     d ← the_df;
     print_text ("yay! Success!! Loaded " +:+ pretty (Pandas.len d) +:+ " records");;
     mret true)
    (λ e,
     print_text (nl +:+ "[ERROR] oh no! Failed to load data: " +:+ str e);;
     mret false).

Definition cat_cols : list string :=
  ["CompanyName"; "BrandName"; "PrimaryCategory"; "SubCategory"; "ChemicalName"].

(** Lines 63-82. *)
Definition basic_analysis : M unit :=
  print_text (nl +:+ "[2/5] beep boop running basic analysis......");;
  print_text (nl +:+ "---- Data Structure ----");;
  d ← the_df;
  print_text ("Total records: " +:+ pretty (Pandas.len d));;
  print_text (nl +:+ "Data types:");;
  print (OutDtypes (Pandas.dtypes d));;
  print_text (nl +:+ "---- Missing Values ----");;
  print (OutNulls (Pandas.null_counts d));;
  print_text (nl +:+ "---- Unique Counts ----");;
  for_ cat_cols (λ col,
    d ← the_df;
    if Pandas.has_col d col then
      c ← column_of d col;
      print_text (col +:+ ": " +:+ pretty (Pandas.nunique c) +:+ " unique values")
    else mret ()).

(** Lines 177-181. *)
Definition _save_plot (filename : string) : M unit :=
  rd ← gets results_dir;
  ts ← gets timestamp;
  let path := path_join rd (ts +:+ "_" +:+ filename) in
  plt_savefig path;;
  print_text ("Saved plot: " +:+ filename).

(** Lines 84-115. *)
Definition chemical_analysis : M unit :=
  print_text (nl +:+ "[3/5] beep boop analyzing chemical data.....");;
  chem ← column "ChemicalName";
  let chem_counts := Pandas.value_counts chem in
  print_text (nl +:+ "---- Top Chemicals ----");;
  print (OutSeries (take 20 chem_counts));;
  print_text (nl +:+ "---- Chemicals by Catagory ----");;
  cat ← column "PrimaryCategory";
  chem ← column "ChemicalName";
  let chem_by_category := Pandas.groupby_size2 cat chem in
  print (OutSeries2 (take 20 chem_by_category));;
  d ← the_df;
  if Pandas.has_col d "ReportYear" then
    print_text (nl +:+ "---- Chemical Trends over Time ----");;
    year ← column "ReportYear";
    chem ← column "ChemicalName";
    let chem_trends := Pandas.unstack (Pandas.groupby_size2 year chem) in
    print (OutSeries (Pandas.row_sums chem_trends));;
    let top_chems := (take 5 chem_counts).*1 in
    plt_figure (12, 6);;
    for_ top_chems (λ chem,
      if bool_decide (chem ∈ Pandas.m_columns chem_trends) then
        plt_plot (Pandas.m_index chem_trends)
                 (Pandas.matrix_col chem_trends chem) chem
      else mret ());;
    plt_title "Top 5 Chemicals Over Time";;
    plt_xlabel "Year";;
    plt_ylabel "Number of Products";;
    plt_legend;;
    _save_plot "chemical_trends.png";;
    plt_close
  else mret ().

(** The per-company table of lines 123-126 and 198-201, before any
    sorting: [groupby('CompanyName').agg({'ProductName': 'nunique',
    'ChemicalName': 'nunique'})]. *)
Definition company_table (comp prod chem : list Cell) : list StatRow :=
  (λ k, {| company := k;
           n_products := Pandas.nunique (Pandas.group_values k comp prod);
           n_chemicals := Pandas.nunique (Pandas.group_values k comp chem) |})
    <$> Pandas.group_keys comp.

(** [sort_values('ProductName', ascending=False)] *)
Definition products_ge : relation StatRow :=
  λ a b, (n_products b ≤ n_products a)%nat.

#[global] Instance products_ge_dec a b : Decision (products_ge a b).
Proof. unfold products_ge. apply _. Defined.

Definition sort_by_products (t : list StatRow) : list StatRow :=
  merge_sort products_ge t.

(** [df[mask]]: the rows where the mask holds. *)
Fixpoint select {A} (mask : list bool) (l : list A) : list A :=
  match mask, l with
  | b :: mask', x :: l' => if b then x :: select mask' l' else select mask' l'
  | _, _ => []
  end.

Definition filter_rows (d : DataFrame) (mask : list bool) : DataFrame :=
  (λ c : Column, (c.1, select mask c.2)) <$> d.

(** Lines 117-156. *)
Definition product_analysis : M unit :=
  print_text (nl +:+ "[4/5] Analyzing product data...");;
  print_text (nl +:+ "---- Company Statistics ----");;
  comp ← column "CompanyName";
  prod ← column "ProductName";
  chem ← column "ChemicalName";
  let company_stats := sort_by_products (company_table comp prod chem) in
  print (OutStats (take 10 company_stats));;
  print_text (nl +:+ "---- Catagory Distrobution ----");;
  cat ← column "PrimaryCategory";
  let category_dist := Pandas.value_counts cat in
  print (OutSeries category_dist);;
  print_text (nl +:+ "---- Subcatagory Breakdown ----");;
  cat ← column "PrimaryCategory";
  sub ← column "SubCategory";
  let subcat_dist := Pandas.groupby_size2 cat sub in
  print (OutSeries2 (take 20 subcat_dist));;
  d ← the_df;
  if Pandas.has_col d "DiscontinuedDate" then
    dd ← column "DiscontinuedDate";
    d ← the_df;
    let discontinued := filter_rows d (Pandas.notna <$> dd) in
    print_text (nl +:+ "--- Discontinued Products: "
                   +:+ pretty (Pandas.len discontinued) +:+ " ===");;
    if bool_decide (0 < Pandas.len discontinued) then
      dchem ← column_of discontinued "ChemicalName";
      let disc_chem := Pandas.value_counts dchem in
      print_text (nl +:+ "Chemicals in discontinued products:");;
      print (OutSeries (take 10 disc_chem));;
      plt_figure (10, 6);;
      series_plot_bar (take 10 disc_chem);;
      plt_title "Top Chemicals in Discontinued Products";;
      plt_xticks 45;;
      _save_plot "discontinued_chemicals.png";;
      plt_close
    else mret ()
  else mret ().

(** [series.mean()] of a Series of counts; NaN when it is empty. *)
Definition mean (l : list nat) : option Q :=
  match l with
  | [] => None
  | _ => Some (Qmake (Z.of_nat (sum_list l)) (Pos.of_nat (length l)))
  end.

(** Line 164 and the [apply(len)] of line 165: per product, the
    length of the array [unique()] returns. *)
Definition product_chem_counts (prod chem : list Cell) : list nat :=
  (λ g : Cell * list Cell, length g.2) <$> Pandas.groupby_unique prod chem.

(** Lines 158-175. *)
Definition advanced_analysis : M unit :=
  print_text (nl +:+ "[5/5] beep boop running advanced analyses...");;
  print_text (nl +:+ "---- Chemical Combinations ----");;
  prod ← column "ProductName";
  chem ← column "ChemicalName";
  print (OutMean (nl +:+ "Average chemicals per product: ")
                 (mean (product_chem_counts prod chem)));;
  print_text (nl +:+ "---- Brand Chemical Profiles ----");;
  brand ← column "BrandName";
  chem ← column "ChemicalName";
  let brand_chems :=
    merge_sort Pandas.count_ge (Pandas.groupby_nunique brand chem) in
  print (OutSeries (take 10 brand_chems));;
  print_text (nl +:+ "Chemical Diversity by Catagory");;
  cat ← column "PrimaryCategory";
  chem ← column "ChemicalName";
  let category_diversity := Pandas.groupby_nunique cat chem in
  print (OutSeries (merge_sort Pandas.count_ge category_diversity)).

(** Lines 183-206. *)
Definition save_results : M unit :=
  print_text (nl +:+ "beep boop saving results...");;
  try_except
    (rd ← gets results_dir;
     ts ← gets timestamp;
     let data_path := path_join rd (ts +:+ "_cleaned_data.csv") in
     d ← the_df;
     pd_to_csv data_path (CsvFrame d);;
     let chem_path := path_join rd (ts +:+ "_chemical_counts.csv") in
     chem ← column "ChemicalName";
     pd_to_csv chem_path (CsvCounts ["Count"] (Pandas.value_counts chem));;
     let company_path := path_join rd (ts +:+ "_company_stats.csv") in
     comp ← column "CompanyName";
     prod ← column "ProductName";
     chem ← column "ChemicalName";
     pd_to_csv company_path (CsvStats (company_table comp prod chem));;
     rd ← gets results_dir;
     print_text ("Results saved to: " +:+ rd))
    (λ e, print_text ("Error saving results: " +:+ str e)).

(** Lines 208-217. *)
Definition run_full_analysis : M unit :=
  ok ← load_data;
  if negb ok then mret ()
  else
    basic_analysis;;
    chemical_analysis;;
    product_analysis;;
    advanced_analysis;;
    save_results.

End Methods.

(** ** A small platform and data set to run the methods on *)

Module Fixture.

Definition digit (a : Ascii.ascii) : option Z :=
  let n := Ascii.nat_of_ascii a in
  if (48 <=? n) && (n <=? 57) then Some (Z.of_nat (n - 48)) else None.

Fixpoint number (acc : Z) (l : list Ascii.ascii) : option Z :=
  match l with
  | [] => Some acc
  | a :: rest => d ← digit a; number (10 * acc + d)%Z rest
  end.

(** Dates written MM/DD/YYYY, the format of the data set. *)
Definition parse_mdy (s : string) : option Timestamp :=
  match String.list_ascii_of_string s with
  | [m1; m2; s1; d1; d2; s2; y1; y2; y3; y4] =>
      if bool_decide (s1 = "/"%char ∧ s2 = "/"%char) then
        m ← number 0 [m1; m2];
        d ← number 0 [d1; d2];
        y ← number 0 [y1; y2; y3; y4];
        if bool_decide (1 ≤ m ≤ 12 ∧ 1 ≤ d ≤ 31)%Z
        then Some (mkTimestamp y m d 0) else None
      else None
  | _ => None
  end.

Definition parse_cell (_ : list Cell) (c : Cell) : option Timestamp :=
  match c with
  | Str s => parse_mdy s
  | Date t => Some t
  | _ => None
  end.

(** A platform on which the data file is at [/data/cosmetics.csv]
    and holds [frame]; directory creation, chart and table writes
    fail as [mk], [sf] and [tc] say. *)
Definition platform (frame : DataFrame) (mk sf tc : string → option Exn) : Env :=
  {| abspath := λ p, if String.prefix "/" p then p else "/work/" +:+ p;
     home := "/home/user";
     now := "20240131_093000";
     path_exists := λ p, bool_decide (p = "/data/cosmetics.csv");
     read_csv := λ _, Ok frame;
     makedirs := mk;
     savefig := sf;
     to_csv := tc;
     plot_bar := λ s, match s with
                      | [] => Some (IndexError "index 0 is out of bounds")
                      | _ => None
                      end;
     parse_date := parse_cell;
     to_datetime_error := λ _, None;
     dt_error := λ _, None |}.

Definition always_ok : string → option Exn := λ _, None.
Definition always_fails : string → option Exn :=
  λ _, Some (OSError "[Errno 13] Permission denied").
Definition fails_at (p : string) : string → option Exn :=
  λ q, if bool_decide (q = p) then Some (OSError "[Errno 28] No space left on device")
       else None.

(** Five records, two chemicals, two companies. *)
Definition five_rows : DataFrame :=
  [ ("CompanyName", [Str "Acme"; Str "Acme"; Str "Acme"; Str "Bolt"; Str "Bolt"]);
    ("BrandName", [Str "A1"; Str "A1"; Str "A2"; Str "B1"; Str "B1"]);
    ("PrimaryCategory", [Str "Makeup"; Str "Makeup"; Str "Hair"; Str "Hair"; Str "Hair"]);
    ("SubCategory", [Str "Lip"; Str "Eye"; Str "Dye"; Str "Dye"; Str "Gel"]);
    ("ProductName", [Str "Gloss"; Str "Liner"; Str "Tint"; Str "Tint"; Str "Hold"]);
    ("ChemicalName", [Str "Titanium dioxide"; Str "Titanium dioxide";
                      Str "Carbon black"; Str "Titanium dioxide"; Str "Carbon black"]);
    ("InitialDateReported", [Str "06/17/2009"; Str "07/01/2009"; Str "not a date";
                             NA; Str "02/28/2010"]);
    ("DiscontinuedDate", [NA; Str "01/15/2011"; NA; NA; Str "03/03/2012"]) ].

(** The same records without the optional date columns. *)
Definition no_dates : DataFrame := take 6 five_rows.

(** No record is discontinued. *)
Definition none_discontinued : DataFrame :=
  take 7 five_rows ++ [("DiscontinuedDate", [NA; NA; NA; NA; NA])].

(** Three companies, the first in the alphabet with the fewest
    products. *)
Definition three_companies : DataFrame :=
  [ ("CompanyName", [Str "Acme"; Str "Bolt"; Str "Bolt"; Str "Bolt";
                     Str "Cove"; Str "Cove"]);
    ("BrandName", [Str "A1"; Str "B1"; Str "B1"; Str "B2"; Str "C1"; Str "C1"]);
    ("PrimaryCategory", [Str "Makeup"; Str "Makeup"; Str "Hair"; Str "Hair";
                         Str "Skin"; Str "Skin"]);
    ("SubCategory", [Str "Lip"; Str "Eye"; Str "Dye"; Str "Gel";
                     Str "Balm"; Str "Wax"]);
    ("ProductName", [Str "Gloss"; Str "Liner"; Str "Tint"; Str "Hold";
                     Str "Salve"; Str "Polish"]);
    ("ChemicalName", [Str "Titanium dioxide"; Str "Titanium dioxide";
                      Str "Carbon black"; Str "Carbon black";
                      Str "Retinol"; Str "Titanium dioxide"]) ].

(** One product, two records, one of which names no chemical. *)
Definition unnamed_chemical : DataFrame :=
  [ ("CompanyName", [Str "Acme"; Str "Acme"]);
    ("BrandName", [Str "A1"; Str "A1"]);
    ("PrimaryCategory", [Str "Makeup"; Str "Makeup"]);
    ("SubCategory", [Str "Lip"; Str "Lip"]);
    ("ProductName", [Str "Gloss"; Str "Gloss"]);
    ("ChemicalName", [Str "Titanium dioxide"; NA]) ].

Definition empty_world : World :=
  {| stdout := []; dirs := ∅; files := ∅; figure := blank_figure |}.

Definition analyzer (path : string) (frame : option DataFrame) : Analyzer :=
  {| data_path := path; df := frame;
     results_dir := "/work/analysis_results";
     timestamp := "20240131_093000" |}.

Definition start (path : string) (frame : option DataFrame) : State :=
  {| self := analyzer path frame; world := empty_world |}.

(** The platform where everything works. *)
Definition fair (frame : DataFrame) : Env :=
  platform frame always_ok always_ok always_ok.

(** [frame] as [load_data] leaves it on the fair platform. *)
Definition loaded (frame : DataFrame) : DataFrame :=
  default [] (df (self (load_data (fair frame)
                          (start "/data/cosmetics.csv" None)).1)).

(** An analyzer whose dataset is [frame], loaded. *)
Definition ready (frame : DataFrame) : State :=
  start "/data/cosmetics.csv" (Some (loaded frame)).

(** A column of a frame that has it. *)
Definition col (frame : DataFrame) (name : string) : list Cell :=
  default [] (Pandas.get_col frame name).

Definition results_file (name : string) : string :=
  "/work/analysis_results/20240131_093000_" +:+ name.

End Fixture.

(** ** Vocabulary of the properties *)

(** The two places the constructor may put the results in. *)
Definition primary_dir (env : Env) : string := abspath env "analysis_results".
Definition fallback_dir (env : Env) : string :=
  path_join (path_join (home env) "Desktop") "cosmetics_analysis".

(** What the console shows when the data file is not there. *)
Definition missing_file_report (abs_path : string) : list Output :=
  [ OutText (nl +:+ "[1/5] Loading data...");
    OutText ("looking for data at: " +:+ abs_path);
    OutText (nl +:+ "[ERROR] oh no! Failed to load data: "
                +:+ "error: the data file not found at " +:+ abs_path) ].

(** The state with [lines] added to the console, nothing else changed. *)
Definition with_output (s : State) (lines : list Output) : State :=
  {| self := self s;
     world := {| stdout := stdout (world s) ++ lines;
                 dirs := dirs (world s);
                 files := files (world s);
                 figure := figure (world s) |} |}.

(** One turn of the loop of lines 48-50, on the frame. *)
Definition coerce_column (env : Env) (d : DataFrame) (col : string) : DataFrame :=
  match Pandas.get_col d col with
  | Some c => Pandas.set_col d col (coerced env c)
  | None => d
  end.

(** The frame after the loop over [cols]. *)
Definition coerce_dates (env : Env) (d : DataFrame) (cols : list string)
  : DataFrame :=
  foldl (coerce_column env) d cols.

(** The loop of lines 48-50 on the frame: it stops at the first column
    [pd.to_datetime] raises on, with the frame as it then is. *)
Fixpoint coerce_loop (env : Env) (d : DataFrame) (cols : list string)
  : DataFrame * option Exn :=
  match cols with
  | [] => (d, None)
  | col :: cols =>
      match Pandas.get_col d col with
      | None => coerce_loop env d cols
      | Some c =>
          match to_datetime_error env c with
          | Some e => (d, Some e)
          | None => coerce_loop env (Pandas.set_col d col (coerced env c)) cols
          end
      end
  end.

(** [pd.to_datetime] takes the column [col] of the frame, if there is
    one. *)
Definition coerces (env : Env) (d : DataFrame) (col : string) : bool :=
  match Pandas.get_col d col with
  | Some c => bool_decide (to_datetime_error env c = None)
  | None => true
  end.

(** [.dt] takes the coerced InitialDateReported column, if there is
    one. *)
Definition year_readable (env : Env) (d : DataFrame) : bool :=
  match Pandas.get_col d "InitialDateReported" with
  | Some raw => bool_decide (dt_error env (coerced env raw) = None)
  | None => true
  end.

(** What the cleaning of lines 43-54 needs of the frame read: pandas
    converts each date column it has, and gives the year of the
    converted InitialDateReported. *)
Definition load_succeeds (env : Env) (d0 : DataFrame) : bool :=
  forallb (coerces env d0) date_cols && year_readable env d0.

(** [s'] is [s] but for the dataset. *)
Definition same_but_df (s s' : State) : Prop :=
  world s' = world s
  ∧ data_path (self s') = data_path (self s)
  ∧ results_dir (self s') = results_dir (self s)
  ∧ timestamp (self s') = timestamp (self s).

(** A computation that leaves the object alone and only adds to the
    console. *)
Definition tame {A} (m : M A) : Prop :=
  ∀ s, self (m s).1 = self s
       ∧ ∃ more, stdout (world (m s).1) = stdout (world s) ++ more.

(** Where the run's files go: [<results_dir>/<timestamp>_<name>]. *)
Definition out_path (a : Analyzer) (name : string) : string :=
  path_join (results_dir a) (timestamp a +:+ "_" +:+ name).

(** The lines [chemical_analysis] draws: one per top chemical that is
    a column of the matrix, its x the years, its y that column. *)
Definition trend_lines (m : Pandas.Matrix) (chems : list Cell)
  : list (Cell * (list Cell * list (option nat))) :=
  (λ c, (c, (Pandas.m_index m, Pandas.matrix_col m c)))
    <$> List.filter (λ c, bool_decide (c ∈ Pandas.m_columns m)) chems.

Definition trends_figure (m : Pandas.Matrix) (chems : list Cell) : Figure :=
  {| fig_size := Some (12, 6); fig_lines := trend_lines m chems;
     fig_bars := []; fig_title := "Top 5 Chemicals Over Time";
     fig_xlabel := "Year"; fig_ylabel := "Number of Products";
     fig_legend := true; fig_xtick_rotation := 0 |}.

(** The bar chart of [product_analysis]. *)
Definition discontinued_figure (bars : Series Cell) : Figure :=
  {| fig_size := Some (10, 6); fig_lines := []; fig_bars := bars;
     fig_title := "Top Chemicals in Discontinued Products";
     fig_xlabel := ""; fig_ylabel := ""; fig_legend := false;
     fig_xtick_rotation := 45 |}.

(** What [chemical_analysis] prints whether or not there are years. *)
Definition chemical_report (chem cat : list Cell) : list Output :=
  [ OutText (nl +:+ "[3/5] beep boop analyzing chemical data.....");
    OutText (nl +:+ "---- Top Chemicals ----");
    OutSeries (take 20 (Pandas.value_counts chem));
    OutText (nl +:+ "---- Chemicals by Catagory ----");
    OutSeries2 (take 20 (Pandas.groupby_size2 cat chem)) ].

(** What [product_analysis] prints before it looks at
    DiscontinuedDate. *)
Definition product_report (comp product chem cat sub : list Cell)
  : list Output :=
  [ OutText (nl +:+ "[4/5] Analyzing product data...");
    OutText (nl +:+ "---- Company Statistics ----");
    OutStats (take 10 (sort_by_products (company_table comp product chem)));
    OutText (nl +:+ "---- Catagory Distrobution ----");
    OutSeries (Pandas.value_counts cat);
    OutText (nl +:+ "---- Subcatagory Breakdown ----");
    OutSeries2 (take 20 (Pandas.groupby_size2 cat sub)) ].

(** Every column of the frame has [n] values. *)
Definition frame_rows (d : DataFrame) (n : nat) : Prop :=
  Forall (λ c : Column, length c.2 = n) d.

(** The claim's reading of line 164: per product, the number of
    distinct non-null chemicals. *)
Definition distinct_chemicals_per_product (product chem : list Cell)
  : list nat :=
  (Pandas.groupby_nunique product chem).*2.

(** The figure with [lines] drawn after those it has. *)
Definition with_lines (f : Figure)
    (lines : list (Cell * (list Cell * list (option nat)))) : Figure :=
  {| fig_size := fig_size f; fig_lines := fig_lines f ++ lines;
     fig_bars := fig_bars f; fig_title := fig_title f;
     fig_xlabel := fig_xlabel f; fig_ylabel := fig_ylabel f;
     fig_legend := fig_legend f;
     fig_xtick_rotation := fig_xtick_rotation f |}.

(** The first line each later step prints. *)
Definition step_banners : list Output :=
  [ OutText (nl +:+ "[2/5] beep boop running basic analysis......");
    OutText (nl +:+ "[3/5] beep boop analyzing chemical data.....");
    OutText (nl +:+ "[4/5] Analyzing product data...");
    OutText (nl +:+ "[5/5] beep boop running advanced analyses...");
    OutText (nl +:+ "beep boop saving results...") ].

(** ** Vocabulary of the further properties *)

(** The year of a date cell, as [.dt.year] gives it (line 54). *)
Definition year_cell (c : Cell) : Cell :=
  match c with Date t => Int (ts_year t) | _ => NA end.

(** Lines 53-54 on the frame. *)
Definition add_report_year (d : DataFrame) : DataFrame :=
  match Pandas.get_col d "InitialDateReported" with
  | Some c => Pandas.set_col d "ReportYear" (year_cell <$> c)
  | None => d
  end.

(** The frame [load_data] keeps of the frame it read. *)
Definition cleaned (env : Env) (d0 : DataFrame) : DataFrame :=
  add_report_year (coerce_dates env d0 date_cols).

(** What the console shows of a successful load. *)
Definition load_report (abs_path : string) (d : DataFrame) : list Output :=
  [ OutText (nl +:+ "[1/5] Loading data...");
    OutText ("looking for data at: " +:+ abs_path);
    OutText ("yay! Success!! Loaded " +:+ pretty (Pandas.len d)
               +:+ " records") ].

(** What it shows when the file is there and cannot be read. *)
Definition unreadable_report (abs_path : string) (e : Exn) : list Output :=
  [ OutText (nl +:+ "[1/5] Loading data...");
    OutText ("looking for data at: " +:+ abs_path);
    OutText (nl +:+ "[ERROR] oh no! Failed to load data: " +:+ str e) ].

(** [s'] differs from [s] on the console only, where it has [lines]
    more. *)
Definition only_prints (s s' : State) (lines : list Output) : Prop :=
  self s' = self s
  ∧ stdout (world s') = stdout (world s) ++ lines
  ∧ dirs (world s') = dirs (world s)
  ∧ files (world s') = files (world s)
  ∧ figure (world s') = figure (world s).

(** The lines of the loop of lines 80-82: one per column of [cols]
    the frame has. *)
Definition unique_count_lines (d : DataFrame) (cols : list string)
  : list Output :=
  omap (λ col,
          (λ c, OutText (col +:+ ": " +:+ pretty (Pandas.nunique c)
                           +:+ " unique values"))
            <$> Pandas.get_col d col) cols.

(** Everything [basic_analysis] prints. *)
Definition basic_report (d : DataFrame) : list Output :=
  [ OutText (nl +:+ "[2/5] beep boop running basic analysis......");
    OutText (nl +:+ "---- Data Structure ----");
    OutText ("Total records: " +:+ pretty (Pandas.len d));
    OutText (nl +:+ "Data types:");
    OutDtypes (Pandas.dtypes d);
    OutText (nl +:+ "---- Missing Values ----");
    OutNulls (Pandas.null_counts d);
    OutText (nl +:+ "---- Unique Counts ----") ]
  ++ unique_count_lines d cat_cols.

(** Everything [advanced_analysis] prints. *)
Definition advanced_report (product chem brand cat : list Cell)
  : list Output :=
  [ OutText (nl +:+ "[5/5] beep boop running advanced analyses...");
    OutText (nl +:+ "---- Chemical Combinations ----");
    OutMean (nl +:+ "Average chemicals per product: ")
            (mean (product_chem_counts product chem));
    OutText (nl +:+ "---- Brand Chemical Profiles ----");
    OutSeries (take 10 (merge_sort Pandas.count_ge
                          (Pandas.groupby_nunique brand chem)));
    OutText (nl +:+ "Chemical Diversity by Catagory");
    OutSeries (merge_sort Pandas.count_ge
                 (Pandas.groupby_nunique cat chem)) ].

(** The names of the files one run may write. *)
Definition output_names : list string :=
  ["cleaned_data.csv"; "chemical_counts.csv"; "company_stats.csv";
   "chemical_trends.png"; "discontinued_chemicals.png"].

(** The number of [true] in a mask. *)
Definition mask_count (mask : list bool) : nat :=
  length (List.filter id mask).

(** ** The script run as a program (lines 219-229) *)

(** What the program asks of its process: the path of the
    interpreter, and what [input()] meets ([None]: a line is read). *)
Record Process := mkProcess {
  executable : string;
  input_outcome : option Exn
}.

(** [c.lower()] for one ASCII character.  Lowering the other
    characters of a path brings no ASCII letter in, so the test of
    line 228 is decided on the ASCII letters. *)
Definition lower_char (c : ascii) : ascii :=
  let n := nat_of_ascii c in
  if (65 <=? n) && (n <=? 90) then ascii_of_nat (n + 32) else c.

Fixpoint lower (s : string) : string :=
  match s with
  | EmptyString => EmptyString
  | String c rest => String (lower_char c) (lower rest)
  end.

(** [sub in s] *)
Fixpoint contains (sub s : string) : bool :=
  String.prefix sub s
  || match s with
     | EmptyString => false
     | String _ rest => contains sub rest
     end.

(** Line 228. *)
Definition waits_for_enter (proc : Process) : bool :=
  contains "python" (lower (executable proc)).

Definition with_line (w : World) (o : Output) : World :=
  {| stdout := stdout w ++ [o]; dirs := dirs w; files := files w;
     figure := figure w |}.

(** Lines 219-229, from the world [w]. *)
Definition main (env : Env) (proc : Process) (w : World)
  : World * Res unit :=
  let DATA_FILE := abspath env "data/chemicals-in-cosmetics.csv" in
  let w := with_line w (OutText "---- Cosmetic Data Analysis ----") in
  match __init__ env DATA_FILE w with
  | (w, Raise e) => (w, Raise e)
  | (w, Ok analyzer) =>
      match run_full_analysis env {| self := analyzer; world := w |} with
      | (s, Raise e) => (world s, Raise e)
      | (s, Ok _) =>
          if waits_for_enter proc then
            let w := with_line (world s)
                       (OutText (nl +:+ "Press Enter to exit...")) in
            match input_outcome proc with
            | Some e => (w, Raise e)
            | None => (w, Ok ())
            end
          else (world s, Ok ())
      end
  end.

(** ** More sample data *)

Module Cases.

(** The five records without their ChemicalName column. *)
Definition no_chemical : DataFrame := take 5 Fixture.five_rows.

(** [env] with another outcome of [read_csv]. *)
Definition reading (env : Env) (r : string → Res DataFrame) : Env :=
  {| abspath := abspath env; home := home env; now := now env;
     path_exists := path_exists env; read_csv := r;
     makedirs := makedirs env; savefig := savefig env;
     to_csv := to_csv env; plot_bar := plot_bar env;
     parse_date := parse_date env;
     to_datetime_error := to_datetime_error env;
     dt_error := dt_error env |}.

(** [env] with another outcome of the bar plot. *)
Definition plotting (env : Env) (p : Series Cell → option Exn) : Env :=
  {| abspath := abspath env; home := home env; now := now env;
     path_exists := path_exists env; read_csv := read_csv env;
     makedirs := makedirs env; savefig := savefig env;
     to_csv := to_csv env; plot_bar := p;
     parse_date := parse_date env;
     to_datetime_error := to_datetime_error env;
     dt_error := dt_error env |}.

(** A platform whose data file is malformed. *)
Definition malformed : Env :=
  reading (Fixture.fair Fixture.five_rows)
    (λ _, Raise (ParserError "Error tokenizing data. C error: Expected 8 fields in line 3, saw 9")).

(** A platform whose bar plots fail. *)
Definition no_bars : Env :=
  plotting (Fixture.fair Fixture.five_rows)
    (λ _, Some (IndexError "index 0 is out of bounds for axis 0 with size 0")).

(** [env] with other outcomes of the date conversion. *)
Definition converting (env : Env) (te de : list Cell → option Exn) : Env :=
  {| abspath := abspath env; home := home env; now := now env;
     path_exists := path_exists env; read_csv := read_csv env;
     makedirs := makedirs env; savefig := savefig env;
     to_csv := to_csv env; plot_bar := plot_bar env;
     parse_date := parse_date env;
     to_datetime_error := te;
     dt_error := de |}.

(** A platform whose pandas raises on the DiscontinuedDate column of
    the five records, as it does on timestamps with mixed UTC
    offsets. *)
Definition mixed_offsets : Env :=
  converting (Fixture.fair Fixture.five_rows)
    (λ c, if bool_decide
               (c = Fixture.col Fixture.five_rows "DiscontinuedDate")
          then Some (ValueError "Mixed timezones detected. Pass utc=True in to_datetime to convert to a common timezone.")
          else None)
    (λ _, None).

(** A platform whose pandas returns the date columns with the object
    dtype, on which [.dt] raises. *)
Definition object_dates : Env :=
  converting (Fixture.fair Fixture.five_rows)
    (λ _, None)
    (λ _, Some (AttributeError "Can only use .dt accessor with datetimelike values")).

Definition python3 : Process := mkProcess "/usr/bin/python3" None.

End Cases.

(** * Properties *)

(** Running a method symbolically: unfold the monad and the platform
    calls, then project the records that result. *)
Ltac run :=
  cbv [mbind M_bind mret M_ret raise try_except gets print print_text
       modify_world modify_figure write_file set_df set_results_dir the_df
       column column_of os_makedirs pd_read_csv pd_to_csv plt_savefig
       plt_figure plt_plot series_plot_bar plt_title plt_xlabel plt_ylabel
       plt_legend plt_xticks plt_close _save_plot];
  cbn [self world stdout dirs files figure df data_path results_dir
       timestamp fst snd negb fig_size fig_lines fig_bars fig_title
       fig_xlabel fig_ylabel fig_legend fig_xtick_rotation].

(** Case analysis on the innermost outcome a run is waiting for. *)
Ltac case_outcome :=
  match goal with
  | |- context [match ?x with _ => _ end] =>
      lazymatch x with
      | context [match _ with _ => _ end] => fail
      | _ => destruct x eqn:?
      end
  end.

(** Run on, using what is known about the outcomes. *)
Ltac steps :=
  run;
  repeat (progress
            (repeat match goal with
                    | H : ?x = _ |- context [match ?x with _ => _ end] =>
                        rewrite H
                    | H : ?x = _ |- context [if ?x then _ else _] =>
                        rewrite H
                    end;
             run)).

(** The console as one list: the old lines, then the new ones. *)
Ltac tidy := rewrite <- ?app_assoc; cbn [app].

(** ** Construction (lines 8-27) *)

Section Construction.
Context (env : Env).

(** When neither directory can be made, the failure of the second
    [os.makedirs], raised inside the handler, leaves the constructor. *)
Lemma init_raises_when_both_fail path w e1 e2 :
  makedirs env (primary_dir env) = Some e1 →
  makedirs env (fallback_dir env) = Some e2 →
  (__init__ env path w).2 = Raise e2.
Proof.
  intros H1 H2. unfold __init__, _setup_directories. run.
  fold (primary_dir env). rewrite H1. run.
  fold (fallback_dir env). rewrite H2. reflexivity.
Qed.

(** C5, as the code has it: the constructor returns normally as soon
    as the primary directory or else the desktop fallback can be made;
    the object it returns has an unset dataset and reports a results
    directory that now exists, the primary one when it could be made. *)
Theorem init_returns_when_a_directory_is_made path w :
  makedirs env (primary_dir env) = None
  ∨ makedirs env (fallback_dir env) = None →
  ∃ w' a,
    __init__ env path w = (w', Ok a)
    ∧ data_path a = path ∧ df a = None ∧ timestamp a = now env
    ∧ results_dir a ∈ dirs w'
    ∧ results_dir a =
        match makedirs env (primary_dir env) with
        | None => primary_dir env
        | Some _ => fallback_dir env
        end.
Proof.
  unfold __init__, _setup_directories. run. fold (primary_dir env).
  destruct (makedirs env (primary_dir env)) as [e1|] eqn:H1; run.
  - fold (fallback_dir env). intros [H0|H2]; [congruence|].
    rewrite H2. run. eexists _, _. repeat split; cbn. set_solver.
  - intros _. eexists _, _. repeat split; cbn. set_solver.
Qed.

End Construction.


(** ** Counting and sorting *)

Section Counting.
Context {A : Type} `{EqDecision A}.
Implicit Types (l vs : list A) (x v : A).

Lemma elem_of_unique x l : x ∈ Pandas.unique l ↔ x ∈ l.
Proof.
  unfold Pandas.unique.
  by rewrite elem_of_reverse, elem_of_remove_dups, elem_of_reverse.
Qed.

Lemma NoDup_unique l : NoDup (Pandas.unique l).
Proof.
  unfold Pandas.unique. rewrite reverse_Permutation. apply NoDup_remove_dups.
Qed.

Lemma count_eq_nil v : Pandas.count_eq v [] = 0.
Proof. reflexivity. Qed.

Lemma count_eq_cons v x l :
  Pandas.count_eq v (x :: l) =
  (if bool_decide (x = v) then 1 else 0) + Pandas.count_eq v l.
Proof. unfold Pandas.count_eq. cbn. by destruct (bool_decide (x = v)). Qed.

Lemma count_eq_zero v l : Pandas.count_eq v l = 0 ↔ v ∉ l.
Proof.
  induction l as [|x l IH]; [rewrite count_eq_nil; set_solver|].
  rewrite count_eq_cons, not_elem_of_cons.
  destruct (bool_decide_reflect (x = v)) as [Hxv|Hxv].
  - split; [lia|]. intros [? _]. congruence.
  - cbn. rewrite IH. split; [intros; split; [congruence|done]|by intros [_ ?]].
Qed.

(** In a duplicate-free list, one entry matches a member. *)
Lemma sum_indicator x vs :
  NoDup vs → x ∈ vs →
  sum_list ((λ v, if bool_decide (x = v) then 1 else 0) <$> vs) = 1.
Proof.
  induction 1 as [|v vs Hv Hnd IH]; [by intros ?%elem_of_nil|].
  rewrite elem_of_cons. cbn. intros Hx. case_bool_decide; subst.
  - f_equal. clear IH Hx Hnd. induction vs as [|w vs IH]; [done|].
    apply not_elem_of_cons in Hv as [? ?]. cbn.
    rewrite bool_decide_eq_false_2 by done. auto.
  - destruct Hx; [done|]. cbn. auto.
Qed.

(** The counts of the distinct values add up to the number of values. *)
Lemma sum_counts vs l :
  NoDup vs → (∀ x, x ∈ l → x ∈ vs) →
  sum_list ((λ v, Pandas.count_eq v l) <$> vs) = length l.
Proof.
  intros Hnd. induction l as [|x l IH]; intros Hin.
  - clear. induction vs as [|v vs IHv]; cbn; auto.
  - transitivity
      (sum_list ((λ v, if bool_decide (x = v) then 1 else 0) <$> vs)
       + sum_list ((λ v, Pandas.count_eq v l) <$> vs)).
    + clear. induction vs as [|v vs IHv]; [done|].
      rewrite !fmap_cons. cbn [sum_list_with].
      rewrite count_eq_cons, IHv. unfold id. lia.
    + rewrite sum_indicator, IH; [done| |done|]; intros; apply Hin; set_solver.
Qed.

End Counting.


#[local] Instance products_ge_total : Total products_ge.
Proof. intros a b. unfold products_ge. lia. Qed.

(** Neighbours in a sorted list are in order. *)
Lemma Sorted_neighbours {A} (R : relation A) (l : list A) i a b :
  Sorted R l → l !! i = Some a → l !! S i = Some b → R a b.
Proof.
  intros Hs. revert i. induction Hs as [|x l Hs IH Hhd]; intros i; [done|].
  destruct i as [|i]; cbn.
  - intros [= ->] Hb. destruct Hhd as [|y l' Hxy]; [done|]. by injection Hb as ->.
  - apply IH.
Qed.

(** ** The chemical frequency count (lines 88-89) *)


(** ** Columns of a frame *)

Lemma get_col_set_col_eq d name v :
  Pandas.get_col (Pandas.set_col d name v) name = Some v.
Proof.
  induction d as [|[n c] d IH]; cbn.
  - by rewrite decide_True.
  - destruct (decide (n = name)) as [->|Hne]; cbn.
    + by rewrite decide_True.
    + by rewrite decide_False.
Qed.

Lemma get_col_set_col_ne d name other v :
  name ≠ other →
  Pandas.get_col (Pandas.set_col d name v) other = Pandas.get_col d other.
Proof.
  intros Hne. induction d as [|[n c] d IH]; cbn.
  - by rewrite decide_False.
  - destruct (decide (n = name)) as [->|Hn]; cbn.
    + by rewrite !decide_False.
    + destruct (decide (n = other)); [done|apply IH].
Qed.

Lemma has_col_get_col d name :
  Pandas.has_col d name = true ↔ is_Some (Pandas.get_col d name).
Proof.
  unfold Pandas.has_col. rewrite bool_decide_eq_true.
  induction d as [|[n c] d IH]; cbn.
  - rewrite elem_of_nil. split; [done|]. by intros [? ?].
  - rewrite elem_of_cons, IH. destruct (decide (n = name)) as [->|Hn].
    + split; eauto.
    + split; [intros [?|?]; [congruence|done]|auto].
Qed.

Lemma has_col_false d name :
  Pandas.has_col d name = false ↔ Pandas.get_col d name = None.
Proof.
  rewrite <- not_true_iff_false, has_col_get_col, <- eq_None_not_Some. done.
Qed.

(** ** Frames: the names of the columns *)

Lemma set_col_names_present d name c v :
  Pandas.get_col d name = Some c → (Pandas.set_col d name v).*1 = d.*1.
Proof.
  induction d as [|[n c'] d IH]; [done|]. cbn.
  destruct (decide (n = name)); [done|]. cbn. intros Hc. by rewrite IH.
Qed.

Lemma set_col_names_absent d name v :
  Pandas.get_col d name = None → (Pandas.set_col d name v).*1 = d.*1 ++ [name].
Proof.
  induction d as [|[n c'] d IH]; [done|]. cbn.
  destruct (decide (n = name)); [done|]. cbn. intros Hc. by rewrite IH.
Qed.

(** ** The date columns and the year (lines 43-54) *)

Section Dates.
Context (env : Env).

Lemma get_col_coerce_column_ne d col name :
  col ≠ name →
  Pandas.get_col (coerce_column env d col) name = Pandas.get_col d name.
Proof.
  intros Hne. unfold coerce_column.
  destruct (Pandas.get_col d col); [by apply get_col_set_col_ne|done].
Qed.

Lemma coerce_dates_cons d col cols :
  coerce_dates env d (col :: cols)
  = coerce_dates env (coerce_column env d col) cols.
Proof. reflexivity. Qed.

Lemma get_col_coerce_dates_other d cols name :
  name ∉ cols →
  Pandas.get_col (coerce_dates env d cols) name = Pandas.get_col d name.
Proof.
  revert d. induction cols as [|col cols IH]; intros d Hnot; [done|].
  apply not_elem_of_cons in Hnot as [Hne Hnot].
  rewrite coerce_dates_cons, IH by done. by apply get_col_coerce_column_ne.
Qed.

Lemma coerce_column_names d col : (coerce_column env d col).*1 = d.*1.
Proof.
  unfold coerce_column. destruct (Pandas.get_col d col) eqn:Hc; [|done].
  by apply (set_col_names_present d col l).
Qed.

Lemma coerce_dates_names d cols : (coerce_dates env d cols).*1 = d.*1.
Proof.
  revert d. induction cols as [|col cols IH]; intros d; [done|].
  by rewrite coerce_dates_cons, IH, coerce_column_names.
Qed.

Lemma coerce_dates_has_col d cols name :
  Pandas.has_col (coerce_dates env d cols) name = Pandas.has_col d name.
Proof. unfold Pandas.has_col. by rewrite coerce_dates_names. Qed.

Lemma date_cols_NoDup : NoDup date_cols.
Proof. apply (bool_decide_unpack _). vm_compute. exact I. Qed.

(** The loop of lines 48-50 replaces the dataset, column after column,
    and raises what [pd.to_datetime] raises, leaving the columns
    converted so far in place. *)
Lemma date_loop_run cols s d :
  df (self s) = Some d →
  ∃ s', for_ cols (λ col,
          d ← the_df;
          if Pandas.has_col d col then
            c ← column_of d col;
            dates ← to_datetime env c;
            set_df (Pandas.set_col d col dates)
          else mret ()) s
        = (s', match (coerce_loop env d cols).2 with
               | Some e => Raise e
               | None => Ok ()
               end)
        ∧ df (self s') = Some (coerce_loop env d cols).1
        ∧ same_but_df s s'.
Proof.
  revert s d. induction cols as [|col cols IH]; intros s d Hd.
  - exists s. by repeat split.
  - cbn [for_ coerce_loop]. run. rewrite Hd.
    destruct (Pandas.has_col d col) eqn:Hhas.
    + apply has_col_get_col in Hhas as [c Hc]. rewrite Hc. run.
      unfold to_datetime.
      destruct (to_datetime_error env c) as [e|] eqn:He; run.
      * exists s. by repeat split.
      * lazymatch goal with |- context [for_ cols _ ?s1] =>
          destruct (IH s1 (Pandas.set_col d col (coerced env c)) eq_refl)
            as (s' & Hrun & Hdf & Hsame) end.
        exists s'. split; [exact Hrun|]. split; [exact Hdf|]. exact Hsame.
    + apply has_col_false in Hhas. rewrite Hhas.
      destruct (IH s d Hd) as (s' & Hrun & Hdf & Hsame). by exists s'.
Qed.

Lemma coerces_set_col d col other v :
  col ≠ other →
  coerces env (Pandas.set_col d col v) other = coerces env d other.
Proof. intros Hne. unfold coerces. by rewrite get_col_set_col_ne. Qed.

Lemma forallb_coerces_set_col d col cols v :
  col ∉ cols →
  forallb (coerces env (Pandas.set_col d col v)) cols
  = forallb (coerces env d) cols.
Proof.
  induction cols as [|other cols IH]; [done|]. intros Hnot.
  apply not_elem_of_cons in Hnot as [Hne Hnot]. cbn.
  by rewrite coerces_set_col, IH.
Qed.

(** The loop over distinct columns ends normally exactly when
    [pd.to_datetime] takes each of them as the file has it; the frame
    is then the coerced one. *)
Lemma coerce_loop_ok d cols :
  NoDup cols → forallb (coerces env d) cols = true →
  coerce_loop env d cols = (coerce_dates env d cols, None).
Proof.
  intros Hnd. revert d. induction Hnd as [|col cols Hc Hnd IH]; intros d Hall.
  - done.
  - cbn in Hall. apply andb_true_iff in Hall as [Hcol Hall].
    cbn [coerce_loop]. rewrite coerce_dates_cons. unfold coerce_column.
    unfold coerces in Hcol.
    destruct (Pandas.get_col d col) as [c|] eqn:Hget; [|by apply IH].
    apply bool_decide_eq_true in Hcol. rewrite Hcol. apply IH.
    by rewrite forallb_coerces_set_col.
Qed.

Lemma coerce_loop_fails d cols :
  NoDup cols → forallb (coerces env d) cols = false →
  ∃ e, (coerce_loop env d cols).2 = Some e.
Proof.
  intros Hnd. revert d. induction Hnd as [|col cols Hc Hnd IH]; intros d Hall.
  - done.
  - cbn in Hall. cbn [coerce_loop]. unfold coerces in Hall at 1.
    destruct (Pandas.get_col d col) as [c|] eqn:Hget; [|by apply IH].
    destruct (to_datetime_error env c) as [e|] eqn:He; [by exists e|].
    apply IH. by rewrite forallb_coerces_set_col.
Qed.

Lemma coerce_loop_names d cols : (coerce_loop env d cols).1.*1 = d.*1.
Proof.
  revert d. induction cols as [|col cols IH]; intros d; [done|].
  cbn [coerce_loop].
  destruct (Pandas.get_col d col) as [c|] eqn:Hget; [|apply IH].
  destruct (to_datetime_error env c); [done|].
  rewrite IH. by apply (set_col_names_present d col c).
Qed.

Lemma coerced_datelike col :
  forallb (λ c, Pandas.is_date c || negb (Pandas.notna c)) (coerced env col)
  = true.
Proof.
  unfold coerced. generalize col at 1. intros ctx.
  induction col as [|c col IH]; [done|]. cbn.
  rewrite IH. by destruct (date_of env ctx c).
Qed.

Lemma date_columns_first d raw :
  Pandas.get_col d "InitialDateReported" = Some raw →
  Pandas.get_col (coerce_dates env d date_cols) "InitialDateReported"
  = Some (coerced env raw).
Proof.
  intros Hraw. unfold date_cols.
  rewrite coerce_dates_cons, get_col_coerce_dates_other.
  - unfold coerce_column. rewrite Hraw. apply get_col_set_col_eq.
  - intros Hin.
    repeat (apply elem_of_cons in Hin as [Hin|Hin]; [discriminate|]).
    by apply elem_of_nil in Hin.
Qed.

(** [.dt.year] of a coerced column, when pandas made a datetime
    column of it, is the year of each cell. *)
Lemma dt_year_coerced col s :
  dt_error env (coerced env col) = None →
  dt_year env (coerced env col) s
  = (s, Ok (year_cell <$> coerced env col)).
Proof. intros He. unfold dt_year. by rewrite He, coerced_datelike. Qed.

(** What [load_data] does with a file it can read and clean. *)
Lemma load_data_run s d0 :
  path_exists env (abspath env (data_path (self s))) = true →
  read_csv env (abspath env (data_path (self s))) = Ok d0 →
  load_succeeds env d0 = true →
  ∃ s',
    load_data env s = (s', Ok true)
    ∧ df (self s') = Some (cleaned env d0)
    ∧ data_path (self s') = data_path (self s)
    ∧ results_dir (self s') = results_dir (self s)
    ∧ timestamp (self s') = timestamp (self s)
    ∧ stdout (world s')
      = stdout (world s)
        ++ load_report (abspath env (data_path (self s))) (cleaned env d0)
    ∧ dirs (world s') = dirs (world s)
    ∧ files (world s') = files (world s)
    ∧ figure (world s') = figure (world s).
Proof.
  intros Hex Hread Hok. apply andb_true_iff in Hok as [Hall Hyear].
  unfold load_data. run. rewrite Hex, Hread. run.
  lazymatch goal with |- context [for_ date_cols ?body ?s0] =>
    destruct (date_loop_run date_cols s0 d0 eq_refl)
      as (s1 & Hloop & Hdf1 & Hw & Hp & Hr & Ht);
    rewrite (coerce_loop_ok d0 date_cols date_cols_NoDup Hall) in Hloop, Hdf1;
    cbn [fst snd] in Hloop, Hdf1;
    replace (for_ date_cols body s0) with (s1, Ok ())
      by (symmetry; exact Hloop) end.
  cbn [self world data_path results_dir timestamp] in Hw, Hp, Hr, Ht.
  rewrite Hdf1, coerce_dates_has_col. unfold cleaned, add_report_year.
  unfold year_readable in Hyear.
  destruct (Pandas.get_col d0 "InitialDateReported") as [raw|] eqn:Hraw.
  - assert (Hhas : Pandas.has_col d0 "InitialDateReported" = true).
    { apply has_col_get_col. rewrite Hraw. eauto. }
    apply bool_decide_eq_true in Hyear.
    rewrite Hhas, (date_columns_first d0 raw Hraw).
    rewrite (dt_year_coerced raw _ Hyear). run.
    eexists. split; [reflexivity|]. cbn. rewrite Hw, Hp, Hr, Ht. cbn.
    unfold load_report. tidy. repeat split.
  - assert (Hhas : Pandas.has_col d0 "InitialDateReported" = false).
    { by apply has_col_false. }
    rewrite Hhas. run. rewrite Hdf1. run.
    assert (Hnone : Pandas.get_col (coerce_dates env d0 date_cols)
                      "InitialDateReported" = None).
    { apply has_col_false. by rewrite coerce_dates_has_col. }
    rewrite Hnone.
    eexists. split; [reflexivity|]. cbn. rewrite Hw. cbn.
    unfold load_report. tidy.
    destruct (self s1) as [p1 d1 r1 t1]. cbn in *. subst. repeat split.
Qed.

(** What it does with a file it can read and cannot clean: the
    exception of [pd.to_datetime] or of [.dt] is caught and reported,
    the method returns [False], and the object keeps the frame as far
    as it was converted. *)
Lemma load_data_fails s d0 :
  path_exists env (abspath env (data_path (self s))) = true →
  read_csv env (abspath env (data_path (self s))) = Ok d0 →
  load_succeeds env d0 = false →
  ∃ s' e,
    load_data env s = (s', Ok false)
    ∧ df (self s') = Some (coerce_loop env d0 date_cols).1
    ∧ data_path (self s') = data_path (self s)
    ∧ results_dir (self s') = results_dir (self s)
    ∧ timestamp (self s') = timestamp (self s)
    ∧ stdout (world s')
      = stdout (world s)
        ++ unreadable_report (abspath env (data_path (self s))) e
    ∧ dirs (world s') = dirs (world s)
    ∧ files (world s') = files (world s)
    ∧ figure (world s') = figure (world s).
Proof.
  intros Hex Hread Hfail.
  unfold load_data. run. rewrite Hex, Hread. run.
  lazymatch goal with |- context [for_ date_cols ?body ?s0] =>
    destruct (date_loop_run date_cols s0 d0 eq_refl)
      as (s1 & Hloop & Hdf1 & Hw & Hp & Hr & Ht);
    replace (for_ date_cols body s0) with
      (s1, match (coerce_loop env d0 date_cols).2 with
           | Some e => Raise e
           | None => Ok ()
           end)
      by (symmetry; exact Hloop) end.
  cbn [self world data_path results_dir timestamp] in Hw, Hp, Hr, Ht.
  destruct (forallb (coerces env d0) date_cols) eqn:Hall.
  - (* the loop ends; [.dt] refuses the column *)
    unfold load_succeeds in Hfail. rewrite Hall in Hfail. cbn in Hfail.
    rewrite (coerce_loop_ok d0 date_cols date_cols_NoDup Hall) in Hdf1 |- *.
    cbn [fst snd] in Hdf1 |- *. run.
    rewrite Hdf1, coerce_dates_has_col.
    unfold year_readable in Hfail.
    destruct (Pandas.get_col d0 "InitialDateReported") as [raw|] eqn:Hraw;
      [|done].
    assert (Hhas : Pandas.has_col d0 "InitialDateReported" = true).
    { apply has_col_get_col. rewrite Hraw. eauto. }
    apply bool_decide_eq_false in Hfail.
    rewrite Hhas, (date_columns_first d0 raw Hraw).
    unfold dt_year.
    destruct (dt_error env (coerced env raw)) as [e|] eqn:He; [|done]. run.
    eexists _, e. split; [reflexivity|]. cbn. rewrite Hw. cbn.
    unfold unreadable_report. tidy.
    destruct (self s1) as [p1 d1 r1 t1]. cbn in *. subst. repeat split.
  - (* [pd.to_datetime] raises in the loop *)
    destruct (coerce_loop_fails d0 date_cols date_cols_NoDup Hall)
      as [e He].
    rewrite He. run.
    eexists _, e. split; [reflexivity|]. cbn. rewrite Hw. cbn.
    unfold unreadable_report. tidy.
    destruct (self s1) as [p1 d1 r1 t1]. cbn in *. subst. repeat split.
Qed.

(** A load that returns [True] has found the file and cleaned it. *)
Lemma successful_load s s' d0 :
  read_csv env (abspath env (data_path (self s))) = Ok d0 →
  load_data env s = (s', Ok true) →
  path_exists env (abspath env (data_path (self s))) = true
  ∧ load_succeeds env d0 = true.
Proof.
  intros Hread Hrun.
  destruct (path_exists env (abspath env (data_path (self s)))) eqn:Hex.
  - split; [done|]. destruct (load_succeeds env d0) eqn:Hok; [done|].
    destruct (load_data_fails s d0 Hex Hread Hok) as (s2 & e & Hrun2 & _).
    congruence.
  - revert Hrun. unfold load_data. run. rewrite Hex. run. congruence.
Qed.

(** C2: a load of a file that has the InitialDateReported column
    succeeds when the file is there and pandas converts its date
    columns; after a successful load every record's ReportYear is the
    calendar year of the date its InitialDateReported value parses to,
    and is null when the value is null or does not parse; the column
    itself then holds that date, or null. *)
Theorem report_year_is_year_of_initial_date s d0 raw :
  read_csv env (abspath env (data_path (self s))) = Ok d0 →
  Pandas.get_col d0 "InitialDateReported" = Some raw →
  (path_exists env (abspath env (data_path (self s))) = true →
   load_succeeds env d0 = true →
   ∃ s', load_data env s = (s', Ok true))
  ∧ ∀ s', load_data env s = (s', Ok true) →
    ∃ d dates years,
      df (self s') = Some d
      ∧ Pandas.get_col d "InitialDateReported" = Some dates
      ∧ Pandas.get_col d "ReportYear" = Some years
      ∧ ∀ i c, raw !! i = Some c →
          match date_of env raw c with
          | Some t => dates !! i = Some (Date t)
                      ∧ years !! i = Some (Int (ts_year t))
          | None => dates !! i = Some NA ∧ years !! i = Some NA
          end
          ∧ (c = NA → years !! i = Some NA).
Proof.
  intros Hread Hraw. split.
  - intros Hex Hok.
    destruct (load_data_run s d0 Hex Hread Hok) as (s' & Hrun & _). eauto.
  - intros s' Hrun.
    destruct (successful_load s s' d0 Hread Hrun) as [Hex Hok].
    destruct (load_data_run s d0 Hex Hread Hok) as (s2 & Hrun2 & Hdf & _).
    assert (s2 = s') as -> by congruence.
    pose proof (date_columns_first d0 raw Hraw) as Hdates.
    exists (cleaned env d0), (coerced env raw), (year_cell <$> coerced env raw).
    split; [exact Hdf|]. unfold cleaned, add_report_year. rewrite Hdates.
    split; [|split; [apply get_col_set_col_eq|]].
    + rewrite get_col_set_col_ne by done. exact Hdates.
    + intros i c Hi. unfold coerced. rewrite !list_lookup_fmap, Hi. cbn.
      split; [by destruct (date_of env raw c)|]. by intros ->.
Qed.

End Dates.


(** ** Methods that leave the object alone *)

Section Tame.
Context (env : Env).

Lemma tame_ret {A} (a : A) : tame (mret a : M A).
Proof. intros s. split; [done|]. exists []. by rewrite app_nil_r. Qed.

Lemma tame_raise {A} e : tame (raise e : M A).
Proof. intros s. split; [done|]. exists []. by rewrite app_nil_r. Qed.

Lemma tame_gets {A} (f : Analyzer → A) : tame (gets f).
Proof. intros s. split; [done|]. exists []. by rewrite app_nil_r. Qed.

Lemma tame_print o : tame (print o).
Proof. intros s. split; [done|]. by exists [o]. Qed.

Lemma tame_print_text t : tame (print_text t).
Proof. apply tame_print. Qed.

Lemma tame_modify_figure f : tame (modify_figure f).
Proof. intros s. split; [done|]. exists []. by rewrite app_nil_r. Qed.

Lemma tame_write_file p c : tame (write_file p c).
Proof. intros s. split; [done|]. exists []. by rewrite app_nil_r. Qed.

Lemma tame_bind {A B} (m : M A) (k : A → M B) :
  tame m → (∀ a, tame (k a)) → tame (m ≫= k).
Proof.
  intros Hm Hk s. unfold mbind, M_bind.
  destruct (Hm s) as [Hself [more Hout]].
  destruct (m s) as [s1 [a|e]]; cbn in *; [|eauto].
  destruct (Hk a s1) as [Hself' [more' Hout']].
  split; [congruence|]. exists (more ++ more').
  by rewrite Hout', Hout, app_assoc.
Qed.

Lemma tame_try_except {A} (body : M A) (handler : Exn → M A) :
  tame body → (∀ e, tame (handler e)) → tame (try_except body handler).
Proof.
  intros Hm Hk s. unfold try_except.
  destruct (Hm s) as [Hself [more Hout]].
  destruct (body s) as [s1 [a|e]]; cbn in *; [eauto|].
  destruct (Hk e s1) as [Hself' [more' Hout']].
  split; [congruence|]. exists (more ++ more').
  by rewrite Hout', Hout, app_assoc.
Qed.

Lemma tame_for {A} (l : list A) (body : A → M unit) :
  (∀ x, tame (body x)) → tame (for_ l body).
Proof.
  intros Hbody. induction l as [|x l IH]; cbn [for_].
  - apply tame_ret.
  - apply tame_bind; auto.
Qed.

Lemma tame_the_df : tame the_df.
Proof.
  apply tame_bind; [apply tame_gets|].
  intros [d|]; [apply tame_ret|apply tame_raise].
Qed.

Lemma tame_column_of d name : tame (column_of d name).
Proof.
  unfold column_of.
  destruct (Pandas.get_col d name); [apply tame_ret|apply tame_raise].
Qed.

Lemma tame_column name : tame (column name).
Proof.
  apply tame_bind; [apply tame_the_df|]. intros d. apply tame_column_of.
Qed.

Lemma tame_plt_savefig p : tame (plt_savefig env p).
Proof.
  unfold plt_savefig. destruct (savefig env p); [apply tame_raise|].
  intros s. apply tame_write_file.
Qed.

Lemma tame_series_plot_bar sr : tame (series_plot_bar env sr).
Proof.
  unfold series_plot_bar.
  destruct (plot_bar env sr); [apply tame_raise|apply tame_modify_figure].
Qed.

Lemma tame_pd_to_csv p c : tame (pd_to_csv env p c).
Proof.
  unfold pd_to_csv.
  destruct (to_csv env p); [apply tame_raise|apply tame_write_file].
Qed.

Lemma tame_save_plot name : tame (_save_plot env name).
Proof.
  unfold _save_plot.
  repeat (apply tame_bind; [|intros ?]);
    auto using tame_gets, tame_plt_savefig, tame_print_text.
Qed.

End Tame.

(** Decompose a method into its statements. *)
Ltac tame_step env :=
  lazymatch goal with
  | |- tame (_ ≫= _) => apply tame_bind; [|intros ?]
  | |- tame (try_except _ _) => apply tame_try_except; [|intros ?]
  | |- tame (for_ _ _) => apply tame_for; intros ?
  | |- tame (print_text _) => apply tame_print_text
  | |- tame (print _) => apply tame_print
  | |- tame (mret _) => apply tame_ret
  | |- tame (raise _) => apply tame_raise
  | |- tame (gets _) => apply tame_gets
  | |- tame the_df => apply tame_the_df
  | |- tame (column _) => apply tame_column
  | |- tame (column_of _ _) => apply tame_column_of
  | |- tame (modify_figure _) => apply tame_modify_figure
  | |- tame (_save_plot _ _) => apply (tame_save_plot env)
  | |- tame (series_plot_bar _ _) => apply (tame_series_plot_bar env)
  | |- tame (pd_to_csv _ _ _) => apply (tame_pd_to_csv env)
  | |- tame (if ?b then _ else _) => destruct b
  end.

Ltac tame_all env := cbv zeta; repeat tame_step env.

Section TameMethods.
Context (env : Env).

Lemma tame_basic_analysis : tame basic_analysis.
Proof. unfold basic_analysis. tame_all env. Qed.

Lemma tame_chemical_analysis : tame (chemical_analysis env).
Proof.
  unfold chemical_analysis, plt_figure, plt_plot, plt_title, plt_xlabel,
    plt_ylabel, plt_legend, plt_close.
  tame_all env.
Qed.

Lemma tame_product_analysis : tame (product_analysis env).
Proof.
  unfold product_analysis, plt_figure, plt_title, plt_xticks, plt_close.
  tame_all env.
Qed.

Lemma tame_advanced_analysis : tame advanced_analysis.
Proof. unfold advanced_analysis. tame_all env. Qed.

Lemma tame_save_results : tame (save_results env).
Proof. unfold save_results. tame_all env. Qed.

End TameMethods.

(** ** Paths of the run's files *)

Lemma prefix_slash_stamp ts x y :
  String.prefix "/" (ts +:+ "_" +:+ x) = String.prefix "/" (ts +:+ "_" +:+ y).
Proof.
  assert (Hnil : ∀ s, String.prefix "" s = true) by (by intros []).
  destruct ts as [|c ts].
  - change (String.prefix "/" (String "_" x) = String.prefix "/" (String "_" y)).
    cbn [String.prefix]. by destruct (ascii_dec "/" "_").
  - change (String.prefix "/" (String c (ts +:+ "_" +:+ x))
            = String.prefix "/" (String c (ts +:+ "_" +:+ y))).
    cbn [String.prefix]. destruct (ascii_dec "/" c); [|done].
    by rewrite !Hnil.
Qed.

(** Two files of one run with different names have different paths. *)
Lemma out_path_inj a x y : out_path a x = out_path a y → x = y.
Proof.
  unfold out_path, path_join.
  rewrite (prefix_slash_stamp (timestamp a) x y).
  destruct (String.prefix "/" _);
    [|destruct (bool_decide _); [|destruct (String.prefix "/" _)]];
    intros Heq; repeat apply (inj (String.app _)) in Heq; done.
Qed.

Lemma out_path_ne a x y : x ≠ y → out_path a x ≠ out_path a y.
Proof. intros Hne Heq. by apply Hne, (out_path_inj a). Qed.

(** ** Saving (lines 183-206) *)

Section Saving.
Context (env : Env).

(** What [save_results] leaves behind on a loaded frame, by the first
    write that fails. *)
Lemma save_results_outcome s d chem comp product :
  df (self s) = Some d →
  Pandas.get_col d "ChemicalName" = Some chem →
  Pandas.get_col d "CompanyName" = Some comp →
  Pandas.get_col d "ProductName" = Some product →
  let p1 := out_path (self s) "cleaned_data.csv" in
  let p2 := out_path (self s) "chemical_counts.csv" in
  let p3 := out_path (self s) "company_stats.csv" in
  let c1 := CsvFrame d in
  let c2 := CsvCounts ["Count"] (Pandas.value_counts chem) in
  let c3 := CsvStats (company_table comp product chem) in
  let banner := OutText (nl +:+ "beep boop saving results...") in
  let failed e := OutText ("Error saving results: " +:+ str e) in
  let before := files (world s) in
  let after := files (world (save_results env s).1) in
  let console := stdout (world (save_results env s).1) in
  match to_csv env p1, to_csv env p2, to_csv env p3 with
  | Some e, _, _ =>
      after = before
      ∧ console = stdout (world s) ++ [banner; failed e]
  | None, Some e, _ =>
      after = <[p1 := c1]> before
      ∧ after !! p1 = Some c1
      ∧ console = stdout (world s) ++ [banner; failed e]
  | None, None, Some e =>
      after = <[p2 := c2]> (<[p1 := c1]> before)
      ∧ after !! p1 = Some c1 ∧ after !! p2 = Some c2
      ∧ console = stdout (world s) ++ [banner; failed e]
  | None, None, None =>
      after = <[p3 := c3]> (<[p2 := c2]> (<[p1 := c1]> before))
      ∧ after !! p1 = Some c1 ∧ after !! p2 = Some c2
      ∧ after !! p3 = Some c3
      ∧ console = stdout (world s)
                  ++ [banner;
                      OutText ("Results saved to: " +:+ results_dir (self s))]
  end.
Proof.
  intros Hd Hchem Hcomp Hprod p1 p2 p3 c1 c2 c3.
  assert (H12 : p1 ≠ p2) by (by apply out_path_ne).
  assert (H13 : p1 ≠ p3) by (by apply out_path_ne).
  assert (H23 : p2 ≠ p3) by (by apply out_path_ne).
  unfold save_results. run.
  change (path_join _ (_ +:+ "_cleaned_data.csv")) with p1.
  change (path_join _ (_ +:+ "_chemical_counts.csv")) with p2.
  change (path_join _ (_ +:+ "_company_stats.csv")) with p3.
  destruct (to_csv env p1) as [e1|] eqn:E1;
    [|destruct (to_csv env p2) as [e2|] eqn:E2;
      [|destruct (to_csv env p3) as [e3|] eqn:E3]];
    steps; tidy;
    rewrite ?lookup_insert_eq, ?(lookup_insert_ne _ p3 p2),
      ?(lookup_insert_ne _ p3 p1), ?(lookup_insert_ne _ p2 p1),
      ?lookup_insert_eq by done;
    done.
Qed.

(** The handler of [save_results] takes every exception. *)
Lemma save_results_returns s : (save_results env s).2 = Ok ().
Proof.
  unfold save_results. run. repeat (case_outcome; run); reflexivity.
Qed.

(** C6: one [try] wraps the three writes of [save_results].  Whatever
    the state, the method returns normally and leaves the object as it
    was.  With a loaded frame, the first write that fails is reported
    on the console and ends the sequence: the writes before it are in
    place, the writes after it are not attempted. *)
Theorem save_results_catches_write_failures s :
  (save_results env s).2 = Ok ()
  ∧ self (save_results env s).1 = self s
  ∧ ∀ d chem comp product,
      df (self s) = Some d →
      Pandas.get_col d "ChemicalName" = Some chem →
      Pandas.get_col d "CompanyName" = Some comp →
      Pandas.get_col d "ProductName" = Some product →
      let p1 := out_path (self s) "cleaned_data.csv" in
      let p2 := out_path (self s) "chemical_counts.csv" in
      let p3 := out_path (self s) "company_stats.csv" in
      let c1 := CsvFrame d in
      let c2 := CsvCounts ["Count"] (Pandas.value_counts chem) in
      let c3 := CsvStats (company_table comp product chem) in
      let banner := OutText (nl +:+ "beep boop saving results...") in
      let failed e := OutText ("Error saving results: " +:+ str e) in
      let before := files (world s) in
      let after := files (world (save_results env s).1) in
      let console := stdout (world (save_results env s).1) in
      match to_csv env p1, to_csv env p2, to_csv env p3 with
      | Some e, _, _ =>
          after = before
          ∧ console = stdout (world s) ++ [banner; failed e]
      | None, Some e, _ =>
          after = <[p1 := c1]> before
          ∧ after !! p1 = Some c1
          ∧ console = stdout (world s) ++ [banner; failed e]
      | None, None, Some e =>
          after = <[p2 := c2]> (<[p1 := c1]> before)
          ∧ after !! p1 = Some c1 ∧ after !! p2 = Some c2
          ∧ console = stdout (world s) ++ [banner; failed e]
      | None, None, None =>
          after = <[p3 := c3]> (<[p2 := c2]> (<[p1 := c1]> before))
          ∧ after !! p1 = Some c1 ∧ after !! p2 = Some c2
          ∧ after !! p3 = Some c3
          ∧ console = stdout (world s)
                      ++ [banner;
                          OutText ("Results saved to: " +:+ results_dir (self s))]
      end.
Proof.
  split; [apply save_results_returns|].
  split; [apply tame_save_results|]. apply save_results_outcome.
Qed.

End Saving.

(** ** The analyses read, the save writes (lines 88-89, 123-126, 193-201) *)

Section Agreement.
Context (env : Env).

Lemma run_print_text {B} t (k : unit → M B) s :
  (print_text t ≫= k) s = k () (with_output s [OutText t]).
Proof. reflexivity. Qed.

Lemma run_print {B} o (k : unit → M B) s :
  (print o ≫= k) s = k () (with_output s [o]).
Proof. reflexivity. Qed.

Lemma run_column {B} name (k : list Cell → M B) s d c :
  df (self s) = Some d → Pandas.get_col d name = Some c →
  (column name ≫= k) s = k c s.
Proof. intros Hd Hc. run. rewrite Hd. run. rewrite Hc. reflexivity. Qed.

(** The first table [chemical_analysis] prints is the head of the
    frequency count of line 89. *)
Lemma chemical_analysis_prints_counts s d chem :
  df (self s) = Some d → Pandas.get_col d "ChemicalName" = Some chem →
  ∃ more,
    stdout (world (chemical_analysis env s).1)
    = stdout (world s)
      ++ [OutText (nl +:+ "[3/5] beep boop analyzing chemical data.....");
          OutText (nl +:+ "---- Top Chemicals ----");
          OutSeries (take 20 (Pandas.value_counts chem))]
      ++ more.
Proof.
  intros Hd Hchem. unfold chemical_analysis.
  rewrite run_print_text, (run_column _ _ _ d chem) by done.
  cbv zeta. rewrite run_print_text, run_print.
  lazymatch goal with |- context [(?m ?s0).1] =>
    assert (Ht : tame m);
      [|destruct (Ht s0) as [_ [more ->]]; exists more] end.
  - unfold plt_figure, plt_plot, plt_title, plt_xlabel, plt_ylabel,
      plt_legend, plt_close. tame_all env.
  - cbn [with_output stdout world]. by tidy.
Qed.

(** The first table [product_analysis] prints is the head of the
    sorted company table of lines 123-126. *)
Lemma product_analysis_prints_stats s d chem comp product :
  df (self s) = Some d →
  Pandas.get_col d "ChemicalName" = Some chem →
  Pandas.get_col d "CompanyName" = Some comp →
  Pandas.get_col d "ProductName" = Some product →
  ∃ more,
    stdout (world (product_analysis env s).1)
    = stdout (world s)
      ++ [OutText (nl +:+ "[4/5] Analyzing product data...");
          OutText (nl +:+ "---- Company Statistics ----");
          OutStats (take 10 (sort_by_products
                               (company_table comp product chem)))]
      ++ more.
Proof.
  intros Hd Hchem Hcomp Hprod. unfold product_analysis.
  rewrite !run_print_text.
  rewrite (run_column _ _ _ d comp), (run_column _ _ _ d product),
    (run_column _ _ _ d chem) by done.
  cbv zeta. rewrite run_print.
  lazymatch goal with |- context [(?m ?s0).1] =>
    assert (Ht : tame m);
      [|destruct (Ht s0) as [_ [more ->]]; exists more] end.
  - unfold plt_figure, plt_title, plt_xticks, plt_close. tame_all env.
  - cbn [with_output stdout world]. by tidy.
Qed.

(** C10: the four analyses leave [self.df] as it is.  So the
    frequency table [save_results] writes is the frequency count
    [chemical_analysis] computed (and printed the head of), and the
    company table it writes has the rows of the company statistics
    [product_analysis] computed and sorted, in the order of the
    grouping. *)
Theorem saved_tables_agree_with_analyses s d chem comp product :
  df (self s) = Some d →
  Pandas.get_col d "ChemicalName" = Some chem →
  Pandas.get_col d "CompanyName" = Some comp →
  Pandas.get_col d "ProductName" = Some product →
  let s2 := (basic_analysis s).1 in
  let s3 := (chemical_analysis env s2).1 in
  let s4 := (product_analysis env s3).1 in
  let s5 := (advanced_analysis s4).1 in
  let s6 := (save_results env s5).1 in
  let chem_counts := Pandas.value_counts chem in
  let company_stats := sort_by_products (company_table comp product chem) in
  to_csv env (out_path (self s) "cleaned_data.csv") = None →
  to_csv env (out_path (self s) "chemical_counts.csv") = None →
  to_csv env (out_path (self s) "company_stats.csv") = None →
  (df (self s2) = Some d ∧ df (self s3) = Some d
   ∧ df (self s4) = Some d ∧ df (self s5) = Some d)
  ∧ (∃ more,
       stdout (world s3)
       = stdout (world s2)
         ++ [OutText (nl +:+ "[3/5] beep boop analyzing chemical data.....");
             OutText (nl +:+ "---- Top Chemicals ----");
             OutSeries (take 20 chem_counts)] ++ more)
  ∧ (∃ more,
       stdout (world s4)
       = stdout (world s3)
         ++ [OutText (nl +:+ "[4/5] Analyzing product data...");
             OutText (nl +:+ "---- Company Statistics ----");
             OutStats (take 10 company_stats)] ++ more)
  ∧ files (world s6) !! out_path (self s) "chemical_counts.csv"
    = Some (CsvCounts ["Count"] chem_counts)
  ∧ ∃ saved,
      files (world s6) !! out_path (self s) "company_stats.csv"
      = Some (CsvStats saved)
      ∧ saved ≡ₚ company_stats.
Proof.
  intros Hd Hchem Hcomp Hprod s2 s3 s4 s5 s6 chem_counts company_stats
    Hw1 Hw2 Hw3.
  assert (H2 : self s2 = self s) by apply tame_basic_analysis.
  assert (H3 : self s3 = self s).
  { etrans; [apply tame_chemical_analysis|done]. }
  assert (H4 : self s4 = self s).
  { etrans; [apply tame_product_analysis|done]. }
  assert (H5 : self s5 = self s).
  { etrans; [apply tame_advanced_analysis|done]. }
  split; [by rewrite H2, H3, H4, H5|].
  split; [apply (chemical_analysis_prints_counts s2 d); by rewrite ?H2|].
  split; [apply (product_analysis_prints_stats s3 d); by rewrite ?H3|].
  pose proof (save_results_outcome env s5 d chem comp product) as Hsave.
  rewrite H5 in Hsave. cbv zeta in Hsave. rewrite Hw1, Hw2, Hw3 in Hsave.
  destruct Hsave as (_ & _ & Hp2 & Hp3 & _); [done..|].
  split; [exact Hp2|]. eexists. split; [exact Hp3|].
  unfold company_stats, sort_by_products.
  by rewrite (merge_sort_Permutation products_ge).
Qed.

End Agreement.

(** ** A missing file (lines 29-61) and the orchestration (lines 208-217) *)

Section Loading.
Context (env : Env).

(** Each step, once called, prints its banner before anything else. *)
Lemma every_step_announces_itself s :
  (∃ more, stdout (world (basic_analysis s).1)
           = stdout (world s)
             ++ [OutText (nl +:+ "[2/5] beep boop running basic analysis......")]
             ++ more)
  ∧ (∃ more, stdout (world (chemical_analysis env s).1)
             = stdout (world s)
               ++ [OutText (nl +:+ "[3/5] beep boop analyzing chemical data.....")]
               ++ more)
  ∧ (∃ more, stdout (world (product_analysis env s).1)
             = stdout (world s)
               ++ [OutText (nl +:+ "[4/5] Analyzing product data...")]
               ++ more)
  ∧ (∃ more, stdout (world (advanced_analysis s).1)
             = stdout (world s)
               ++ [OutText (nl +:+ "[5/5] beep boop running advanced analyses...")]
               ++ more)
  ∧ (∃ more, stdout (world (save_results env s).1)
             = stdout (world s)
               ++ [OutText (nl +:+ "beep boop saving results...")]
               ++ more).
Proof.
  repeat split.
  all: unfold basic_analysis, chemical_analysis, product_analysis,
         advanced_analysis, save_results, plt_figure, plt_plot, plt_title,
         plt_xlabel, plt_ylabel, plt_legend, plt_xticks, plt_close;
       rewrite run_print_text;
       lazymatch goal with |- context [(?m ?s0).1] =>
         assert (Ht : tame m) by tame_all env;
         destruct (Ht s0) as [_ [more ->]]; exists more
       end;
       cbn [with_output stdout world]; by tidy.
Qed.

(** C1: for a path that does not exist, [load_data] returns [False]
    and touches nothing but the console, so the dataset stays unset;
    [run_full_analysis] then stops where [load_data] stopped: the
    console holds the three lines of the failed load, none of which
    is the banner of a later step, and no file, directory or figure
    has changed. *)
Theorem missing_file_stops_the_run s :
  path_exists env (abspath env (data_path (self s))) = false →
  let report := missing_file_report (abspath env (data_path (self s))) in
  load_data env s = (with_output s report, Ok false)
  ∧ run_full_analysis env s = (with_output s report, Ok ())
  ∧ (df (self s) = None → df (self (run_full_analysis env s).1) = None)
  ∧ Forall (λ banner, banner ∉ report) step_banners.
Proof.
  intros Hno report.
  assert (Hload : load_data env s = (with_output s report, Ok false)).
  { unfold load_data. run. rewrite Hno. run.
    unfold with_output, report, missing_file_report. tidy. reflexivity. }
  split; [exact Hload|].
  assert (Hrun : run_full_analysis env s = (with_output s report, Ok ())).
  { unfold run_full_analysis. run. rewrite Hload. reflexivity. }
  split; [exact Hrun|]. split; [rewrite Hrun; cbn; auto|].
  unfold step_banners, report, missing_file_report.
  apply Forall_forall. intros banner Hb Hin.
  repeat (apply elem_of_cons in Hb as [->|Hb];
          [repeat (apply elem_of_cons in Hin as [Hin|Hin];
                   [vm_compute in Hin; discriminate Hin|]);
           by apply elem_of_nil in Hin|]).
  by apply elem_of_nil in Hb.
Qed.

End Loading.

(** ** The year-by-chemical matrix (lines 99-115) *)

Section Matrix.
Context {K : Type} `{EqDecision K}.

Lemma series_get_fmap (f : K → nat) (ks : list K) (k : K) :
  Pandas.series_get ((λ k, (k, f k)) <$> ks) k
  = if decide (k ∈ ks) then Some (f k) else None.
Proof.
  induction ks as [|k' ks IH]; cbn.
  - by rewrite decide_False by apply not_elem_of_nil.
  - destruct (decide (k' = k)) as [->|Hne].
    + by rewrite decide_True by left.
    + rewrite IH. destruct (decide (k ∈ ks)).
      * by rewrite decide_True by (by right).
      * rewrite decide_False; [done|].
        rewrite elem_of_cons. intros [?|?]; congruence.
Qed.

End Matrix.

Lemma count_pair_as_group (rows : list (Cell * Cell)) y c :
  Pandas.count_eq (y, c) rows
  = Pandas.count_eq c
      (snd <$> List.filter (λ r, bool_decide (r.1 = y)) rows).
Proof.
  induction rows as [|[y' c'] rows IH]; [done|].
  rewrite count_eq_cons. cbn [List.filter fst].
  destruct (bool_decide_reflect (y' = y)) as [->|Hy].
  - rewrite fmap_cons, count_eq_cons, IH. cbn [snd].
    destruct (bool_decide_reflect (c' = c)) as [->|Hc].
    + by rewrite bool_decide_eq_true_2.
    + rewrite bool_decide_eq_false_2; [done|]. congruence.
  - rewrite bool_decide_eq_false_2; [done|]. congruence.
Qed.

Lemma count_fst_as_group (rows : list (Cell * Cell)) y :
  Pandas.count_eq y (rows.*1)
  = length (snd <$> List.filter (λ r, bool_decide (r.1 = y)) rows).
Proof.
  induction rows as [|[y' c'] rows IH]; [done|].
  rewrite fmap_cons, count_eq_cons. cbn [List.filter fst].
  destruct (bool_decide_reflect (y' = y)); cbn; rewrite IH; done.
Qed.

Lemma elem_of_group (rows : list (Cell * Cell)) y c :
  c ∈ snd <$> List.filter (λ r, bool_decide (r.1 = y)) rows ↔ (y, c) ∈ rows.
Proof.
  induction rows as [|[y' c'] rows IH]; cbn.
  - by rewrite !elem_of_nil.
  - destruct (bool_decide_reflect (y' = y)) as [->|Hy]; cbn.
    + rewrite !elem_of_cons, IH.
      split; (intros [Heq|Hin]; [left; congruence|by right]).
    + rewrite elem_of_cons, IH.
      split; [auto|intros [Heq|Hin]; [congruence|done]].
Qed.

Section Trends.
Context (year chem : list Cell).

Let rows := Pandas.key_pairs year chem.
Let trends := Pandas.unstack (Pandas.groupby_size2 year chem).

Lemma size2_keys :
  (Pandas.groupby_size2 year chem).*1
  = merge_sort Pandas.pair_le (Pandas.unique rows).
Proof.
  unfold Pandas.groupby_size2. cbv zeta. rewrite <- list_fmap_compose.
  apply list_fmap_id.
Qed.

Lemma elem_of_size2_keys k : k ∈ (Pandas.groupby_size2 year chem).*1 ↔ k ∈ rows.
Proof.
  by rewrite size2_keys, (merge_sort_Permutation Pandas.pair_le),
    elem_of_unique.
Qed.

(** The rows of the matrix are the years that occur, once each. *)
Lemma trends_index y :
  NoDup (Pandas.m_index trends)
  ∧ (y ∈ Pandas.m_index trends ↔ ∃ c, (y, c) ∈ rows).
Proof.
  unfold trends, Pandas.unstack. cbn [Pandas.m_index].
  rewrite (merge_sort_Permutation Pandas.cell_le). split.
  - apply NoDup_unique.
  - rewrite elem_of_unique, list_elem_of_fmap. split.
    + intros [[y' c] [-> Hin]]. exists c. by apply elem_of_size2_keys.
    + intros [c Hin]. exists (y, c). split; [done|].
      by apply elem_of_size2_keys.
Qed.

(** Its columns are the chemicals that occur, once each. *)
Lemma trends_columns c :
  NoDup (Pandas.m_columns trends)
  ∧ (c ∈ Pandas.m_columns trends ↔ ∃ y, (y, c) ∈ rows).
Proof.
  unfold trends, Pandas.unstack. cbn [Pandas.m_columns].
  rewrite (merge_sort_Permutation Pandas.cell_le). split.
  - apply NoDup_unique.
  - rewrite elem_of_unique, list_elem_of_fmap. split.
    + intros [[y c'] [-> Hin]]. exists y. by apply elem_of_size2_keys.
    + intros [y Hin]. exists (y, c). split; [done|].
      by apply elem_of_size2_keys.
Qed.

(** A cell holds the number of records of its pair, and nothing when
    there is none. *)
Lemma trends_cell y c :
  Pandas.m_cell trends y c
  = if decide ((y, c) ∈ rows) then Some (Pandas.count_eq (y, c) rows)
    else None.
Proof.
  unfold Pandas.m_cell, trends, Pandas.unstack. cbn [Pandas.m_entries].
  unfold Pandas.groupby_size2. cbv zeta. rewrite series_get_fmap.
  fold rows. destruct (decide ((y, c) ∈ rows)) as [Hin|Hout].
  - rewrite decide_True; [done|].
    by rewrite (merge_sort_Permutation Pandas.pair_le), elem_of_unique.
  - rewrite decide_False; [done|].
    by rewrite (merge_sort_Permutation Pandas.pair_le), elem_of_unique.
Qed.

Lemma trends_cell_default y c :
  default 0 (Pandas.m_cell trends y c) = Pandas.count_eq (y, c) rows.
Proof.
  rewrite trends_cell. destruct (decide ((y, c) ∈ rows)) as [Hin|Hout]; cbn.
  - done.
  - symmetry. by apply count_eq_zero.
Qed.

(** The total of a row is the number of records of its year that name
    a chemical. *)
Lemma trends_row_sums y n :
  (y, n) ∈ Pandas.row_sums trends → n = Pandas.count_eq y (rows.*1).
Proof.
  unfold Pandas.row_sums. rewrite list_elem_of_fmap.
  intros (y' & [= <- ->] & _).
  rewrite count_fst_as_group.
  transitivity
    (sum_list ((λ c, Pandas.count_eq c
                       (snd <$> List.filter (λ r, bool_decide (r.1 = y)) rows))
                 <$> Pandas.m_columns trends)).
  - f_equal. apply list_fmap_ext. intros i c _. cbn beta.
    rewrite trends_cell_default. apply count_pair_as_group.
  - apply sum_counts; [apply (trends_columns NA)|].
    intros c Hc. apply trends_columns. exists y. by apply elem_of_group.
Qed.

End Trends.

Section ChemicalAnalysis.
Context (env : Env).

(** The loop of lines 107-109 draws the lines and does nothing else. *)
Lemma plot_loop_run (m : Pandas.Matrix) (chems : list Cell) s :
  ∃ s1,
    for_ chems (λ chem,
      if bool_decide (chem ∈ Pandas.m_columns m) then
        plt_plot (Pandas.m_index m) (Pandas.matrix_col m chem) chem
      else mret ()) s = (s1, Ok ())
    ∧ self s1 = self s
    ∧ stdout (world s1) = stdout (world s)
    ∧ dirs (world s1) = dirs (world s)
    ∧ files (world s1) = files (world s)
    ∧ figure (world s1) = with_lines (figure (world s)) (trend_lines m chems).
Proof.
  revert s. induction chems as [|c chems IH]; intros s.
  - exists s. repeat split. unfold with_lines, trend_lines. cbn.
    rewrite app_nil_r. by destruct (figure (world s)).
  - cbn [for_]. run. unfold trend_lines. cbn [List.filter].
    destruct (bool_decide (c ∈ Pandas.m_columns m)); run.
    + lazymatch goal with |- context [for_ chems _ ?s0] =>
        destruct (IH s0) as (s1 & Hrun & Hself & Hout & Hdirs & Hfiles & Hfig)
      end.
      exists s1. split; [exact Hrun|]. repeat split; try done.
      rewrite Hfig. unfold with_lines, trend_lines. cbn.
      by rewrite <- app_assoc.
    + destruct (IH s) as (s1 & Hrun & Hrest). exists s1.
      split; [exact Hrun|exact Hrest].
Qed.

(** C3, as the code has it.  With the columns it needs,
    [chemical_analysis] prints the two counts and, when the frame has
    no ReportYear column, stops there: no matrix, no chart.  When it
    has one, the matrix has one row per year and one column per
    chemical that occur together in a record; a pair that occurs holds
    its number of records, a pair that does not occur holds no value
    (NaN, not zero); the total printed for a year is the number of its
    records that name a chemical, so a missing pair adds nothing to
    it.  If the figure can be written, the file
    [<timestamp>_chemical_trends.png] holds one line per top-5
    chemical that is a column of the matrix, that column against the
    years. *)
Theorem chemical_trends_matrix_and_chart s d chem cat :
  df (self s) = Some d →
  Pandas.get_col d "ChemicalName" = Some chem →
  Pandas.get_col d "PrimaryCategory" = Some cat →
  (Pandas.get_col d "ReportYear" = None →
   chemical_analysis env s = (with_output s (chemical_report chem cat), Ok ()))
  ∧ ∀ year,
      Pandas.get_col d "ReportYear" = Some year →
      let rows := Pandas.key_pairs year chem in
      let trends := Pandas.unstack (Pandas.groupby_size2 year chem) in
      let top_chems := (take 5 (Pandas.value_counts chem)).*1 in
      let png := out_path (self s) "chemical_trends.png" in
      (∀ y, y ∈ Pandas.m_index trends ↔ ∃ c, (y, c) ∈ rows)
      ∧ (∀ c, c ∈ Pandas.m_columns trends ↔ ∃ y, (y, c) ∈ rows)
      ∧ (∀ y c, Pandas.m_cell trends y c
                = if decide ((y, c) ∈ rows)
                  then Some (Pandas.count_eq (y, c) rows) else None)
      ∧ (∀ y n, (y, n) ∈ Pandas.row_sums trends →
                n = Pandas.count_eq y (rows.*1))
      ∧ (savefig env png = None →
         ∃ s',
           chemical_analysis env s = (s', Ok ())
           ∧ self s' = self s
           ∧ stdout (world s')
             = stdout (world s) ++ chemical_report chem cat
               ++ [OutText (nl +:+ "---- Chemical Trends over Time ----");
                   OutSeries (Pandas.row_sums trends);
                   OutText "Saved plot: chemical_trends.png"]
           ∧ files (world s')
             = <[png := Png (trends_figure trends top_chems)]> (files (world s))).
Proof.
  intros Hd Hchem Hcat. split.
  - intros Hyear. apply has_col_false in Hyear.
    unfold chemical_analysis. steps.
    unfold with_output, chemical_report. by tidy.
  - intros year Hyear rows trends top_chems png.
    split; [intros y; apply (trends_index year chem y)|].
    split; [intros c; apply (trends_columns year chem c)|].
    split; [intros y c; apply (trends_cell year chem y c)|].
    split; [intros y n; apply (trends_row_sums year chem y n)|].
    intros Hsave.
    assert (Hhas : Pandas.has_col d "ReportYear" = true).
    { apply has_col_get_col. rewrite Hyear. eauto. }
    unfold chemical_analysis. steps.
    lazymatch goal with |- context [for_ ?l ?body ?s0] =>
      destruct (plot_loop_run trends l s0)
        as (s1 & Hloop & Hself & Hout & Hdirs & Hfiles & Hfig);
      replace (for_ l body s0) with (s1, Ok ()) by (symmetry; exact Hloop)
    end.
    cbn [self world stdout dirs files figure] in Hself, Hout, Hdirs, Hfiles, Hfig.
    run. rewrite Hself.
    change (path_join _ (_ +:+ "_" +:+ "chemical_trends.png")) with png.
    rewrite Hsave. run.
    eexists. split; [reflexivity|]. cbn [self world stdout files].
    rewrite ?Hself, Hout, Hfiles, Hfig. unfold with_lines. run. unfold chemical_report. tidy.
    repeat split.
Qed.

End ChemicalAnalysis.

(** ** The discontinued products (lines 139-156) *)

Lemma get_col_filter_rows d mask name :
  Pandas.get_col (filter_rows d mask) name
  = select mask <$> Pandas.get_col d name.
Proof.
  induction d as [|[n c] d IH]; [done|]. cbn.
  destruct (decide (n = name)); [done|apply IH].
Qed.

Lemma length_select_notna {A} (dd : list Cell) (l : list A) :
  length l = length dd →
  length (select (Pandas.notna <$> dd) l) = length (Pandas.dropna dd).
Proof.
  revert l. induction dd as [|c dd IH]; intros [|x l] Hlen;
    try done; cbn in *.
  destruct (Pandas.notna c); cbn; auto.
Qed.

Lemma frame_rows_get_col d n name c :
  frame_rows d n → Pandas.get_col d name = Some c → length c = n.
Proof.
  unfold frame_rows. induction 1 as [|[n' c'] d Hc Hd IH]; [done|]. cbn.
  destruct (decide (n' = name)); [by intros [= <-]|apply IH].
Qed.

(** The subset has as many records as there are discontinuation
    dates. *)
Lemma len_discontinued d n dd :
  frame_rows d n → Pandas.get_col d "DiscontinuedDate" = Some dd →
  Pandas.len (filter_rows d (Pandas.notna <$> dd)) = length (Pandas.dropna dd).
Proof.
  intros Hrows Hdd.
  pose proof (frame_rows_get_col d n _ dd Hrows Hdd) as Hlen.
  destruct d as [|[n0 c0] d]; [done|]. cbn.
  apply length_select_notna. apply Forall_cons in Hrows as [Hc0 _].
  cbn in Hc0. congruence.
Qed.

Section ProductAnalysis.
Context (env : Env).

(** C4, as the code has it.  With the columns it needs,
    [product_analysis] prints the company, category and subcategory
    tables; without a DiscontinuedDate column it stops there: no
    subset report, no chart.  With the column it reports the size of
    the subset of records that have a discontinuation date, zero
    included; the top-10 chemicals of the subset and the bar chart
    [<timestamp>_discontinued_chemicals.png] follow when the subset is
    not empty (line 144), and only then. *)
Theorem discontinued_subset_analysis s d n comp product chem cat sub :
  df (self s) = Some d →
  frame_rows d n →
  Pandas.get_col d "CompanyName" = Some comp →
  Pandas.get_col d "ProductName" = Some product →
  Pandas.get_col d "ChemicalName" = Some chem →
  Pandas.get_col d "PrimaryCategory" = Some cat →
  Pandas.get_col d "SubCategory" = Some sub →
  let report := product_report comp product chem cat sub in
  (Pandas.get_col d "DiscontinuedDate" = None →
   product_analysis env s = (with_output s report, Ok ()))
  ∧ ∀ dd,
      Pandas.get_col d "DiscontinuedDate" = Some dd →
      let size := length (Pandas.dropna dd) in
      let size_line :=
        OutText (nl +:+ "--- Discontinued Products: " +:+ pretty size
                    +:+ " ===") in
      let disc_chem :=
        Pandas.value_counts (select (Pandas.notna <$> dd) chem) in
      let png := out_path (self s) "discontinued_chemicals.png" in
      (size = 0 →
       product_analysis env s = (with_output s (report ++ [size_line]), Ok ()))
      ∧ (0 < size →
         plot_bar env (take 10 disc_chem) = None →
         savefig env png = None →
         ∃ s',
           product_analysis env s = (s', Ok ())
           ∧ self s' = self s
           ∧ stdout (world s')
             = stdout (world s) ++ report
               ++ [size_line;
                   OutText (nl +:+ "Chemicals in discontinued products:");
                   OutSeries (take 10 disc_chem);
                   OutText "Saved plot: discontinued_chemicals.png"]
           ∧ files (world s')
             = <[png := Png (discontinued_figure (take 10 disc_chem))]>
                 (files (world s))).
Proof.
  intros Hd Hrows Hcomp Hprod Hchem Hcat Hsub report. split.
  - intros Hdd. apply has_col_false in Hdd.
    unfold product_analysis. steps.
    unfold with_output, report, product_report. by tidy.
  - intros dd Hdd size size_line disc_chem png.
    assert (Hhas : Pandas.has_col d "DiscontinuedDate" = true).
    { apply has_col_get_col. rewrite Hdd. eauto. }
    pose proof (len_discontinued d n dd Hrows Hdd) as Hlen.
    fold size in Hlen. split.
    + intros Hsize. unfold product_analysis. steps. rewrite Hlen.
      rewrite bool_decide_eq_false_2 by lia.
      unfold with_output, report, product_report. by tidy.
    + intros Hsize Hplot Hsave. unfold product_analysis. steps.
      rewrite Hlen, bool_decide_eq_true_2 by lia.
      rewrite get_col_filter_rows, Hchem. cbn [fmap option_fmap option_map].
      fold disc_chem. steps.
      change (path_join _ (_ +:+ "_" +:+ "discontinued_chemicals.png"))
        with png.
      rewrite Hsave. run.
      eexists. split; [reflexivity|]. cbn [self world stdout files].
      unfold report, product_report. tidy. repeat split.
Qed.

End ProductAnalysis.

(** ** The average number of chemicals per product (lines 162-165) *)

Lemma dropna_id (l : list Cell) : NA ∉ l → Pandas.dropna l = l.
Proof.
  unfold Pandas.dropna.
  induction l as [|c l IH]; [done|]. rewrite not_elem_of_cons.
  intros [Hc Hl]. destruct c; [congruence|..]; cbn; by rewrite IH.
Qed.

Lemma elem_of_group_values x k keycol valcol :
  x ∈ Pandas.group_values k keycol valcol → x ∈ valcol.
Proof.
  unfold Pandas.group_values. rewrite list_elem_of_fmap.
  intros ([k' x'] & -> & Hin). apply list_elem_of_In, filter_In in Hin as [Hin _].
  apply list_elem_of_In in Hin. by apply elem_of_zip_r in Hin.
Qed.

(** Where no record lacks its chemical, line 164 counts what the
    claim counts. *)
Lemma product_chem_counts_without_nulls product chem :
  NA ∉ chem →
  product_chem_counts product chem
  = distinct_chemicals_per_product product chem.
Proof.
  intros Hna.
  unfold product_chem_counts, distinct_chemicals_per_product,
    Pandas.groupby_unique, Pandas.groupby_nunique.
  rewrite <- !list_fmap_compose. apply list_fmap_ext. intros i k _. cbn.
  unfold Pandas.nunique. rewrite dropna_id; [done|].
  intros Hin. by apply Hna, (elem_of_group_values _ k product).
Qed.

(** C7, on a product with one named chemical and one record without
    a chemical: [unique()] keeps the null, [len] counts it, and the
    average printed is 2 where the product has 1 distinct chemical. *)
Theorem null_chemical_counted_in_average :
  let product := [Str "Gloss"; Str "Gloss"] in
  let chem := [Str "Titanium dioxide"; NA] in
  Pandas.get_col Fixture.unnamed_chemical "ProductName" = Some product
  ∧ Pandas.get_col Fixture.unnamed_chemical "ChemicalName" = Some chem
  ∧ product_chem_counts product chem = [2]
  ∧ distinct_chemicals_per_product product chem = [1]
  ∧ stdout (world (advanced_analysis
                     (Fixture.start "/data/cosmetics.csv"
                        (Some Fixture.unnamed_chemical))).1) !! 2
    = Some (OutMean (nl +:+ "Average chemicals per product: ")
                    (Some (2 # 1)%Q))
  ∧ mean (distinct_chemicals_per_product product chem) = Some (1 # 1)%Q.
Proof. repeat split; vm_compute; reflexivity. Qed.
(** ** The company statistics (lines 122-127) *)

Section CompanyStatistics.
Context (env : Env).

(** C9: when the dataset has the three columns of lines 123-126,
    [product_analysis] prints, right after its two headings, one table
    of company statistics and no other: at most ten rows of the
    per-company table, and down these rows each has at least as many
    distinct products as the row after it. *)
Theorem company_top10_non_increasing s d comp product chem :
  df (self s) = Some d →
  Pandas.get_col d "CompanyName" = Some comp →
  Pandas.get_col d "ProductName" = Some product →
  Pandas.get_col d "ChemicalName" = Some chem →
  ∃ rows more,
    stdout (world (product_analysis env s).1)
    = stdout (world s)
      ++ [OutText (nl +:+ "[4/5] Analyzing product data...");
          OutText (nl +:+ "---- Company Statistics ----");
          OutStats rows]
      ++ more
    ∧ (∀ t, OutStats t ∉ more)
    ∧ rows ⊆+ company_table comp product chem
    ∧ length rows = 10 `min` length (Pandas.group_keys comp)
    ∧ ∀ i r1 r2,
        rows !! i = Some r1 → rows !! S i = Some r2 →
        n_products r2 ≤ n_products r1.
Proof.
  intros Hd Hcomp Hprod Hchem.
  exists (take 10 (sort_by_products (company_table comp product chem))).
  assert (Hout : ∃ more,
    stdout (world (product_analysis env s).1)
    = stdout (world s)
      ++ [OutText (nl +:+ "[4/5] Analyzing product data...");
          OutText (nl +:+ "---- Company Statistics ----");
          OutStats (take 10 (sort_by_products
                               (company_table comp product chem)))]
      ++ more
    ∧ ∀ t, OutStats t ∉ more).
  { unfold product_analysis. steps.
    repeat (case_outcome; steps).
    all: cbn [stdout world fst]; tidy; eexists; (split; [reflexivity|]).
    all: intros t Hin;
      repeat (apply elem_of_cons in Hin as [Hin|Hin]; [discriminate|]);
      by apply elem_of_nil in Hin. }
  destruct Hout as (more & Hout & Hmore). exists more.
  split; [exact Hout|]. split; [exact Hmore|]. split; [|split].
  - etrans; [apply sublist_submseteq, sublist_take|].
    unfold sort_by_products.
    by rewrite (merge_sort_Permutation products_ge).
  - rewrite length_take. unfold sort_by_products.
    rewrite (merge_sort_Permutation products_ge). unfold company_table.
    by rewrite length_fmap.
  - intros i r1 r2 H1 H2.
    apply lookup_take_Some in H1 as [H1 _], H2 as [H2 _].
    apply (Sorted_neighbours products_ge
             (sort_by_products (company_table comp product chem)) i r1 r2);
      [|done..].
    apply Sorted_merge_sort, _.
Qed.

End CompanyStatistics.

(** * The properties on the sample data *)

Section Samples.
Import Fixture.

(** C5 fails as the claim states it: where neither directory can be
    made, the constructor raises. *)
Lemma init_raises_without_directories :
  (__init__ (platform five_rows always_fails always_ok always_ok)
     "/data/cosmetics.csv" empty_world).2
  = Raise (OSError "[Errno 13] Permission denied").
Proof. reflexivity. Qed.

(** The fallback is used when only the primary directory fails. *)
Lemma init_returns_when_a_directory_is_made_witness :
  (makedirs (platform five_rows (fails_at "/work/analysis_results")
               always_ok always_ok)
     "/home/user/Desktop/cosmetics_analysis" = None)
  ∧ ∃ w' a,
      __init__ (platform five_rows (fails_at "/work/analysis_results")
                  always_ok always_ok) "/data/cosmetics.csv" empty_world
      = (w', Ok a)
      ∧ df a = None
      ∧ results_dir a = "/home/user/Desktop/cosmetics_analysis".
Proof.
  split; [reflexivity|].
  destruct (init_returns_when_a_directory_is_made
              (platform five_rows (fails_at "/work/analysis_results")
                 always_ok always_ok)
              "/data/cosmetics.csv" empty_world (or_intror eq_refl))
    as (w' & a & Hinit & _ & Hdf & _ & _ & Hdir).
  exists w', a. split; [exact Hinit|]. split; [exact Hdf|exact Hdir].
Defined.

Lemma missing_file_stops_the_run_witness :
  path_exists (fair five_rows) "/data/none.csv" = false
  ∧ run_full_analysis (fair five_rows) (start "/data/none.csv" None)
    = (with_output (start "/data/none.csv" None)
         (missing_file_report "/data/none.csv"), Ok ())
  ∧ df (self (run_full_analysis (fair five_rows)
                (start "/data/none.csv" None)).1) = None.
Proof.
  split; [reflexivity|].
  destruct (missing_file_stops_the_run (fair five_rows)
              (start "/data/none.csv" None) eq_refl) as (_ & Hrun & Hdf & _).
  split; [exact Hrun|exact (Hdf eq_refl)].
Defined.

Lemma report_year_is_year_of_initial_date_witness :
  read_csv (fair five_rows) "/data/cosmetics.csv" = Ok five_rows
  ∧ Pandas.get_col five_rows "InitialDateReported"
    = Some [Str "06/17/2009"; Str "07/01/2009"; Str "not a date"; NA;
            Str "02/28/2010"]
  ∧ load_succeeds (fair five_rows) five_rows = true
  ∧ ∃ s' d years,
      load_data (fair five_rows) (start "/data/cosmetics.csv" None)
      = (s', Ok true)
      ∧ df (self s') = Some d
      ∧ Pandas.get_col d "ReportYear" = Some years
      ∧ years !! 0 = Some (Int 2009)
      ∧ years !! 2 = Some NA
      ∧ years !! 3 = Some NA.
Proof.
  split; [reflexivity|]. split; [reflexivity|]. split; [reflexivity|].
  destruct (report_year_is_year_of_initial_date (fair five_rows)
              (start "/data/cosmetics.csv" None) five_rows
              (col five_rows "InitialDateReported")
              eq_refl eq_refl)
    as [Hloads Hafter].
  destruct (Hloads eq_refl eq_refl) as [s' Hload].
  destruct (Hafter s' Hload) as (d & dates & years & Hdf & _ & Hyears & Hrec).
  exists s', d, years.
  split; [exact Hload|]. split; [exact Hdf|]. split; [exact Hyears|].
  split; [exact (proj2 (proj1 (Hrec 0 (Str "06/17/2009") eq_refl)))|].
  split; [exact (proj2 (proj1 (Hrec 2 (Str "not a date") eq_refl)))|].
  exact (proj2 (Hrec 3 NA eq_refl) eq_refl).
Defined.

(** C3 fails as the claim states it: 2010 is a row and titanium
    dioxide a column of the matrix, no record has both, and the cell
    holds no value rather than zero; the line drawn has a gap there. *)
Lemma missing_pair_is_not_zero :
  ((Int 2010, Str "Titanium dioxide")
     ∉ Pandas.key_pairs (col (loaded five_rows) "ReportYear")
         (col (loaded five_rows) "ChemicalName"))
  ∧ Int 2010
    ∈ Pandas.m_index
        (Pandas.unstack
           (Pandas.groupby_size2 (col (loaded five_rows) "ReportYear")
              (col (loaded five_rows) "ChemicalName")))
  ∧ Str "Titanium dioxide"
    ∈ Pandas.m_columns
        (Pandas.unstack
           (Pandas.groupby_size2 (col (loaded five_rows) "ReportYear")
              (col (loaded five_rows) "ChemicalName")))
  ∧ Pandas.m_cell
      (Pandas.unstack
         (Pandas.groupby_size2 (col (loaded five_rows) "ReportYear")
            (col (loaded five_rows) "ChemicalName")))
      (Int 2010) (Str "Titanium dioxide")
    ≠ Some 0
  ∧ (f ← files (world (chemical_analysis (fair five_rows)
                         (ready five_rows)).1)
         !! results_file "chemical_trends.png";
     match f with
     | Png fig => (λ l, l.2.2) <$> head (fig_lines fig)
     | _ => None
     end) = Some [Some 2; None].
Proof.
  split; [apply (bool_decide_unpack _); vm_compute; exact I|].
  split; [apply (bool_decide_unpack _); vm_compute; exact I|].
  split; [apply (bool_decide_unpack _); vm_compute; exact I|].
  split; [vm_compute; discriminate|]. vm_compute. reflexivity.
Qed.

Lemma chemical_trends_matrix_and_chart_witness :
  Pandas.get_col (loaded five_rows) "ReportYear"
  = Some [Int 2009; Int 2009; NA; NA; Int 2010]
  ∧ savefig (fair five_rows) (results_file "chemical_trends.png") = None
  ∧ Pandas.row_sums
      (Pandas.unstack
         (Pandas.groupby_size2 (col (loaded five_rows) "ReportYear")
            (col (loaded five_rows) "ChemicalName")))
    = [(Int 2009, 2); (Int 2010, 1)]
  ∧ 2 = Pandas.count_eq (Int 2009)
          (Pandas.key_pairs (col (loaded five_rows) "ReportYear")
             (col (loaded five_rows) "ChemicalName")).*1
  ∧ ∃ s',
      chemical_analysis (fair five_rows) (ready five_rows) = (s', Ok ())
      ∧ files (world s')
        = <[out_path (self (ready five_rows)) "chemical_trends.png" :=
              Png (trends_figure
                     (Pandas.unstack
                        (Pandas.groupby_size2
                           (col (loaded five_rows) "ReportYear")
                           (col (loaded five_rows) "ChemicalName")))
                     (take 5 (Pandas.value_counts
                                (col (loaded five_rows) "ChemicalName"))).*1)]>
            (files (world (ready five_rows))).
Proof.
  split; [reflexivity|]. split; [reflexivity|]. split; [reflexivity|].
  destruct (chemical_trends_matrix_and_chart (fair five_rows)
              (ready five_rows) (loaded five_rows)
              (col (loaded five_rows) "ChemicalName")
              (col (loaded five_rows) "PrimaryCategory")
              eq_refl eq_refl eq_refl) as [_ Hyear].
  destruct (Hyear (col (loaded five_rows) "ReportYear") eq_refl)
    as (_ & _ & _ & Hsum & Hchart).
  split.
  - apply Hsum. apply (bool_decide_unpack _). vm_compute. exact I.
  - destruct (Hchart eq_refl) as (s' & Hrun & _ & _ & Hfiles).
    exists s'. split; [exact Hrun|exact Hfiles].
Defined.

(** C4 fails as the claim states it: the column is there, no record
    is discontinued, the size 0 is the last thing printed and no chart
    is written. *)
Lemma empty_subset_gets_no_chart :
  Pandas.has_col (loaded none_discontinued) "DiscontinuedDate" = true
  ∧ (product_analysis (fair none_discontinued) (ready none_discontinued)).2
    = Ok ()
  ∧ last (stdout (world (product_analysis (fair none_discontinued)
                           (ready none_discontinued)).1))
    = Some (OutText (nl +:+ "--- Discontinued Products: 0 ==="))
  ∧ files (world (product_analysis (fair none_discontinued)
                    (ready none_discontinued)).1)
      !! results_file "discontinued_chemicals.png"
    = None.
Proof. repeat split; vm_compute; reflexivity. Qed.

Lemma discontinued_subset_analysis_witness :
  frame_rows (loaded five_rows) 5
  ∧ Pandas.get_col (loaded five_rows) "DiscontinuedDate"
    = Some (col (loaded five_rows) "DiscontinuedDate")
  ∧ 0 < length (Pandas.dropna (col (loaded five_rows) "DiscontinuedDate"))
  ∧ ∃ s',
      product_analysis (fair five_rows) (ready five_rows) = (s', Ok ())
      ∧ files (world s')
        = <[out_path (self (ready five_rows)) "discontinued_chemicals.png" :=
              Png (discontinued_figure
                     (take 10
                        (Pandas.value_counts
                           (select
                              (Pandas.notna
                                 <$> col (loaded five_rows) "DiscontinuedDate")
                              (col (loaded five_rows) "ChemicalName")))))]>
            (files (world (ready five_rows))).
Proof.
  assert (Hrows : frame_rows (loaded five_rows) 5).
  { unfold frame_rows. vm_compute. repeat constructor. }
  split; [exact Hrows|]. split; [reflexivity|].
  assert (Hsize : 0 < length (Pandas.dropna
                                (col (loaded five_rows) "DiscontinuedDate"))).
  { vm_compute. lia. }
  split; [exact Hsize|].
  destruct (discontinued_subset_analysis (fair five_rows) (ready five_rows)
              (loaded five_rows) 5
              (col (loaded five_rows) "CompanyName")
              (col (loaded five_rows) "ProductName")
              (col (loaded five_rows) "ChemicalName")
              (col (loaded five_rows) "PrimaryCategory")
              (col (loaded five_rows) "SubCategory")
              eq_refl Hrows eq_refl eq_refl eq_refl eq_refl eq_refl)
    as [_ Hdd].
  destruct (Hdd (col (loaded five_rows) "DiscontinuedDate") eq_refl)
    as [_ Hchart].
  destruct (Hchart Hsize eq_refl eq_refl) as (s' & Hrun & _ & _ & Hfiles).
  exists s'. split; [exact Hrun|exact Hfiles].
Defined.

Lemma save_results_catches_write_failures_witness :
  to_csv (platform five_rows always_ok always_ok
            (fails_at (results_file "chemical_counts.csv")))
    (results_file "chemical_counts.csv")
  = Some (OSError "[Errno 28] No space left on device")
  ∧ (save_results
       (platform five_rows always_ok always_ok
          (fails_at (results_file "chemical_counts.csv")))
       (ready five_rows)).2 = Ok ()
  ∧ files (world (save_results
                    (platform five_rows always_ok always_ok
                       (fails_at (results_file "chemical_counts.csv")))
                    (ready five_rows)).1)
    = <[out_path (self (ready five_rows)) "cleaned_data.csv" :=
          CsvFrame (loaded five_rows)]> (files (world (ready five_rows))).
Proof.
  split; [reflexivity|].
  destruct (save_results_catches_write_failures
              (platform five_rows always_ok always_ok
                 (fails_at (results_file "chemical_counts.csv")))
              (ready five_rows)) as (Hret & _ & Hwrites).
  split; [exact Hret|].
  exact (proj1 (Hwrites (loaded five_rows)
                  (col (loaded five_rows) "ChemicalName")
                  (col (loaded five_rows) "CompanyName")
                  (col (loaded five_rows) "ProductName")
                  eq_refl eq_refl eq_refl eq_refl)).
Defined.

Lemma company_top10_non_increasing_witness :
  company_table (col three_companies "CompanyName")
    (col three_companies "ProductName") (col three_companies "ChemicalName")
  = [mkStatRow (Str "Acme") 1 1; mkStatRow (Str "Bolt") 3 2;
     mkStatRow (Str "Cove") 2 2]
  ∧ ∃ more,
      stdout (world (product_analysis (fair three_companies)
                       (ready three_companies)).1)
      = [OutText (nl +:+ "[4/5] Analyzing product data...");
         OutText (nl +:+ "---- Company Statistics ----");
         OutStats [mkStatRow (Str "Bolt") 3 2; mkStatRow (Str "Cove") 2 2;
                   mkStatRow (Str "Acme") 1 1]]
        ++ more
      ∧ (∀ t, OutStats t ∉ more)
      ∧ 2 ≤ 3 ∧ 1 ≤ 2.
Proof.
  split; [reflexivity|].
  destruct (company_top10_non_increasing (fair three_companies)
              (ready three_companies) (loaded three_companies)
              (col three_companies "CompanyName")
              (col three_companies "ProductName")
              (col three_companies "ChemicalName")
              eq_refl eq_refl eq_refl eq_refl)
    as (rows & more & Hout & Hmore & _ & _ & Hdown).
  assert (Hrows : rows = [mkStatRow (Str "Bolt") 3 2;
                          mkStatRow (Str "Cove") 2 2;
                          mkStatRow (Str "Acme") 1 1]).
  { pose proof (f_equal (λ l, l !! 2) Hout) as H2.
    vm_compute in H2. by injection H2 as <-. }
  subst rows. exists more.
  split; [exact Hout|]. split; [exact Hmore|].
  split; [exact (Hdown 0 _ _ eq_refl eq_refl)
         |exact (Hdown 1 _ _ eq_refl eq_refl)].
Defined.

Lemma saved_tables_agree_with_analyses_witness :
  to_csv (fair five_rows) (out_path (self (ready five_rows)) "company_stats.csv")
  = None
  ∧ files (world (save_results (fair five_rows)
                    (advanced_analysis
                       (product_analysis (fair five_rows)
                          (chemical_analysis (fair five_rows)
                             (basic_analysis (ready five_rows)).1).1).1).1).1)
      !! out_path (self (ready five_rows)) "chemical_counts.csv"
    = Some (CsvCounts ["Count"]
              (Pandas.value_counts (col (loaded five_rows) "ChemicalName")))
  ∧ Pandas.value_counts (col (loaded five_rows) "ChemicalName")
    = [(Str "Titanium dioxide", 3); (Str "Carbon black", 2)].
Proof.
  split; [reflexivity|]. split; [|reflexivity].
  exact (proj1 (proj2 (proj2 (proj2
           (saved_tables_agree_with_analyses (fair five_rows)
              (ready five_rows) (loaded five_rows)
              (col (loaded five_rows) "ChemicalName")
              (col (loaded five_rows) "CompanyName")
              (col (loaded five_rows) "ProductName")
              eq_refl eq_refl eq_refl eq_refl eq_refl eq_refl eq_refl))))).
Defined.

End Samples.

(** * Further properties *)

(** ** Frames: shape *)

Lemma frame_rows_set_col d n name v :
  frame_rows d n → length v = n → frame_rows (Pandas.set_col d name v) n.
Proof.
  unfold frame_rows. intros Hd Hv.
  induction Hd as [|[n' c] d Hc Hd IH]; cbn.
  - by repeat constructor.
  - destruct (decide (n' = name)); constructor; done.
Qed.

Lemma frame_rows_len d n : frame_rows d n → d ≠ [] → Pandas.len d = n.
Proof. intros Hd Hne. destruct Hd as [|[n' c] d Hc _]; done. Qed.

Section LoadedFrame.
Context (env : Env).

Lemma coerced_length col : length (coerced env col) = length col.
Proof. unfold coerced. by rewrite length_fmap. Qed.

Lemma frame_rows_coerce_column d n col :
  frame_rows d n → frame_rows (coerce_column env d col) n.
Proof.
  intros Hd. unfold coerce_column.
  destruct (Pandas.get_col d col) as [c|] eqn:Hc; [|done].
  apply frame_rows_set_col; [done|]. rewrite coerced_length.
  by apply (frame_rows_get_col d n col).
Qed.

Lemma frame_rows_coerce_dates d n cols :
  frame_rows d n → frame_rows (coerce_dates env d cols) n.
Proof.
  revert d. induction cols as [|col cols IH]; intros d Hd; [done|].
  rewrite coerce_dates_cons. by apply IH, frame_rows_coerce_column.
Qed.

Lemma frame_rows_add_report_year d n :
  frame_rows d n → frame_rows (add_report_year d) n.
Proof.
  intros Hd. unfold add_report_year.
  destruct (Pandas.get_col d "InitialDateReported") as [c|] eqn:Hc; [|done].
  apply frame_rows_set_col; [done|]. rewrite length_fmap.
  by apply (frame_rows_get_col d n "InitialDateReported").
Qed.

(** A column the loop reaches is coerced, once. *)
Lemma get_col_coerce_dates_member d cols col :
  NoDup cols → col ∈ cols →
  Pandas.get_col (coerce_dates env d cols) col
  = coerced env <$> Pandas.get_col d col.
Proof.
  intros Hnd. revert d. induction Hnd as [|c cols Hc Hnd IH]; intros d Hin.
  - by apply elem_of_nil in Hin.
  - rewrite coerce_dates_cons. apply elem_of_cons in Hin as [->|Hin].
    + rewrite get_col_coerce_dates_other by done. unfold coerce_column.
      destruct (Pandas.get_col d c) as [raw|] eqn:Hraw; cbn.
      * apply get_col_set_col_eq.
      * done.
    + rewrite IH by done. f_equal. apply get_col_coerce_column_ne.
      intros ->. done.
Qed.

(** Columns the cleaning does not touch. *)
Lemma get_col_cleaned_other d0 name :
  name ∉ date_cols → name ≠ "ReportYear" →
  Pandas.get_col (cleaned env d0) name = Pandas.get_col d0 name.
Proof.
  intros Hdate Hyear. unfold cleaned, add_report_year.
  destruct (Pandas.get_col (coerce_dates env d0 date_cols)
              "InitialDateReported");
    rewrite ?get_col_set_col_ne by done;
    by apply get_col_coerce_dates_other.
Qed.

End LoadedFrame.

(** ** Loading (lines 29-61), beyond the missing file *)

Section LoadOutcomes.
Context (env : Env).

(** X1: [load_data] never raises.  It returns [True] exactly when the
    file exists, [read_csv] reads it and pandas converts its date
    columns and gives the year of InitialDateReported.  A missing or
    unreadable file leaves the object as it was; a file that is read
    and whose cleaning fails leaves [self.df] set, to a frame with the
    columns of the file, ReportYear not added. *)
Theorem load_data_never_raises s :
  let abs_path := abspath env (data_path (self s)) in
  ∃ s' ok,
    load_data env s = (s', Ok ok)
    ∧ (ok = true ↔
       path_exists env abs_path = true
       ∧ ∃ d0, read_csv env abs_path = Ok d0 ∧ load_succeeds env d0 = true)
    ∧ (path_exists env abs_path = false
       ∨ (∃ e, read_csv env abs_path = Raise e) →
       self s' = self s)
    ∧ (∀ d0, path_exists env abs_path = true →
         read_csv env abs_path = Ok d0 →
         load_succeeds env d0 = false →
         ∃ d, df (self s') = Some d ∧ d.*1 = d0.*1
              ∧ data_path (self s') = data_path (self s)
              ∧ results_dir (self s') = results_dir (self s)
              ∧ timestamp (self s') = timestamp (self s)).
Proof.
  intros abs_path. subst abs_path.
  destruct (path_exists env (abspath env (data_path (self s)))) eqn:Hex;
    [destruct (read_csv env (abspath env (data_path (self s))))
       as [d0|e] eqn:Hread;
     [destruct (load_succeeds env d0) eqn:Hok|]|].
  - destruct (load_data_run env s d0 Hex Hread Hok) as (s' & Hrun & _).
    exists s', true. split; [exact Hrun|]. split; [|split].
    + split; [eauto|done].
    + intros [?|[e ?]]; congruence.
    + intros d1 _ [= <-] ?. congruence.
  - destruct (load_data_fails env s d0 Hex Hread Hok)
      as (s' & e & Hrun & Hdf & Hp & Hr & Ht & _).
    exists s', false. split; [exact Hrun|]. split; [|split].
    + split; [done|]. intros [_ (d1 & [= <-] & ?)]. congruence.
    + intros [?|[e' ?]]; congruence.
    + intros d1 _ [= <-] _. eexists. split; [exact Hdf|].
      split; [apply coerce_loop_names|done].
  - eexists _, false. unfold load_data. run. rewrite Hex. steps.
    split; [reflexivity|]. split; [|split].
    + split; [done|]. by intros [_ (d0 & ? & _)].
    + done.
    + intros d0 _ ?. congruence.
  - eexists _, false. unfold load_data. run. rewrite Hex. steps.
    split; [reflexivity|]. split; [|split].
    + split; [done|]. by intros [? _].
    + done.
    + intros d0 ?. congruence.
Qed.

(** X2: A file that is there but cannot be read is reported with the
    reader's message; the dataset is not set, and
    [run_full_analysis] stops without running any step. *)
Theorem unreadable_file_stops_the_run s e :
  path_exists env (abspath env (data_path (self s))) = true →
  read_csv env (abspath env (data_path (self s))) = Raise e →
  let report := unreadable_report (abspath env (data_path (self s))) e in
  load_data env s = (with_output s report, Ok false)
  ∧ run_full_analysis env s = (with_output s report, Ok ()).
Proof.
  intros Hex Hread report.
  assert (Hload : load_data env s = (with_output s report, Ok false)).
  { unfold load_data. run. rewrite Hex. steps.
    unfold with_output, report, unreadable_report. by tidy. }
  split; [exact Hload|].
  unfold run_full_analysis. run. by rewrite Hload.
Qed.

(** X3: A file that is read and cleaned is loaded whatever its
    columns: the frame keeps its number of records, which is the
    number printed, and every column other than the five date columns
    and ReportYear is kept as read. *)
Theorem load_keeps_records_and_other_columns s d0 n :
  path_exists env (abspath env (data_path (self s))) = true →
  read_csv env (abspath env (data_path (self s))) = Ok d0 →
  load_succeeds env d0 = true →
  frame_rows d0 n →
  ∃ s' d,
    load_data env s = (s', Ok true)
    ∧ df (self s') = Some d
    ∧ frame_rows d n
    ∧ (d0 ≠ [] →
       last (stdout (world s'))
       = Some (OutText ("yay! Success!! Loaded " +:+ pretty n +:+ " records")))
    ∧ ∀ name,
        name ∉ date_cols → name ≠ "ReportYear" →
        Pandas.get_col d name = Pandas.get_col d0 name.
Proof.
  intros Hex Hread Hok Hrows.
  destruct (load_data_run env s d0 Hex Hread Hok)
    as (s' & Hrun & Hdf & _ & _ & _ & Hout & _).
  assert (Hclean : frame_rows (cleaned env d0) n).
  { by apply frame_rows_add_report_year, frame_rows_coerce_dates. }
  exists s', (cleaned env d0). split; [exact Hrun|]. split; [exact Hdf|].
  split; [exact Hclean|]. split.
  - intros Hne. rewrite Hout. unfold load_report.
    rewrite (frame_rows_len (cleaned env d0) n Hclean).
    + by rewrite last_app.
    + intros Hnil. apply Hne. apply (f_equal (fmap fst)) in Hnil.
      assert (Hsub : (coerce_dates env d0 date_cols).*1 = []).
      { unfold cleaned, add_report_year in Hnil.
        destruct (Pandas.get_col (coerce_dates env d0 date_cols)
                    "InitialDateReported") as [c|] eqn:Hc; [|done].
        destruct (coerce_dates env d0 date_cols); [done|].
        by destruct c0; cbn in Hnil; destruct (decide _). }
      rewrite coerce_dates_names in Hsub. by destruct d0.
  - intros name Hdate Hyear. by apply get_col_cleaned_other.
Qed.

(** X4: When pandas converts the date columns of the file and the load
    succeeds, each of the five date columns the file has holds, record
    by record, the date its value parses to in that column, or null. *)
Theorem load_coerces_every_date_column s d0 col raw :
  path_exists env (abspath env (data_path (self s))) = true →
  read_csv env (abspath env (data_path (self s))) = Ok d0 →
  load_succeeds env d0 = true →
  col ∈ date_cols →
  Pandas.get_col d0 col = Some raw →
  ∃ s' d dates,
    load_data env s = (s', Ok true)
    ∧ df (self s') = Some d
    ∧ Pandas.get_col d col = Some dates
    ∧ length dates = length raw
    ∧ ∀ i c, raw !! i = Some c →
        dates !! i = Some (match date_of env raw c with
                           | Some t => Date t
                           | None => NA
                           end).
Proof.
  intros Hex Hread Hok Hcol Hraw.
  destruct (load_data_run env s d0 Hex Hread Hok) as (s' & Hrun & Hdf & _).
  exists s', (cleaned env d0), (coerced env raw).
  split; [exact Hrun|]. split; [exact Hdf|]. split; [|split].
  - assert (Hne : "ReportYear" ≠ col).
    { intros <-. revert Hcol. apply (bool_decide_unpack _). vm_compute.
      exact I. }
    unfold cleaned, add_report_year.
    destruct (Pandas.get_col (coerce_dates env d0 date_cols)
                "InitialDateReported");
      rewrite ?get_col_set_col_ne by done;
      rewrite get_col_coerce_dates_member, Hraw
        by (done || apply date_cols_NoDup); done.
  - apply coerced_length.
  - intros i c Hi. unfold coerced. rewrite list_lookup_fmap, Hi. cbn.
    by destruct (date_of env raw c).
Qed.

(** X5: A successful load adds at most one column, ReportYear, after
    the columns of the file and only when the file has
    InitialDateReported; a ReportYear column of a file without
    InitialDateReported is kept as it is. *)
Theorem load_adds_only_report_year s d0 :
  path_exists env (abspath env (data_path (self s))) = true →
  read_csv env (abspath env (data_path (self s))) = Ok d0 →
  load_succeeds env d0 = true →
  ∃ s' d,
    load_data env s = (s', Ok true)
    ∧ df (self s') = Some d
    ∧ d.*1 = d0.*1
             ++ (if Pandas.has_col d0 "InitialDateReported"
                    && negb (Pandas.has_col d0 "ReportYear")
                 then ["ReportYear"] else [])
    ∧ (Pandas.has_col d0 "InitialDateReported" = false →
       Pandas.get_col d "ReportYear" = Pandas.get_col d0 "ReportYear").
Proof.
  intros Hex Hread Hok.
  destruct (load_data_run env s d0 Hex Hread Hok) as (s' & Hrun & Hdf & _).
  exists s', (cleaned env d0). split; [exact Hrun|]. split; [exact Hdf|].
  unfold cleaned, add_report_year.
  destruct (Pandas.has_col d0 "InitialDateReported") eqn:Hidr.
  - pose proof Hidr as Hidr'.
    rewrite <- (coerce_dates_has_col env d0 date_cols) in Hidr'.
    apply has_col_get_col in Hidr' as [c Hc]. rewrite Hc.
    split; [|done]. cbn [andb].
    destruct (Pandas.has_col d0 "ReportYear") eqn:Hry; cbn [negb].
    + rewrite <- (coerce_dates_has_col env d0 date_cols) in Hry.
      apply has_col_get_col in Hry as [y Hy].
      rewrite (set_col_names_present _ _ y) by done.
      by rewrite coerce_dates_names, app_nil_r.
    + rewrite <- (coerce_dates_has_col env d0 date_cols) in Hry.
      apply has_col_false in Hry.
      by rewrite set_col_names_absent, coerce_dates_names by done.
  - pose proof Hidr as Hidr'.
    rewrite <- (coerce_dates_has_col env d0 date_cols) in Hidr'.
    apply has_col_false in Hidr'. rewrite Hidr'. cbn [andb].
    rewrite coerce_dates_names, app_nil_r. split; [done|]. intros _.
    apply get_col_coerce_dates_other.
    apply (bool_decide_unpack _). vm_compute. exact I.
Qed.

End LoadOutcomes.

(** ** The description step (lines 63-82) *)

Section Describe.

(** The loop of lines 80-82 prints one line per column present. *)
Lemma unique_loop_run cols s d :
  df (self s) = Some d →
  ∃ s1,
    for_ cols (λ col,
      d ← the_df;
      if Pandas.has_col d col then
        c ← column_of d col;
        print_text (col +:+ ": " +:+ pretty (Pandas.nunique c)
                      +:+ " unique values")
      else mret ()) s = (s1, Ok ())
    ∧ only_prints s s1 (unique_count_lines d cols).
Proof.
  revert s. induction cols as [|col cols IH]; intros s Hd.
  - exists s. split; [done|]. unfold only_prints. cbn.
    by rewrite app_nil_r.
  - cbn [for_]. run. rewrite Hd.
    destruct (Pandas.has_col d col) eqn:Hhas.
    + apply has_col_get_col in Hhas as [c Hc]. rewrite Hc. run.
      lazymatch goal with |- context [for_ cols _ ?s0] =>
        destruct (IH s0 Hd) as (s1 & Hrun & Hself & Hout & Hrest) end.
      cbn [self world stdout dirs files figure] in Hself, Hout, Hrest.
      exists s1. split; [exact Hrun|]. split; [exact Hself|].
      split; [|exact Hrest]. rewrite Hout. unfold unique_count_lines.
      cbn [omap list_omap]. rewrite Hc. cbn [fmap option_fmap option_map].
      by tidy.
    + apply has_col_false in Hhas.
      destruct (IH s Hd) as (s1 & Hrun & Hrest). exists s1.
      split; [exact Hrun|]. unfold unique_count_lines.
      cbn [omap list_omap]. rewrite Hhas. exact Hrest.
Qed.

(** What [basic_analysis] does on a loaded frame. *)
Lemma basic_analysis_run s d :
  df (self s) = Some d →
  ∃ s', basic_analysis s = (s', Ok ()) ∧ only_prints s s' (basic_report d).
Proof.
  intros Hd. unfold basic_analysis. steps.
  lazymatch goal with |- context [for_ cat_cols ?body ?s0] =>
    destruct (unique_loop_run cat_cols s0 d Hd)
      as (s1 & Hloop & Hself & Hout & Hdirs & Hfiles & Hfig);
    replace (for_ cat_cols body s0) with (s1, Ok ())
      by (symmetry; exact Hloop) end.
  cbn [self world stdout dirs files figure] in Hself, Hout, Hdirs, Hfiles, Hfig.
  exists s1. split; [reflexivity|].
  unfold only_prints, basic_report. rewrite Hout. tidy. by repeat split.
Qed.

(** X6: On a loaded frame, whatever its columns, [basic_analysis] returns
    normally and changes nothing but the console: the record count,
    the dtypes, the null counts, and a distinct count for each of the
    five categorical columns the frame has, in their fixed order, the
    absent ones skipped. *)
Theorem basic_analysis_only_describes s d :
  df (self s) = Some d →
  ∃ s',
    basic_analysis s = (s', Ok ())
    ∧ only_prints s s' (basic_report d)
    ∧ ∀ line, line ∈ unique_count_lines d cat_cols ↔
        ∃ col c, col ∈ cat_cols ∧ Pandas.get_col d col = Some c
                 ∧ line = OutText (col +:+ ": " +:+ pretty (Pandas.nunique c)
                                     +:+ " unique values").
Proof.
  intros Hd. destruct (basic_analysis_run s d Hd) as (s' & Hrun & Hprints).
  exists s'. split; [exact Hrun|]. split; [exact Hprints|].
  intros line. unfold unique_count_lines. rewrite list_elem_of_omap.
  split.
  - intros (col & Hcol & Hline).
    destruct (Pandas.get_col d col) as [c|] eqn:Hc; [|done].
    injection Hline as <-. by exists col, c.
  - intros (col & c & Hcol & Hc & ->). exists col. by rewrite Hc.
Qed.

End Describe.

(** ** Steps without a dataset (lines 63-206) *)

Section Unloaded.
Context (env : Env).

(** X7: Without a loaded dataset the four analyses raise, after their
    first lines and without writing anything; [save_results] alone
    reports the failure and returns, and writes no file either. *)
Theorem steps_without_dataset s :
  df (self s) = None →
  (∃ s' e, basic_analysis s = (s', Raise e)
           ∧ files (world s') = files (world s))
  ∧ (∃ s' e, chemical_analysis env s = (s', Raise e)
             ∧ files (world s') = files (world s))
  ∧ (∃ s' e, product_analysis env s = (s', Raise e)
             ∧ files (world s') = files (world s))
  ∧ (∃ s' e, advanced_analysis s = (s', Raise e)
             ∧ files (world s') = files (world s))
  ∧ (∃ s' e, save_results env s = (s', Ok ())
             ∧ files (world s') = files (world s)
             ∧ last (stdout (world s'))
               = Some (OutText ("Error saving results: " +:+ str e))).
Proof.
  intros Hd. repeat split.
  - unfold basic_analysis. steps. eexists _, _. split; reflexivity.
  - unfold chemical_analysis. steps. eexists _, _. split; reflexivity.
  - unfold product_analysis. steps. eexists _, _. split; reflexivity.
  - unfold advanced_analysis. steps. eexists _, _. split; reflexivity.
  - unfold save_results. steps.
    eexists _, (AttributeError "'NoneType' object").
    split; [reflexivity|]. split; [done|].
    cbn [world stdout]. by rewrite last_snoc.
Qed.

End Unloaded.

(** ** Failures inside the chemical analysis (lines 84-115) *)

Section ChemicalFailures.
Context (env : Env).

(** X8: [chemical_analysis] needs ChemicalName and PrimaryCategory: when
    one is missing the KeyError names it and leaves the method, after
    what was printed before the column was asked for, with no file
    written. *)
Theorem chemical_analysis_missing_column s d :
  df (self s) = Some d →
  (Pandas.get_col d "ChemicalName" = None →
   chemical_analysis env s
   = (with_output s
        [OutText (nl +:+ "[3/5] beep boop analyzing chemical data.....")],
      Raise (KeyError "ChemicalName")))
  ∧ ∀ chem,
      Pandas.get_col d "ChemicalName" = Some chem →
      Pandas.get_col d "PrimaryCategory" = None →
      chemical_analysis env s
      = (with_output s
           [OutText (nl +:+ "[3/5] beep boop analyzing chemical data.....");
            OutText (nl +:+ "---- Top Chemicals ----");
            OutSeries (take 20 (Pandas.value_counts chem));
            OutText (nl +:+ "---- Chemicals by Catagory ----")],
         Raise (KeyError "PrimaryCategory")).
Proof.
  intros Hd. split.
  - intros Hchem. unfold chemical_analysis. steps. reflexivity.
  - intros chem Hchem Hcat. unfold chemical_analysis. steps.
    unfold with_output. by tidy.
Qed.

(** X9: When the chart cannot be written, the failure of [savefig] leaves
    [chemical_analysis]: the totals are printed but not the "Saved
    plot" line, no file is written, and the figure, never closed,
    stays the current one. *)
Theorem chemical_analysis_chart_failure s d chem cat year e :
  df (self s) = Some d →
  Pandas.get_col d "ChemicalName" = Some chem →
  Pandas.get_col d "PrimaryCategory" = Some cat →
  Pandas.get_col d "ReportYear" = Some year →
  savefig env (out_path (self s) "chemical_trends.png") = Some e →
  let trends := Pandas.unstack (Pandas.groupby_size2 year chem) in
  let top_chems := (take 5 (Pandas.value_counts chem)).*1 in
  ∃ s',
    chemical_analysis env s = (s', Raise e)
    ∧ self s' = self s
    ∧ stdout (world s')
      = stdout (world s) ++ chemical_report chem cat
        ++ [OutText (nl +:+ "---- Chemical Trends over Time ----");
            OutSeries (Pandas.row_sums trends)]
    ∧ files (world s') = files (world s)
    ∧ figure (world s') = trends_figure trends top_chems.
Proof.
  intros Hd Hchem Hcat Hyear Hsave trends top_chems.
  assert (Hhas : Pandas.has_col d "ReportYear" = true).
  { apply has_col_get_col. rewrite Hyear. eauto. }
  unfold chemical_analysis. steps.
  lazymatch goal with |- context [for_ ?l ?body ?s0] =>
    destruct (plot_loop_run trends l s0)
      as (s1 & Hloop & Hself & Hout & Hdirs & Hfiles & Hfig);
    replace (for_ l body s0) with (s1, Ok ()) by (symmetry; exact Hloop)
  end.
  cbn [self world stdout dirs files figure] in Hself, Hout, Hdirs, Hfiles, Hfig.
  run. rewrite Hself.
  change (path_join _ (_ +:+ "_" +:+ "chemical_trends.png"))
    with (out_path (self s) "chemical_trends.png").
  rewrite Hsave. run.
  eexists. split; [reflexivity|]. cbn [self world stdout files figure].
  rewrite ?Hself, Hout, Hfiles, Hfig. unfold with_lines, chemical_report. run.
  tidy. repeat split.
Qed.

(** What [chemical_analysis] does when all goes well. *)
Lemma chemical_analysis_run s d chem cat :
  df (self s) = Some d →
  Pandas.get_col d "ChemicalName" = Some chem →
  Pandas.get_col d "PrimaryCategory" = Some cat →
  (∀ year, Pandas.get_col d "ReportYear" = Some year →
           savefig env (out_path (self s) "chemical_trends.png") = None) →
  ∃ s',
    chemical_analysis env s = (s', Ok ())
    ∧ self s' = self s
    ∧ files (world s')
      = match Pandas.get_col d "ReportYear" with
        | Some year =>
            <[out_path (self s) "chemical_trends.png" :=
                Png (trends_figure
                       (Pandas.unstack (Pandas.groupby_size2 year chem))
                       (take 5 (Pandas.value_counts chem)).*1)]>
              (files (world s))
        | None => files (world s)
        end.
Proof.
  intros Hd Hchem Hcat Hsave.
  destruct (Pandas.get_col d "ReportYear") as [year|] eqn:Hyear.
  - specialize (Hsave year eq_refl).
    assert (Hhas : Pandas.has_col d "ReportYear" = true).
    { apply has_col_get_col. rewrite Hyear. eauto. }
    unfold chemical_analysis. steps.
    lazymatch goal with |- context [for_ ?l ?body ?s0] =>
      destruct (plot_loop_run
                  (Pandas.unstack (Pandas.groupby_size2 year chem)) l s0)
        as (s1 & Hloop & Hself & Hout & Hdirs & Hfiles & Hfig);
      replace (for_ l body s0) with (s1, Ok ()) by (symmetry; exact Hloop)
    end.
    cbn [self world stdout dirs files figure] in Hself, Hout, Hdirs, Hfiles, Hfig.
    run. rewrite Hself.
    change (path_join _ (_ +:+ "_" +:+ "chemical_trends.png"))
      with (out_path (self s) "chemical_trends.png").
    rewrite Hsave. run.
    eexists. split; [reflexivity|]. cbn [self world files].
    rewrite ?Hself, Hfiles, Hfig. unfold with_lines. run. by split.
  - apply has_col_false in Hyear. unfold chemical_analysis. steps.
    eexists. by split; [reflexivity|].
Qed.

End ChemicalFailures.

(** ** The product analysis when a chart fails (lines 117-156) *)

Section ProductRuns.
Context (env : Env).

(** What [product_analysis] does when all goes well. *)
Lemma product_analysis_run s d comp product chem cat sub :
  df (self s) = Some d →
  Pandas.get_col d "CompanyName" = Some comp →
  Pandas.get_col d "ProductName" = Some product →
  Pandas.get_col d "ChemicalName" = Some chem →
  Pandas.get_col d "PrimaryCategory" = Some cat →
  Pandas.get_col d "SubCategory" = Some sub →
  (∀ dd, Pandas.get_col d "DiscontinuedDate" = Some dd →
         0 < Pandas.len (filter_rows d (Pandas.notna <$> dd)) →
         plot_bar env (take 10 (Pandas.value_counts
                                  (select (Pandas.notna <$> dd) chem))) = None
         ∧ savefig env (out_path (self s) "discontinued_chemicals.png")
           = None) →
  ∃ s',
    product_analysis env s = (s', Ok ())
    ∧ self s' = self s
    ∧ files (world s')
      = match Pandas.get_col d "DiscontinuedDate" with
        | Some dd =>
            if bool_decide
                 (0 < Pandas.len (filter_rows d (Pandas.notna <$> dd)))
            then
              <[out_path (self s) "discontinued_chemicals.png" :=
                  Png (discontinued_figure
                         (take 10
                            (Pandas.value_counts
                               (select (Pandas.notna <$> dd) chem))))]>
                (files (world s))
            else files (world s)
        | None => files (world s)
        end.
Proof.
  intros Hd Hcomp Hprod Hchem Hcat Hsub Hchart.
  destruct (Pandas.get_col d "DiscontinuedDate") as [dd|] eqn:Hdd.
  - assert (Hhas : Pandas.has_col d "DiscontinuedDate" = true).
    { apply has_col_get_col. rewrite Hdd. eauto. }
    unfold product_analysis. steps.
    destruct (bool_decide
                (0 < Pandas.len (filter_rows d (Pandas.notna <$> dd))))
      eqn:Hlen.
    + apply bool_decide_eq_true in Hlen.
      destruct (Hchart dd eq_refl Hlen) as [Hplot Hsave].
      rewrite get_col_filter_rows, Hchem.
      cbn [fmap option_fmap option_map]. run. rewrite Hplot. run.
      change (path_join _ (_ +:+ "_" +:+ "discontinued_chemicals.png"))
        with (out_path (self s) "discontinued_chemicals.png").
      rewrite Hsave. run. eexists. by split; [reflexivity|].
    + run. eexists. by split; [reflexivity|].
  - apply has_col_false in Hdd. unfold product_analysis. steps.
    eexists. by split; [reflexivity|].
Qed.

(** X10: When the bar plot of the discontinued subset fails, the failure
    leaves [product_analysis] after the top-10 table is printed: no
    chart file is written and the new, empty figure stays open. *)
Theorem product_analysis_plot_failure s d n comp product chem cat sub dd e :
  df (self s) = Some d →
  frame_rows d n →
  Pandas.get_col d "CompanyName" = Some comp →
  Pandas.get_col d "ProductName" = Some product →
  Pandas.get_col d "ChemicalName" = Some chem →
  Pandas.get_col d "PrimaryCategory" = Some cat →
  Pandas.get_col d "SubCategory" = Some sub →
  Pandas.get_col d "DiscontinuedDate" = Some dd →
  0 < length (Pandas.dropna dd) →
  let disc_chem :=
    Pandas.value_counts (select (Pandas.notna <$> dd) chem) in
  plot_bar env (take 10 disc_chem) = Some e →
  ∃ s',
    product_analysis env s = (s', Raise e)
    ∧ self s' = self s
    ∧ last (stdout (world s')) = Some (OutSeries (take 10 disc_chem))
    ∧ files (world s') = files (world s)
    ∧ fig_size (figure (world s')) = Some (10, 6)
    ∧ fig_bars (figure (world s')) = [].
Proof.
  intros Hd Hrows Hcomp Hprod Hchem Hcat Hsub Hdd Hsize disc_chem Hplot.
  assert (Hhas : Pandas.has_col d "DiscontinuedDate" = true).
  { apply has_col_get_col. rewrite Hdd. eauto. }
  pose proof (len_discontinued d n dd Hrows Hdd) as Hlen.
  unfold product_analysis. steps.
  rewrite Hlen, bool_decide_eq_true_2 by lia.
  rewrite get_col_filter_rows, Hchem. cbn [fmap option_fmap option_map].
  fold disc_chem. steps.
  eexists. split; [reflexivity|]. cbn [self world stdout files figure].
  rewrite last_snoc. by repeat split.
Qed.

End ProductRuns.

(** ** The cross-cutting analysis (lines 158-175) *)

Lemma elem_of_dropna (l : list Cell) k :
  k ∈ Pandas.dropna l ↔ k ∈ l ∧ k ≠ NA.
Proof.
  unfold Pandas.dropna. induction l as [|c l IH]; cbn.
  - rewrite elem_of_nil. by split; [|intros [? _]].
  - destruct c; cbn; rewrite ?elem_of_cons, IH, ?elem_of_cons;
      split; intros H;
      repeat match goal with
             | H : _ ∧ _ |- _ => destruct H
             | H : _ ∨ _ |- _ => destruct H
             end; subst; auto; try congruence;
      split; auto; congruence.
Qed.

#[local] Instance count_ge_total {K} : Total (@Pandas.count_ge K).
Proof. intros a b. unfold Pandas.count_ge. lia. Qed.

Section Advanced.

(** What [advanced_analysis] does on a frame with its columns. *)
Lemma advanced_analysis_run s d product chem brand cat :
  df (self s) = Some d →
  Pandas.get_col d "ProductName" = Some product →
  Pandas.get_col d "ChemicalName" = Some chem →
  Pandas.get_col d "BrandName" = Some brand →
  Pandas.get_col d "PrimaryCategory" = Some cat →
  ∃ s',
    advanced_analysis s = (s', Ok ())
    ∧ only_prints s s' (advanced_report product chem brand cat).
Proof.
  intros Hd Hprod Hchem Hbrand Hcat. unfold advanced_analysis. steps.
  eexists. split; [reflexivity|]. unfold only_prints, advanced_report.
  cbn [self world stdout dirs files figure]. tidy. by repeat split.
Qed.

(** X11: With its four columns [advanced_analysis] returns normally and
    only prints.  The brand table it prints is the head of a ranking
    that has every brand once and runs from the most distinct
    chemicals down; the category table is such a ranking in full. *)
Theorem advanced_analysis_rankings s d product chem brand cat :
  df (self s) = Some d →
  Pandas.get_col d "ProductName" = Some product →
  Pandas.get_col d "ChemicalName" = Some chem →
  Pandas.get_col d "BrandName" = Some brand →
  Pandas.get_col d "PrimaryCategory" = Some cat →
  let brand_chems :=
    merge_sort Pandas.count_ge (Pandas.groupby_nunique brand chem) in
  let category_diversity :=
    merge_sort Pandas.count_ge (Pandas.groupby_nunique cat chem) in
  (∃ s',
     advanced_analysis s = (s', Ok ())
     ∧ only_prints s s' (advanced_report product chem brand cat)
     ∧ OutSeries (take 10 brand_chems) ∈ stdout (world s')
     ∧ OutSeries category_diversity ∈ stdout (world s'))
  ∧ (∀ i a b, take 10 brand_chems !! i = Some a →
              take 10 brand_chems !! S i = Some b → b.2 ≤ a.2)
  ∧ (∀ i a b, category_diversity !! i = Some a →
              category_diversity !! S i = Some b → b.2 ≤ a.2)
  ∧ (∀ k, k ∈ brand_chems.*1 ↔ k ∈ brand ∧ k ≠ NA)
  ∧ (∀ k, k ∈ category_diversity.*1 ↔ k ∈ cat ∧ k ≠ NA)
  ∧ NoDup (brand_chems.*1) ∧ NoDup (category_diversity.*1).
Proof.
  intros Hd Hprod Hchem Hbrand Hcat brand_chems category_diversity.
  assert (Hkeys : ∀ key val,
            (merge_sort Pandas.count_ge (Pandas.groupby_nunique key val)).*1
            ≡ₚ Pandas.unique (Pandas.dropna key)).
  { intros key val. rewrite (merge_sort_Permutation Pandas.count_ge).
    assert (Heq : (Pandas.groupby_nunique key val).*1 = Pandas.group_keys key).
    { unfold Pandas.groupby_nunique. rewrite <- list_fmap_compose.
      apply list_fmap_id. }
    rewrite Heq. apply (merge_sort_Permutation Pandas.cell_le). }
  assert (Hmem : ∀ key k, k ∈ Pandas.unique (Pandas.dropna key)
                          ↔ k ∈ key ∧ k ≠ NA).
  { intros key k. by rewrite elem_of_unique, elem_of_dropna. }
  split; [|split; [|split; [|split; [|split; [|split]]]]].
  - destruct (advanced_analysis_run s d product chem brand cat)
      as (s' & Hrun & Hprints); [done..|].
    exists s'. split; [exact Hrun|]. split; [exact Hprints|].
    destruct Hprints as (_ & -> & _). unfold advanced_report.
    split; apply elem_of_app; right;
      repeat (apply list_elem_of_here || apply list_elem_of_further).
  - intros i a b H1 H2.
    apply lookup_take_Some in H1 as [H1 _], H2 as [H2 _].
    apply (Sorted_neighbours Pandas.count_ge brand_chems i a b);
      [apply Sorted_merge_sort, _|done..].
  - intros i a b H1 H2.
    apply (Sorted_neighbours Pandas.count_ge category_diversity i a b);
      [apply Sorted_merge_sort, _|done..].
  - intros k. unfold brand_chems. by rewrite Hkeys, Hmem.
  - intros k. unfold category_diversity. by rewrite Hkeys, Hmem.
  - unfold brand_chems. rewrite Hkeys. apply NoDup_unique.
  - unfold category_diversity. rewrite Hkeys. apply NoDup_unique.
Qed.

End Advanced.

(** ** Saving twice, and without a column (lines 183-206) *)

Section SavingMore.
Context (env : Env).

(** X12: The [try] of [save_results] also takes a missing column: the
    cleaned data, written first, stays in place, the KeyError is
    reported on the console and the later tables are not written. *)
Theorem save_results_missing_column s d :
  df (self s) = Some d →
  to_csv env (out_path (self s) "cleaned_data.csv") = None →
  let p1 := out_path (self s) "cleaned_data.csv" in
  let p2 := out_path (self s) "chemical_counts.csv" in
  let after := files (world (save_results env s).1) in
  let console := stdout (world (save_results env s).1) in
  (save_results env s).2 = Ok ()
  ∧ (Pandas.get_col d "ChemicalName" = None →
     after = <[p1 := CsvFrame d]> (files (world s))
     ∧ last console = Some (OutText ("Error saving results: 'ChemicalName'")))
  ∧ ∀ chem,
      Pandas.get_col d "ChemicalName" = Some chem →
      Pandas.get_col d "CompanyName" = None →
      to_csv env p2 = None →
      after = <[p2 := CsvCounts ["Count"] (Pandas.value_counts chem)]>
                (<[p1 := CsvFrame d]> (files (world s)))
      ∧ last console = Some (OutText ("Error saving results: 'CompanyName'")).
Proof.
  intros Hd Hw1 p1 p2. split; [apply save_results_returns|]. split.
  - intros Hchem. unfold save_results. run.
    change (path_join _ (_ +:+ "_cleaned_data.csv")) with p1.
    fold p1 in Hw1. steps. by rewrite last_snoc.
  - intros chem Hchem Hcomp Hw2. unfold save_results. run.
    change (path_join _ (_ +:+ "_cleaned_data.csv")) with p1.
    change (path_join _ (_ +:+ "_chemical_counts.csv")) with p2.
    fold p1 in Hw1. steps. by rewrite last_snoc.
Qed.

(** X13: Saving again in the same process writes under the same names:
    whatever the state and the outcomes of the writes, the files after
    a second [save_results] are the files after the first. *)
Theorem save_results_twice s :
  files (world (save_results env (save_results env s).1).1)
  = files (world (save_results env s).1).
Proof.
  unfold save_results. run.
  repeat (case_outcome; steps);
    try reflexivity;
    apply map_eq; intros k; rewrite !lookup_insert;
    repeat case_decide; congruence.
Qed.

End SavingMore.

(** X14: The five files a run may write have five different paths, whatever
    the results directory and the timestamp: no write of a run
    replaces the file of another. *)
Theorem output_paths_distinct (a : Analyzer) :
  NoDup (out_path a <$> output_names).
Proof.
  apply NoDup_fmap_2_strong.
  - intros x y _ _. apply out_path_inj.
  - apply (bool_decide_unpack _). vm_compute. exact I.
Qed.

(** ** The tables the analyses compute *)

Lemma count_eq_dropna (l : list Cell) v :
  v ≠ NA → Pandas.count_eq v (Pandas.dropna l) = Pandas.count_eq v l.
Proof.
  intros Hv. unfold Pandas.dropna.
  induction l as [|c l IH]; [done|].
  destruct c; cbn [List.filter Pandas.notna]; rewrite !count_eq_cons, IH;
    [|done..].
  by rewrite bool_decide_eq_false_2 by congruence.
Qed.

Lemma length_dropna_le (l : list Cell) : length (Pandas.dropna l) ≤ length l.
Proof.
  unfold Pandas.dropna. induction l as [|c l IH]; [done|]. cbn.
  destruct (Pandas.notna c); cbn; lia.
Qed.

Lemma length_unique_le {A} `{EqDecision A} (l : list A) :
  length (Pandas.unique l) ≤ length l.
Proof.
  apply submseteq_length, NoDup_submseteq; [apply NoDup_unique|].
  intros x. by rewrite elem_of_unique.
Qed.

Lemma nunique_le_length (l : list Cell) : Pandas.nunique l ≤ length l.
Proof.
  unfold Pandas.nunique. etrans; [apply length_unique_le|].
  apply length_dropna_le.
Qed.

Lemma nunique_mono (l k : list Cell) :
  (∀ x, x ∈ l → x ∈ k) → Pandas.nunique l ≤ Pandas.nunique k.
Proof.
  intros Hsub. unfold Pandas.nunique.
  apply submseteq_length, NoDup_submseteq; [apply NoDup_unique|].
  intros x. rewrite !elem_of_unique, !elem_of_dropna.
  intros [Hx Hna]. split; [by apply Hsub|done].
Qed.

Lemma length_group_values k keycol valcol :
  length (Pandas.group_values k keycol valcol) ≤ Pandas.count_eq k keycol.
Proof.
  unfold Pandas.group_values. rewrite length_fmap. revert valcol.
  induction keycol as [|c keycol IH]; intros [|v valcol];
    cbn -[Pandas.count_eq]; try lia.
  rewrite count_eq_cons.
  destruct (bool_decide (c = k)); cbn -[Pandas.count_eq];
    specialize (IH valcol); lia.
Qed.

Lemma group_keys_members (keycol : list Cell) k :
  k ∈ Pandas.group_keys keycol ↔ k ∈ keycol ∧ k ≠ NA.
Proof.
  unfold Pandas.group_keys.
  by rewrite (merge_sort_Permutation Pandas.cell_le), elem_of_unique,
    elem_of_dropna.
Qed.

Lemma group_keys_NoDup (keycol : list Cell) : NoDup (Pandas.group_keys keycol).
Proof.
  unfold Pandas.group_keys.
  rewrite (merge_sort_Permutation Pandas.cell_le). apply NoDup_unique.
Qed.

(** X15: The frequency count of lines 89, 131 and 146 has one entry per
    distinct non-null value of the column, holding the number of
    records with that value (at least one), and runs from the most
    frequent value down. *)
Theorem value_counts_entries (col : list Cell) :
  let counts := Pandas.value_counts col in
  NoDup (counts.*1)
  ∧ length counts = Pandas.nunique col
  ∧ (∀ v n, (v, n) ∈ counts ↔
            v ∈ col ∧ v ≠ NA ∧ n = Pandas.count_eq v col)
  ∧ (∀ v n, (v, n) ∈ counts → 1 ≤ n)
  ∧ (∀ i a b, counts !! i = Some a → counts !! S i = Some b → b.2 ≤ a.2).
Proof.
  intros counts.
  assert (Hperm : counts ≡ₚ (λ v, (v, Pandas.count_eq v (Pandas.dropna col)))
                             <$> Pandas.unique (Pandas.dropna col)).
  { apply (merge_sort_Permutation Pandas.count_ge). }
  assert (Hmem : ∀ v n, (v, n) ∈ counts ↔
                        v ∈ col ∧ v ≠ NA ∧ n = Pandas.count_eq v col).
  { intros v n. rewrite Hperm, list_elem_of_fmap. split.
    - intros (v' & [= -> ->] & Hin).
      apply elem_of_unique, elem_of_dropna in Hin as [Hin Hna].
      by rewrite count_eq_dropna.
    - intros (Hin & Hna & ->). exists v.
      rewrite count_eq_dropna by done. split; [done|].
      by apply elem_of_unique, elem_of_dropna. }
  split; [|split; [|split; [exact Hmem|split]]].
  - rewrite Hperm, <- list_fmap_compose.
    rewrite (list_fmap_id (Pandas.unique (Pandas.dropna col))).
    apply NoDup_unique.
  - rewrite Hperm, length_fmap. reflexivity.
  - intros v n Hin. apply Hmem in Hin as (Hin & _ & ->).
    destruct (Pandas.count_eq v col) eqn:Hz; [|lia].
    by apply count_eq_zero in Hz.
  - intros i a b Ha Hb.
    apply (Sorted_neighbours Pandas.count_ge counts i a b);
      [apply Sorted_merge_sort, _|done..].
Qed.

(** X16: The company table of lines 123-126 has one row per distinct
    non-null company; a company has no more distinct products (or
    chemicals) than it has records, and no more than the dataset has
    in all. *)
Theorem company_table_rows (comp product chem : list Cell) :
  let table := company_table comp product chem in
  NoDup (company <$> table)
  ∧ length table = Pandas.nunique comp
  ∧ (∀ k, k ∈ company <$> table ↔ k ∈ comp ∧ k ≠ NA)
  ∧ ∀ r, r ∈ table →
      n_products r ≤ Pandas.nunique product
      ∧ n_products r ≤ Pandas.count_eq (company r) comp
      ∧ n_chemicals r ≤ Pandas.nunique chem
      ∧ n_chemicals r ≤ Pandas.count_eq (company r) comp.
Proof.
  intros table.
  assert (Hcomp : company <$> table = Pandas.group_keys comp).
  { unfold table, company_table. rewrite <- list_fmap_compose.
    apply list_fmap_id. }
  split; [rewrite Hcomp; apply group_keys_NoDup|].
  split.
  { unfold table, company_table. rewrite length_fmap.
    unfold Pandas.group_keys, Pandas.nunique.
    by rewrite (merge_sort_Permutation Pandas.cell_le). }
  split; [intros k; rewrite Hcomp; apply group_keys_members|].
  intros r. unfold table, company_table. rewrite list_elem_of_fmap.
  intros (k & -> & _). cbn [n_products n_chemicals company].
  repeat split.
  - apply nunique_mono. intros x. apply elem_of_group_values.
  - etrans; [apply nunique_le_length|apply length_group_values].
  - apply nunique_mono. intros x. apply elem_of_group_values.
  - etrans; [apply nunique_le_length|apply length_group_values].
Qed.

(** X17: The per-year totals of line 102 add up to the number of records
    that have a year and a chemical. *)
Theorem trend_totals_sum (year chem : list Cell) :
  sum_list ((Pandas.row_sums
               (Pandas.unstack (Pandas.groupby_size2 year chem))).*2)
  = length (Pandas.key_pairs year chem).
Proof.
  set (rows := Pandas.key_pairs year chem).
  set (trends := Pandas.unstack (Pandas.groupby_size2 year chem)).
  transitivity (sum_list ((λ y, Pandas.count_eq y (rows.*1))
                            <$> Pandas.m_index trends)).
  - f_equal. unfold Pandas.row_sums. rewrite <- list_fmap_compose.
    apply list_fmap_ext. intros i y Hy. cbn.
    apply (trends_row_sums year chem y).
    unfold Pandas.row_sums. apply list_elem_of_fmap. exists y.
    split; [done|]. by apply list_elem_of_lookup_2 in Hy.
  - rewrite <- (length_fmap fst rows).
    apply sum_counts; [apply (trends_index year chem NA)|].
    intros y Hy. apply list_elem_of_fmap in Hy as ([y' c] & -> & Hin).
    apply (trends_index year chem). by exists c.
Qed.

(** A product that has a record has a group, and [unique()] of a
    group is not empty. *)
Lemma group_values_nonempty k keycol valcol :
  k ∈ keycol → length keycol ≤ length valcol →
  Pandas.group_values k keycol valcol ≠ [].
Proof.
  unfold Pandas.group_values. revert valcol.
  induction keycol as [|c keycol IH]; intros [|v valcol] Hin Hlen;
    cbn in Hlen; try (by apply elem_of_nil in Hin); try lia.
  cbn. destruct (bool_decide_reflect (c = k)) as [->|Hne]; [done|].
  apply IH; [|lia]. apply elem_of_cons in Hin as [->|Hin]; done.
Qed.

(** X18: The counts averaged at line 165 are one per distinct non-null
    product and, since a null chemical is counted, never zero: on a
    frame, the average printed is at least 1 as soon as a product is
    named. *)
Theorem product_chem_counts_positive (product chem : list Cell) :
  length product = length chem →
  length (product_chem_counts product chem) = Pandas.nunique product
  ∧ Forall (λ n, 1 ≤ n) (product_chem_counts product chem)
  ∧ (mean (product_chem_counts product chem) = None
     ↔ Pandas.nunique product = 0)
  ∧ ∀ q, mean (product_chem_counts product chem) = Some q → (1 <= q)%Q.
Proof.
  intros Hlen.
  assert (Hn : length (product_chem_counts product chem)
               = Pandas.nunique product).
  { unfold product_chem_counts, Pandas.groupby_unique.
    rewrite !length_fmap. unfold Pandas.group_keys, Pandas.nunique.
    by rewrite (merge_sort_Permutation Pandas.cell_le). }
  assert (Hpos : Forall (λ n, 1 ≤ n) (product_chem_counts product chem)).
  { unfold product_chem_counts, Pandas.groupby_unique.
    rewrite <- list_fmap_compose. apply Forall_fmap, Forall_forall.
    intros k Hk. cbn. apply group_keys_members in Hk as [Hk _].
    pose proof (group_values_nonempty k product chem Hk) as Hne.
    destruct (Pandas.unique (Pandas.group_values k product chem))
      as [|x l] eqn:Hu; [|cbn; lia].
    exfalso. apply Hne; [lia|].
    destruct (Pandas.group_values k product chem) as [|y g]; [done|].
    assert (Hy : y ∈ Pandas.unique (y :: g)) by (apply elem_of_unique; left).
    rewrite Hu in Hy. by apply elem_of_nil in Hy. }
  split; [exact Hn|]. split; [exact Hpos|]. rewrite <- Hn.
  destruct (product_chem_counts product chem) as [|n l] eqn:Hl.
  - by split; [|intros q].
  - split; [by split|]. intros q [= <-]. unfold Qle. cbn.
    rewrite Z.mul_1_r, Z.mul_1_l.
    assert (Hsum : length (n :: l) ≤ sum_list (n :: l)).
    { clear -Hpos. induction Hpos as [|m l' Hm _ IH]; cbn in *; lia. }
    cbn [length] in Hsum.
    rewrite <- positive_nat_Z, Nat2Pos.id by done.
    apply inj_le. exact Hsum.
Qed.

(** ** The whole run (lines 208-217) *)

Section WholeRun.
Context (env : Env).

Lemma out_path_same_run a b name :
  results_dir a = results_dir b → timestamp a = timestamp b →
  out_path a name = out_path b name.
Proof. unfold out_path. by intros -> ->. Qed.

(** X19: When the load succeeds on a file with the six columns the
    steps ask for, and the charts the run draws and the three tables
    it writes can be written, [run_full_analysis] returns normally;
    the dataset is the cleaned frame, the three tables written are
    those of the cleaned frame, whose identifying columns are the
    file's, and the last line printed names the results directory. *)
Theorem full_run_saves_the_tables s d0 comp brand cat sub product chem :
  let d := cleaned env d0 in
  path_exists env (abspath env (data_path (self s))) = true →
  read_csv env (abspath env (data_path (self s))) = Ok d0 →
  load_succeeds env d0 = true →
  Pandas.get_col d0 "CompanyName" = Some comp →
  Pandas.get_col d0 "BrandName" = Some brand →
  Pandas.get_col d0 "PrimaryCategory" = Some cat →
  Pandas.get_col d0 "SubCategory" = Some sub →
  Pandas.get_col d0 "ProductName" = Some product →
  Pandas.get_col d0 "ChemicalName" = Some chem →
  (∀ year, Pandas.get_col d "ReportYear" = Some year →
           savefig env (out_path (self s) "chemical_trends.png") = None) →
  (∀ dd, Pandas.get_col d "DiscontinuedDate" = Some dd →
         0 < Pandas.len (filter_rows d (Pandas.notna <$> dd)) →
         plot_bar env (take 10 (Pandas.value_counts
                                  (select (Pandas.notna <$> dd) chem))) = None
         ∧ savefig env (out_path (self s) "discontinued_chemicals.png")
           = None) →
  to_csv env (out_path (self s) "cleaned_data.csv") = None →
  to_csv env (out_path (self s) "chemical_counts.csv") = None →
  to_csv env (out_path (self s) "company_stats.csv") = None →
  ∃ s',
    run_full_analysis env s = (s', Ok ())
    ∧ df (self s') = Some d
    ∧ files (world s') !! out_path (self s) "cleaned_data.csv"
      = Some (CsvFrame d)
    ∧ files (world s') !! out_path (self s) "chemical_counts.csv"
      = Some (CsvCounts ["Count"] (Pandas.value_counts chem))
    ∧ files (world s') !! out_path (self s) "company_stats.csv"
      = Some (CsvStats (company_table comp product chem))
    ∧ last (stdout (world s'))
      = Some (OutText ("Results saved to: " +:+ results_dir (self s))).
Proof.
  intros d Hex Hread Hok Hcomp Hbrand Hcat Hsub Hprod Hchem Htrend Hbars
    Hcsv1 Hcsv2 Hcsv3.
  assert (Hkeep : ∀ name c,
            name ∉ date_cols → name ≠ "ReportYear" →
            Pandas.get_col d0 name = Some c → Pandas.get_col d name = Some c).
  { intros name c ? ? <-. by apply get_col_cleaned_other. }
  assert (Hnot : ∀ name, bool_decide (name ∉ date_cols) = true →
                         name ∉ date_cols).
  { intros name. apply bool_decide_eq_true_1. }
  apply Hkeep in Hcomp, Hbrand, Hcat, Hsub, Hprod, Hchem;
    [|by (apply Hnot; vm_compute) || done..].
  destruct (load_data_run env s d0 Hex Hread Hok)
    as (s1 & Hrun1 & Hdf1 & _ & Hr & Ht & _).
  destruct (basic_analysis_run s1 d Hdf1) as (s2 & Hrun2 & Hself2 & _).
  assert (Hdf2 : df (self s2) = Some d) by (by rewrite Hself2).
  assert (Hpath2 : ∀ name, out_path (self s2) name = out_path (self s) name).
  { intros name. apply out_path_same_run; congruence. }
  destruct (chemical_analysis_run env s2 d chem cat)
    as (s3 & Hrun3 & Hself3 & _); [done..|by rewrite Hpath2|].
  assert (Hdf3 : df (self s3) = Some d) by (by rewrite Hself3).
  assert (Hpath3 : ∀ name, out_path (self s3) name = out_path (self s) name).
  { intros name. apply out_path_same_run; congruence. }
  destruct (product_analysis_run env s3 d comp product chem cat sub)
    as (s4 & Hrun4 & Hself4 & _); [done..|by rewrite Hpath3|].
  assert (Hdf4 : df (self s4) = Some d) by (by rewrite Hself4).
  destruct (advanced_analysis_run s4 d product chem brand cat)
    as (s5 & Hrun5 & Hself5 & _); [done..|].
  assert (Hdf5 : df (self s5) = Some d) by (by rewrite Hself5).
  assert (Hsame : ∀ name, out_path (self s5) name = out_path (self s) name).
  { intros name. apply out_path_same_run; congruence. }
  pose proof (save_results_outcome env s5 d chem comp product
                Hdf5 Hchem Hcomp Hprod) as Hsave.
  cbv zeta in Hsave. rewrite !Hsame, Hcsv1, Hcsv2, Hcsv3 in Hsave.
  destruct Hsave as (_ & Hp1 & Hp2 & Hp3 & Hout).
  exists (save_results env s5).1. split.
  { unfold run_full_analysis. steps.
    rewrite (surjective_pairing (save_results env s5)) at 1.
    f_equal. apply save_results_returns. }
  split.
  { transitivity (df (self s5)); [|done]. f_equal. apply tame_save_results. }
  split; [exact Hp1|]. split; [exact Hp2|]. split; [exact Hp3|].
  rewrite Hout, last_app. cbn. do 2 f_equal. f_equal. congruence.
Qed.

(** X20: A file without the ChemicalName column, when its load
    succeeds, is loaded and described, then the KeyError of
    [chemical_analysis] leaves [run_full_analysis]: the later steps do
    not run and no file is written, not even the cleaned data. *)
Theorem run_stops_without_chemical_column s d0 :
  path_exists env (abspath env (data_path (self s))) = true →
  read_csv env (abspath env (data_path (self s))) = Ok d0 →
  load_succeeds env d0 = true →
  Pandas.get_col d0 "ChemicalName" = None →
  ∃ s',
    run_full_analysis env s = (s', Raise (KeyError "ChemicalName"))
    ∧ df (self s') = Some (cleaned env d0)
    ∧ files (world s') = files (world s)
    ∧ last (stdout (world s'))
      = Some (OutText (nl +:+ "[3/5] beep boop analyzing chemical data.....")).
Proof.
  intros Hex Hread Hok Hchem.
  set (d := cleaned env d0).
  assert (Hnone : Pandas.get_col d "ChemicalName" = None).
  { rewrite <- Hchem. apply get_col_cleaned_other; [|done].
    apply (bool_decide_unpack _). vm_compute. exact I. }
  destruct (load_data_run env s d0 Hex Hread Hok)
    as (s1 & Hrun1 & Hdf1 & _ & _ & _ & _ & _ & Hfiles1 & _).
  destruct (basic_analysis_run s1 d Hdf1)
    as (s2 & Hrun2 & Hself2 & _ & _ & Hfiles2 & _).
  assert (Hdf2 : df (self s2) = Some d) by (by rewrite Hself2).
  unfold run_full_analysis. steps. unfold chemical_analysis. steps.
  eexists. split; [reflexivity|]. cbn [self world stdout files].
  split; [done|]. split; [congruence|]. by rewrite last_snoc.
Qed.

End WholeRun.

(** ** The program (lines 219-229) *)

Section Program.
Context (env : Env) (proc : Process).

(** X21: Where neither results directory can be made the program ends in
    the constructor: the second failure leaves it after the title and
    the warning, and nothing is loaded, analysed or written. *)
Theorem main_stops_in_constructor w e1 e2 :
  makedirs env (primary_dir env) = Some e1 →
  makedirs env (fallback_dir env) = Some e2 →
  main env proc w
  = ({| stdout := stdout w
                  ++ [OutText "---- Cosmetic Data Analysis ----";
                      OutText (nl +:+ "[WARNING] error: could not create the primary results directory: " +:+ str e1)];
        dirs := dirs w; files := files w; figure := figure w |},
     Raise e2).
Proof.
  intros H1 H2. unfold main, __init__, _setup_directories, with_line. run.
  fold (primary_dir env). rewrite H1. run.
  fold (fallback_dir env). rewrite H2. run. tidy. reflexivity.
Qed.

(** X22: With the primary directory made and no data file at the default
    path, the program reports the failed load and ends normally,
    having written nothing; it asks for Enter first exactly when the
    interpreter's path has "python" in it, whatever the case. *)
Theorem main_without_data_file w :
  makedirs env (primary_dir env) = None →
  path_exists env
    (abspath env (abspath env "data/chemicals-in-cosmetics.csv")) = false →
  input_outcome proc = None →
  ∃ w',
    main env proc w = (w', Ok ())
    ∧ files w' = files w
    ∧ dirs w' = {[primary_dir env]} ∪ dirs w
    ∧ stdout w'
      = stdout w
        ++ [OutText "---- Cosmetic Data Analysis ----";
            OutText (nl +:+ "[STATUS] the results will be saved to: "
                        +:+ primary_dir env)]
        ++ missing_file_report
             (abspath env (abspath env "data/chemicals-in-cosmetics.csv"))
        ++ (if waits_for_enter proc
            then [OutText (nl +:+ "Press Enter to exit...")] else []).
Proof.
  intros Hmk Hno Hin.
  unfold main, __init__, _setup_directories, with_line. run.
  fold (primary_dir env). rewrite Hmk. run.
  unfold run_full_analysis, load_data. run. rewrite Hno. run.
  destruct (waits_for_enter proc); rewrite ?Hin;
    (eexists; split; [reflexivity|]); cbn [stdout dirs files];
    unfold missing_file_report; tidy; by repeat split.
Qed.

(** The program asks for Enter only after a run that returned: when
    [run_full_analysis] raises, its exception ends the program and
    no prompt is printed. *)
Lemma main_passes_on_run_failure w w1 a s1 e :
  __init__ env (abspath env "data/chemicals-in-cosmetics.csv")
    (with_line w (OutText "---- Cosmetic Data Analysis ----")) = (w1, Ok a) →
  run_full_analysis env {| self := a; world := w1 |} = (s1, Raise e) →
  main env proc w = (world s1, Raise e).
Proof. intros Hinit Hrun. unfold main. by rewrite Hinit, Hrun. Qed.

End Program.

(** The test of line 228 looks for the letters of "python" in any
    case, anywhere in the path. *)
Lemma waits_for_enter_samples :
  waits_for_enter (mkProcess "/usr/bin/python3" None) = true
  ∧ waits_for_enter (mkProcess "C:\Tools\PYTHON.EXE" None) = true
  ∧ waits_for_enter (mkProcess "/opt/app/analysis" None) = false.
Proof. by vm_compute. Qed.

(** * The further properties on the sample data *)

Section MoreSamples.
Import Fixture Cases.

Lemma load_data_never_raises_witness :
  load_succeeds mixed_offsets five_rows = false
  ∧ load_succeeds object_dates five_rows = false
  ∧ (∃ s' d,
       load_data mixed_offsets (start "/data/cosmetics.csv" None)
       = (s', Ok false)
       ∧ df (self s') = Some d
       ∧ d.*1 = five_rows.*1)
  ∧ ∃ s',
      load_data (fair five_rows) (start "/data/none.csv" None)
      = (s', Ok false)
      ∧ self s' = self (start "/data/none.csv" None).
Proof.
  split; [reflexivity|]. split; [reflexivity|]. split.
  - destruct (load_data_never_raises mixed_offsets
                (start "/data/cosmetics.csv" None))
      as (s' & ok & Hrun & Hiff & _ & Hkept).
    destruct (Hkept five_rows eq_refl eq_refl eq_refl)
      as (d & Hdf & Hnames & _).
    destruct ok.
    + destruct (proj1 Hiff eq_refl) as [_ (d0 & Hread & Hok)].
      injection Hread as <-. discriminate Hok.
    + exists s', d. split; [exact Hrun|]. split; [exact Hdf|exact Hnames].
  - destruct (load_data_never_raises (fair five_rows)
                (start "/data/none.csv" None))
      as (s' & ok & Hrun & Hiff & Hself & _).
    destruct ok.
    + destruct (proj1 Hiff eq_refl) as [Hex _]. discriminate Hex.
    + exists s'. split; [exact Hrun|exact (Hself (or_introl eq_refl))].
Defined.

Lemma unreadable_file_stops_the_run_witness :
  path_exists malformed "/data/cosmetics.csv" = true
  ∧ run_full_analysis malformed (start "/data/cosmetics.csv" None)
    = (with_output (start "/data/cosmetics.csv" None)
         (unreadable_report "/data/cosmetics.csv"
            (ParserError "Error tokenizing data. C error: Expected 8 fields in line 3, saw 9")),
       Ok ()).
Proof.
  split; [reflexivity|].
  exact (proj2 (unreadable_file_stops_the_run malformed
                  (start "/data/cosmetics.csv" None) _ eq_refl eq_refl)).
Defined.

Lemma load_keeps_records_and_other_columns_witness :
  frame_rows five_rows 5
  ∧ ∃ s' d,
      load_data (fair five_rows) (start "/data/cosmetics.csv" None)
      = (s', Ok true)
      ∧ frame_rows d 5
      ∧ last (stdout (world s'))
        = Some (OutText "yay! Success!! Loaded 5 records")
      ∧ Pandas.get_col d "ChemicalName"
        = Pandas.get_col five_rows "ChemicalName".
Proof.
  assert (Hrows : frame_rows five_rows 5).
  { unfold frame_rows. repeat constructor. }
  split; [exact Hrows|].
  destruct (load_keeps_records_and_other_columns (fair five_rows)
              (start "/data/cosmetics.csv" None) five_rows 5
              eq_refl eq_refl eq_refl Hrows)
    as (s' & d & Hrun & _ & Hd & Hlast & Hcols).
  exists s', d. split; [exact Hrun|]. split; [exact Hd|].
  split; [apply Hlast; discriminate|].
  apply Hcols; [|discriminate].
  apply (bool_decide_unpack _). vm_compute. exact I.
Defined.

Lemma load_coerces_every_date_column_witness :
  "DiscontinuedDate" ∈ date_cols
  ∧ ∃ s' d dates,
      load_data (fair five_rows) (start "/data/cosmetics.csv" None)
      = (s', Ok true)
      ∧ df (self s') = Some d
      ∧ Pandas.get_col d "DiscontinuedDate" = Some dates
      ∧ dates !! 0 = Some NA
      ∧ dates !! 1 = Some (Date (mkTimestamp 2011 1 15 0)).
Proof.
  assert (Hin : "DiscontinuedDate" ∈ date_cols).
  { apply (bool_decide_unpack _). vm_compute. exact I. }
  split; [exact Hin|].
  destruct (load_coerces_every_date_column (fair five_rows)
              (start "/data/cosmetics.csv" None) five_rows
              "DiscontinuedDate" (col five_rows "DiscontinuedDate")
              eq_refl eq_refl eq_refl Hin eq_refl)
    as (s' & d & dates & Hrun & Hdf & Hcol & _ & Hcells).
  exists s', d, dates. split; [exact Hrun|]. split; [exact Hdf|].
  split; [exact Hcol|].
  split; [exact (Hcells 0 NA eq_refl)|].
  exact (Hcells 1 (Str "01/15/2011") eq_refl).
Defined.

Lemma load_adds_only_report_year_witness :
  read_csv (fair no_dates) "/data/cosmetics.csv" = Ok no_dates
  ∧ ∃ s' d,
      load_data (fair no_dates) (start "/data/cosmetics.csv" None)
      = (s', Ok true)
      ∧ df (self s') = Some d
      ∧ d.*1 = no_dates.*1
      ∧ Pandas.get_col d "ReportYear" = None.
Proof.
  split; [reflexivity|].
  destruct (load_adds_only_report_year (fair no_dates)
              (start "/data/cosmetics.csv" None) no_dates
              eq_refl eq_refl eq_refl)
    as (s' & d & Hrun & Hdf & Hnames & Hyear).
  exists s', d. split; [exact Hrun|]. split; [exact Hdf|].
  split; [by rewrite Hnames|]. exact (Hyear eq_refl).
Defined.

Lemma basic_analysis_only_describes_witness :
  df (self (ready no_chemical)) = Some (loaded no_chemical)
  ∧ ∃ s',
      basic_analysis (ready no_chemical) = (s', Ok ())
      ∧ files (world s') = files (world (ready no_chemical))
      ∧ OutText "SubCategory: 4 unique values"
        ∈ unique_count_lines (loaded no_chemical) cat_cols.
Proof.
  split; [reflexivity|].
  destruct (basic_analysis_only_describes (ready no_chemical)
              (loaded no_chemical) eq_refl)
    as (s' & Hrun & (_ & _ & _ & Hfiles & _) & Hlines).
  exists s'. split; [exact Hrun|]. split; [exact Hfiles|].
  apply Hlines. exists "SubCategory", (col (loaded no_chemical) "SubCategory").
  split; [|split; reflexivity].
  apply (bool_decide_unpack _). vm_compute. exact I.
Defined.

Lemma steps_without_dataset_witness :
  df (self (start "/data/cosmetics.csv" None)) = None
  ∧ ∃ s' e,
      chemical_analysis (fair five_rows) (start "/data/cosmetics.csv" None)
      = (s', Raise e)
      ∧ files (world s') = files (world (start "/data/cosmetics.csv" None)).
Proof.
  split; [reflexivity|].
  exact (proj1 (proj2 (steps_without_dataset (fair five_rows)
                         (start "/data/cosmetics.csv" None) eq_refl))).
Defined.

Lemma chemical_analysis_missing_column_witness :
  Pandas.get_col (loaded no_chemical) "ChemicalName" = None
  ∧ chemical_analysis (fair no_chemical) (ready no_chemical)
    = (with_output (ready no_chemical)
         [OutText (nl +:+ "[3/5] beep boop analyzing chemical data.....")],
       Raise (KeyError "ChemicalName")).
Proof.
  split; [reflexivity|].
  exact (proj1 (chemical_analysis_missing_column (fair no_chemical)
                  (ready no_chemical) (loaded no_chemical) eq_refl) eq_refl).
Defined.

Lemma chemical_analysis_chart_failure_witness :
  savefig (platform five_rows always_ok always_fails always_ok)
    (results_file "chemical_trends.png")
  = Some (OSError "[Errno 13] Permission denied")
  ∧ ∃ s',
      chemical_analysis (platform five_rows always_ok always_fails always_ok)
        (ready five_rows)
      = (s', Raise (OSError "[Errno 13] Permission denied"))
      ∧ files (world s') = files (world (ready five_rows))
      ∧ fig_title (figure (world s')) = "Top 5 Chemicals Over Time".
Proof.
  split; [reflexivity|].
  destruct (chemical_analysis_chart_failure
              (platform five_rows always_ok always_fails always_ok)
              (ready five_rows) (loaded five_rows)
              (col (loaded five_rows) "ChemicalName")
              (col (loaded five_rows) "PrimaryCategory")
              (col (loaded five_rows) "ReportYear")
              (OSError "[Errno 13] Permission denied")
              eq_refl eq_refl eq_refl eq_refl eq_refl)
    as (s' & Hrun & _ & _ & Hfiles & Hfig).
  exists s'. split; [exact Hrun|]. split; [exact Hfiles|]. by rewrite Hfig.
Defined.

Lemma product_analysis_plot_failure_witness :
  0 < length (Pandas.dropna (col (loaded five_rows) "DiscontinuedDate"))
  ∧ ∃ s',
      product_analysis no_bars (ready five_rows)
      = (s', Raise (IndexError "index 0 is out of bounds for axis 0 with size 0"))
      ∧ files (world s') = files (world (ready five_rows)).
Proof.
  assert (Hrows : frame_rows (loaded five_rows) 5).
  { unfold frame_rows. vm_compute. repeat constructor. }
  assert (Hsize : 0 < length (Pandas.dropna
                                (col (loaded five_rows) "DiscontinuedDate"))).
  { vm_compute. lia. }
  split; [exact Hsize|].
  destruct (product_analysis_plot_failure no_bars (ready five_rows)
              (loaded five_rows) 5
              (col (loaded five_rows) "CompanyName")
              (col (loaded five_rows) "ProductName")
              (col (loaded five_rows) "ChemicalName")
              (col (loaded five_rows) "PrimaryCategory")
              (col (loaded five_rows) "SubCategory")
              (col (loaded five_rows) "DiscontinuedDate")
              (IndexError "index 0 is out of bounds for axis 0 with size 0")
              eq_refl Hrows eq_refl eq_refl eq_refl eq_refl eq_refl eq_refl
              Hsize eq_refl)
    as (s' & Hrun & _ & _ & Hfiles & _).
  exists s'. split; [exact Hrun|exact Hfiles].
Defined.

Lemma advanced_analysis_rankings_witness :
  Pandas.get_col (loaded five_rows) "BrandName"
  = Some (col (loaded five_rows) "BrandName")
  ∧ (∃ s', advanced_analysis (ready five_rows) = (s', Ok ()))
  ∧ (Str "A2" ∈ (merge_sort Pandas.count_ge
                    (Pandas.groupby_nunique (col (loaded five_rows) "BrandName")
                       (col (loaded five_rows) "ChemicalName"))).*1).
Proof.
  split; [reflexivity|].
  destruct (advanced_analysis_rankings (ready five_rows) (loaded five_rows)
              (col (loaded five_rows) "ProductName")
              (col (loaded five_rows) "ChemicalName")
              (col (loaded five_rows) "BrandName")
              (col (loaded five_rows) "PrimaryCategory")
              eq_refl eq_refl eq_refl eq_refl eq_refl)
    as ((s' & Hrun & _) & _ & _ & Hbrands & _).
  split; [by exists s'|]. apply Hbrands. split; [|discriminate].
  apply (bool_decide_unpack _). vm_compute. exact I.
Defined.

Lemma save_results_missing_column_witness :
  Pandas.get_col (loaded no_chemical) "ChemicalName" = None
  ∧ (save_results (fair no_chemical) (ready no_chemical)).2 = Ok ()
  ∧ files (world (save_results (fair no_chemical) (ready no_chemical)).1)
    = <[out_path (self (ready no_chemical)) "cleaned_data.csv" :=
          CsvFrame (loaded no_chemical)]> (files (world (ready no_chemical))).
Proof.
  split; [reflexivity|].
  destruct (save_results_missing_column (fair no_chemical)
              (ready no_chemical) (loaded no_chemical) eq_refl eq_refl)
    as (Hret & Hchem & _).
  split; [exact Hret|]. exact (proj1 (Hchem eq_refl)).
Defined.

Lemma value_counts_entries_witness :
  (Str "Carbon black", 2) ∈ Pandas.value_counts (col five_rows "ChemicalName")
  ∧ 1 ≤ 2.
Proof.
  assert (Hin : (Str "Carbon black", 2)
                ∈ Pandas.value_counts (col five_rows "ChemicalName")).
  { apply (proj1 (proj2 (proj2 (value_counts_entries
                                  (col five_rows "ChemicalName"))))).
    split; [|split; [discriminate|reflexivity]].
    apply (bool_decide_unpack _). vm_compute. exact I. }
  split; [exact Hin|].
  exact (proj1 (proj2 (proj2 (proj2 (value_counts_entries
                                       (col five_rows "ChemicalName")))))
           _ _ Hin).
Defined.

Lemma company_table_rows_witness :
  mkStatRow (Str "Bolt") 2 2
    ∈ company_table (col five_rows "CompanyName")
        (col five_rows "ProductName") (col five_rows "ChemicalName")
  ∧ 2 ≤ Pandas.count_eq (Str "Bolt") (col five_rows "CompanyName").
Proof.
  assert (Hin : mkStatRow (Str "Bolt") 2 2
                ∈ company_table (col five_rows "CompanyName")
                    (col five_rows "ProductName")
                    (col five_rows "ChemicalName")).
  { vm_compute. apply list_elem_of_further, list_elem_of_here. }
  split; [exact Hin|].
  exact (proj1 (proj2 (proj2 (proj2 (proj2 (company_table_rows
           (col five_rows "CompanyName") (col five_rows "ProductName")
           (col five_rows "ChemicalName")))) _ Hin))).
Defined.

Lemma product_chem_counts_positive_witness :
  length (col five_rows "ProductName") = length (col five_rows "ChemicalName")
  ∧ length (product_chem_counts (col five_rows "ProductName")
              (col five_rows "ChemicalName")) = 4
  ∧ (1 <= 5 # 4)%Q.
Proof.
  split; [reflexivity|].
  destruct (product_chem_counts_positive (col five_rows "ProductName")
              (col five_rows "ChemicalName") eq_refl)
    as (Hlen & _ & _ & Hmean).
  split; [exact Hlen|]. apply Hmean. reflexivity.
Defined.

Lemma full_run_saves_the_tables_witness :
  read_csv (fair five_rows) "/data/cosmetics.csv" = Ok five_rows
  ∧ load_succeeds (fair five_rows) five_rows = true
  ∧ plot_bar (fair five_rows) [] ≠ None
  ∧ ∃ s',
      run_full_analysis (fair five_rows) (start "/data/cosmetics.csv" None)
      = (s', Ok ())
      ∧ files (world s')
          !! out_path (self (start "/data/cosmetics.csv" None))
               "company_stats.csv"
        = Some (CsvStats (company_table (col five_rows "CompanyName")
                            (col five_rows "ProductName")
                            (col five_rows "ChemicalName"))).
Proof.
  split; [reflexivity|]. split; [reflexivity|]. split; [discriminate|].
  destruct (full_run_saves_the_tables (fair five_rows)
              (start "/data/cosmetics.csv" None) five_rows
              (col five_rows "CompanyName") (col five_rows "BrandName")
              (col five_rows "PrimaryCategory") (col five_rows "SubCategory")
              (col five_rows "ProductName") (col five_rows "ChemicalName")
              eq_refl eq_refl eq_refl eq_refl eq_refl eq_refl eq_refl eq_refl
              eq_refl (λ _ _, eq_refl))
    as (s' & Hrun & _ & _ & _ & Hstats & _).
  - intros dd Hdd _. injection Hdd as <-. split; reflexivity.
  - reflexivity.
  - reflexivity.
  - reflexivity.
  - exists s'. split; [exact Hrun|exact Hstats].
Defined.

Lemma run_stops_without_chemical_column_witness :
  Pandas.get_col no_chemical "ChemicalName" = None
  ∧ load_succeeds (fair no_chemical) no_chemical = true
  ∧ ∃ s',
      run_full_analysis (fair no_chemical) (start "/data/cosmetics.csv" None)
      = (s', Raise (KeyError "ChemicalName"))
      ∧ files (world s') = files (world (start "/data/cosmetics.csv" None)).
Proof.
  split; [reflexivity|]. split; [reflexivity|].
  destruct (run_stops_without_chemical_column (fair no_chemical)
              (start "/data/cosmetics.csv" None) no_chemical
              eq_refl eq_refl eq_refl eq_refl)
    as (s' & Hrun & _ & Hfiles & _).
  exists s'. split; [exact Hrun|exact Hfiles].
Defined.

Lemma main_stops_in_constructor_witness :
  makedirs (platform five_rows always_fails always_ok always_ok)
    "/home/user/Desktop/cosmetics_analysis"
  = Some (OSError "[Errno 13] Permission denied")
  ∧ (main (platform five_rows always_fails always_ok always_ok) python3
       empty_world).2
    = Raise (OSError "[Errno 13] Permission denied").
Proof.
  split; [reflexivity|].
  by rewrite (main_stops_in_constructor
                (platform five_rows always_fails always_ok always_ok)
                python3 empty_world _ _ eq_refl eq_refl).
Defined.

Lemma main_without_data_file_witness :
  path_exists (fair five_rows) "/work/data/chemicals-in-cosmetics.csv" = false
  ∧ waits_for_enter python3 = true
  ∧ ∃ w',
      main (fair five_rows) python3 empty_world = (w', Ok ())
      ∧ files w' = files empty_world
      ∧ last (stdout w') = Some (OutText (nl +:+ "Press Enter to exit...")).
Proof.
  split; [reflexivity|]. split; [reflexivity|].
  destruct (main_without_data_file (fair five_rows) python3 empty_world
              eq_refl eq_refl eq_refl)
    as (w' & Hrun & Hfiles & _ & Hout).
  exists w'. split; [exact Hrun|]. split; [exact Hfiles|].
  rewrite Hout. reflexivity.
Defined.

End MoreSamples.
